(** * 360-degree feedback application: a shallow embedding of [src/App.tsx]

    The development follows the source file top to bottom: first the host
    data (JavaScript strings, numbers, the browser's [btoa]), then the
    types of the application, then the event handlers of [App] and the
    views, and finally the properties of the specification.

    Conventions.
    - A JavaScript string is the list of its UTF-16 code units
      ([jsstring]); literals are written [js "text"] for ASCII text.
    - A JavaScript number is the rational it denotes; an arithmetic
      operation rounds its exact result to a double, by a rounding that
      the host provides ([roundToDouble]).
    - Objects held in React state are references into a [Heap]; an object
      literal allocates, and nothing in the source writes to an object
      after its allocation.
    - The payload of the agent is typed [any] in the source.  It is
      modelled at the types the source annotates or uses it at, every
      field being optional. *)

From Stdlib Require Import List String Ascii Bool.
From Stdlib Require Import NArith ZArith QArith Qabs Qround Lia Lqa.
From Stdlib Require Import DecimalString DecimalZ DecimalPos.
Import ListNotations.

Open Scope N_scope.

(* ================================================================== *)
(** ** JavaScript strings *)

Definition jsstring := list N.

Definition js (s : string) : jsstring :=
  map N_of_ascii (list_ascii_of_string s).

Definition jsstring_eqb (a b : jsstring) : bool :=
  if list_eq_dec N.eq_dec a b then true else false.

(** [s.startsWith(p)], the building block of the substring search. *)
Fixpoint startsWith (s p : jsstring) : bool :=
  match p, s with
  | [], _ => true
  | _ :: _, [] => false
  | c :: p', d :: s' => (c =? d) && startsWith s' p'
  end.

(** [s.includes(p)]. *)
Fixpoint includes (s p : jsstring) : bool :=
  startsWith s p ||
  match s with
  | [] => false
  | _ :: s' => includes s' p
  end.

(** [s.split(sep)] for a one-character separator: never the empty array. *)
Fixpoint split (sep : N) (s : jsstring) : list jsstring :=
  match s with
  | [] => [[]]
  | c :: s' =>
      if c =? sep then [] :: split sep s'
      else match split sep s' with
           | [] => [[c]]
           | w :: ws => (c :: w) :: ws
           end
  end.

(** [parts.join(sep)]. *)
Fixpoint join (sep : jsstring) (parts : list jsstring) : jsstring :=
  match parts with
  | [] => []
  | [p] => p
  | p :: ps => p ++ sep ++ join sep ps
  end.

(** ECMAScript WhiteSpace and LineTerminator code units, as [trim] strips
    them. *)
Definition isWhiteSpace (c : N) : bool :=
  existsb (N.eqb c)
    [9; 10; 11; 12; 13; 32; 160; 5760; 8192; 8193; 8194; 8195; 8196; 8197;
     8198; 8199; 8200; 8201; 8202; 8232; 8233; 8239; 8287; 12288; 65279].

Arguments isWhiteSpace : simpl never.

Fixpoint trimStart (s : jsstring) : jsstring :=
  match s with
  | c :: s' => if isWhiteSpace c then trimStart s' else s
  | [] => []
  end.

Definition trimEnd (s : jsstring) : jsstring := rev (trimStart (rev s)).

Definition trim (s : jsstring) : jsstring := trimEnd (trimStart s).

(** Truthiness of a string: the empty string is the only falsy one. *)
Definition truthy (s : jsstring) : bool :=
  match s with [] => false | _ :: _ => true end.

(** [a || b] on strings. *)
Definition orElse (a b : jsstring) : jsstring := if truthy a then a else b.

(* ================================================================== *)
(** ** Exceptions *)

(** A thrown value, as the handlers read it: [err.message]. *)
Record JsError := { message : jsstring }.

Inductive Res (A : Type) : Type :=
| Ok (a : A)
| Throw (e : JsError).
Arguments Ok {A} a.
Arguments Throw {A} e.

(* ================================================================== *)
(** ** The browser's [btoa] *)

Definition b64alphabet : jsstring :=
  js "ABCDEFGHIJKLMNOPQRSTUVWXYZabcdefghijklmnopqrstuvwxyz0123456789+/".

Definition pad : N := 61.

Definition b64char (i : N) : N := nth (N.to_nat i) b64alphabet pad.

(** Three octets give four digits; a last group of one or two octets is
    padded with '='. *)
Fixpoint base64 (s : list N) : jsstring :=
  match s with
  | [] => []
  | [a] => [b64char (a / 4); b64char ((a mod 4) * 16); pad; pad]
  | [a; b] =>
      [b64char (a / 4); b64char ((a mod 4) * 16 + b / 16);
       b64char ((b mod 16) * 4); pad]
  | a :: b :: c :: rest =>
      b64char (a / 4) :: b64char ((a mod 4) * 16 + b / 16)
      :: b64char ((b mod 16) * 4 + c / 64) :: b64char (c mod 64)
      :: base64 rest
  end.

Definition isLatin1 (s : jsstring) : bool := forallb (fun c => c <=? 255) s.

(** The DOMException that [btoa] throws; its message is the browser's,
    Chrome's being taken here. *)
Definition InvalidCharacterError : JsError :=
  {| message := js "Failed to execute 'btoa' on 'Window': The string to be encoded contains characters outside of the Latin1 range." |}.

(** [btoa(s)] throws InvalidCharacterError when a code unit exceeds 0xFF. *)
Definition btoa (s : jsstring) : Res jsstring :=
  if isLatin1 s then Ok (base64 s) else Throw InvalidCharacterError.

(** The inverse reading of a base64 text; the source never calls it, it
    serves to show that [btoa] loses nothing. *)
Fixpoint index_of (c : N) (l : list N) : option N :=
  match l with
  | [] => None
  | d :: l' =>
      if c =? d then Some 0
      else match index_of c l' with
           | Some i => Some (N.succ i)
           | None => None
           end
  end.

Definition b64val (c : N) : option N := index_of c b64alphabet.

Fixpoint atob (t : jsstring) : option (list N) :=
  match t with
  | [] => Some []
  | c1 :: c2 :: c3 :: c4 :: rest =>
      match b64val c1, b64val c2 with
      | Some i1, Some i2 =>
          let a := i1 * 4 + i2 / 16 in
          if c3 =? pad then Some [a]
          else match b64val c3 with
               | Some i3 =>
                   let b := (i2 mod 16) * 16 + i3 / 4 in
                   if c4 =? pad then Some [a; b]
                   else match b64val c4, atob rest with
                        | Some i4, Some bs =>
                            Some (a :: b :: (i3 mod 4) * 64 + i4 :: bs)
                        | _, _ => None
                        end
               | None => None
               end
      | _, _ => None
      end
  | _ => None
  end.

(* ================================================================== *)
(** ** The reviewer token of [handleSubmit]

    [const reviewerId = btoa(`${r.email}-${assessmentId}`)] *)

Definition dash : N := 45.

Definition reviewerId (email assessmentId : jsstring) : Res jsstring :=
  btoa (email ++ [dash] ++ assessmentId).

Definition dashFree (s : jsstring) : bool := forallb (fun c => negb (c =? dash)) s.

(* ================================================================== *)
(** ** JavaScript numbers *)

Definition quote : jsstring := [34].
Definition nl : jsstring := [10].

(** Decimal digits of an integer, with a leading '-' when negative. *)
Definition decimal (z : Z) : jsstring := js (NilZero.string_of_int (Z.to_int z)).

Definition isDigit (c : N) : bool := (48 <=? c) && (c <=? 57).

Definition isInteger (x : Q) : bool := (Zpos (Qden (Qred x)) =? 1)%Z.

Definition tenTo21 : Q := inject_Z (10 ^ 21).

(** What the engine and the locale decide, and the source only calls. *)
Class Host := {
  (** the double nearest to a real number: every arithmetic operation
      rounds its exact result with it *)
  roundToDouble : Q -> Q;
  roundToDouble_monotone :
    forall x y : Q, (x <= y)%Q -> (roundToDouble x <= roundToDouble y)%Q;
  roundToDouble_integer :
    forall z : Z, (Z.abs z <= 2 ^ 53)%Z -> (roundToDouble (inject_Z z) == inject_Z z)%Q;
  (** [Number::toString] of a number that is no integer below 10^21 *)
  numberToStringOther : Q -> jsstring;
  (** [String.prototype.toLowerCase] of a text beyond Latin-1 *)
  toLowerCaseUnicode : jsstring -> jsstring;
  (** [new Date(iso).toLocaleDateString()] *)
  toLocaleDateString : jsstring -> jsstring
}.

Section WithHost.
Context {host : Host}.

(** [x * y] and [x / y]. *)
Definition times (x y : Q) : Q := roundToDouble (x * y).
Definition dividedBy (x y : Q) : Q := roundToDouble (x / y).

(** [`${x}`] and [String(x)] of a number. *)
Definition numberToString (x : Q) : jsstring :=
  if isInteger x && negb (Qle_bool tenTo21 (Qabs x))
  then decimal (Qnum (Qred x))
  else numberToStringOther x.

(** The integer [n] for which [n - x] is closest to zero, the larger of
    the two when there are two (Number.prototype.toFixed, step 10.a). *)
Definition nearestInteger (x : Q) : Z :=
  let f := Qfloor x in
  if Qle_bool (inject_Z (f + 1) - x) (x - inject_Z f) then (f + 1)%Z else f.

(** [x.toFixed(0)]: the sign is set apart, then a magnitude of 10^21 or
    more is printed as [String] prints it, any other as the digits of its
    nearest integer. *)
Definition toFixed0 (x : Q) : jsstring :=
  let s := if Qlt_le_dec x 0 then js "-" else [] in
  let x := Qabs x in
  if Qle_bool tenTo21 x then s ++ numberToString x
  else s ++ decimal (nearestInteger x).

(** [s.toLowerCase()]: on Latin-1 text only A-Z and the capital letters
    U+00C0..U+00DE (the sign U+00D7 apart) change, each moving up by 32. *)
Definition lowerLatin1 (c : N) : N :=
  if ((65 <=? c) && (c <=? 90)) || ((192 <=? c) && (c <=? 222) && negb (c =? 215))
  then c + 32 else c.

Definition toLowerCase (s : jsstring) : jsstring :=
  if isLatin1 s then map lowerLatin1 s else toLowerCaseUnicode s.

End WithHost.

(* ================================================================== *)
(** ** Types *)

Inductive Status := draft | sent | completed.

Module FormLink.
Record t := {
  email : jsstring;
  link : jsstring;
  status : jsstring;
  reviewerName : jsstring
}.
End FormLink.

Module Scores.
Record t := {
  leadership_vision : Z;
  communication_influence : Z;
  experience_expertise : Z;
  cultural_fit : Z;
  team_management : Z
}.
End Scores.

Module TextResponses.
Record t := {
  leadership_vision : jsstring;
  communication_influence : jsstring;
  experience_expertise : jsstring;
  cultural_fit : jsstring;
  team_management : jsstring
}.
End TextResponses.

Module FeedbackSubmission.
Record t := {
  reviewerEmail : jsstring;
  reviewerName : jsstring;
  submissionTimestamp : jsstring;
  scores : Scores.t;
  textResponses : TextResponses.t
}.
End FeedbackSubmission.

Module CriterionScore.
Record t := {
  score : Q;
  feedback : jsstring
}.
End CriterionScore.

(** The agent's payload, [feedback?: any] in [FeedbackRequest]: the fields
    the views read, each of them possibly missing. *)
Module ConsensusAreas.
Record t := {
  strong_agreement : option jsstring;
  areas_of_disagreement : option jsstring
}.
End ConsensusAreas.

Module Summary.
Record t := {
  overall_score : option Q;
  total_responses : option Q;
  completion_percentage : option Q;
  recommendation : option jsstring;
  recommendation_rationale : option jsstring;
  key_strengths : option (list jsstring);
  key_concerns : option (list jsstring);
  (** an object, as the list of its entries in [Object.entries] order *)
  criterion_breakdown : option (list (jsstring * CriterionScore.t));
  consensus_areas : option ConsensusAreas.t;
  executive_summary : option jsstring
}.

(** The object literal [{}]. *)
Definition empty : t :=
  {| overall_score := None; total_responses := None;
     completion_percentage := None; recommendation := None;
     recommendation_rationale := None; key_strengths := None;
     key_concerns := None; criterion_breakdown := None;
     consensus_areas := None; executive_summary := None |}.
End Summary.

Module Feedback.
Record t := {
  feedback_summary : option Summary.t
}.

Definition empty : t := {| feedback_summary := None |}.
End Feedback.

Module FeedbackRequest.
Record t := {
  id : jsstring;
  candidateName : jsstring;
  candidateRole : jsstring;
  reviewerEmails : list jsstring;
  reviewerNames : list jsstring;
  status : Status;
  createdAt : jsstring;
  formLinks : list FormLink.t;
  feedback : option Feedback.t;
  responses : list FeedbackSubmission.t
}.
End FeedbackRequest.

(* ================================================================== *)
(** ** Objects and React state *)

(** A reference to a [FeedbackRequest] object.  Objects are allocated at
    the end of the heap and never written again. *)
Definition ref := nat.
Definition Heap := list FeedbackRequest.t.

Definition deref (h : Heap) (r : ref) : option FeedbackRequest.t := nth_error h r.

Definition alloc (h : Heap) (o : FeedbackRequest.t) : Heap * ref :=
  (h ++ [o], List.length h).

Inductive View := input | dashboard | feedback.

(** The [useState] cells of [App]. *)
Record AppState := {
  currentView : View;
  requests : list ref;
  selectedRequest : option ref;
  loading : bool;
  error : jsstring;
  successMessage : jsstring;
  feedbackReviewerEmail : jsstring;
  feedbackReviewerId : jsstring
}.

Record World := {
  heap : Heap;
  app : AppState
}.

Definition setCurrentView (v : View) (w : World) : World :=
  {| heap := heap w;
     app := {| currentView := v; requests := requests (app w);
               selectedRequest := selectedRequest (app w);
               loading := loading (app w); error := error (app w);
               successMessage := successMessage (app w);
               feedbackReviewerEmail := feedbackReviewerEmail (app w);
               feedbackReviewerId := feedbackReviewerId (app w) |} |}.

Definition setRequests (rs : list ref) (w : World) : World :=
  {| heap := heap w;
     app := {| currentView := currentView (app w); requests := rs;
               selectedRequest := selectedRequest (app w);
               loading := loading (app w); error := error (app w);
               successMessage := successMessage (app w);
               feedbackReviewerEmail := feedbackReviewerEmail (app w);
               feedbackReviewerId := feedbackReviewerId (app w) |} |}.

Definition setSelectedRequest (r : option ref) (w : World) : World :=
  {| heap := heap w;
     app := {| currentView := currentView (app w); requests := requests (app w);
               selectedRequest := r;
               loading := loading (app w); error := error (app w);
               successMessage := successMessage (app w);
               feedbackReviewerEmail := feedbackReviewerEmail (app w);
               feedbackReviewerId := feedbackReviewerId (app w) |} |}.

Definition setLoading (b : bool) (w : World) : World :=
  {| heap := heap w;
     app := {| currentView := currentView (app w); requests := requests (app w);
               selectedRequest := selectedRequest (app w);
               loading := b; error := error (app w);
               successMessage := successMessage (app w);
               feedbackReviewerEmail := feedbackReviewerEmail (app w);
               feedbackReviewerId := feedbackReviewerId (app w) |} |}.

Definition setError (e : jsstring) (w : World) : World :=
  {| heap := heap w;
     app := {| currentView := currentView (app w); requests := requests (app w);
               selectedRequest := selectedRequest (app w);
               loading := loading (app w); error := e;
               successMessage := successMessage (app w);
               feedbackReviewerEmail := feedbackReviewerEmail (app w);
               feedbackReviewerId := feedbackReviewerId (app w) |} |}.

Definition setSuccessMessage (m : jsstring) (w : World) : World :=
  {| heap := heap w;
     app := {| currentView := currentView (app w); requests := requests (app w);
               selectedRequest := selectedRequest (app w);
               loading := loading (app w); error := error (app w);
               successMessage := m;
               feedbackReviewerEmail := feedbackReviewerEmail (app w);
               feedbackReviewerId := feedbackReviewerId (app w) |} |}.

Definition setFeedbackReviewerEmail (e : jsstring) (w : World) : World :=
  {| heap := heap w;
     app := {| currentView := currentView (app w); requests := requests (app w);
               selectedRequest := selectedRequest (app w);
               loading := loading (app w); error := error (app w);
               successMessage := successMessage (app w);
               feedbackReviewerEmail := e;
               feedbackReviewerId := feedbackReviewerId (app w) |} |}.

Definition setFeedbackReviewerId (i : jsstring) (w : World) : World :=
  {| heap := heap w;
     app := {| currentView := currentView (app w); requests := requests (app w);
               selectedRequest := selectedRequest (app w);
               loading := loading (app w); error := error (app w);
               successMessage := successMessage (app w);
               feedbackReviewerEmail := feedbackReviewerEmail (app w);
               feedbackReviewerId := i |} |}.

(** [new FeedbackRequest] stored in the heap of [w]. *)
Definition newObject (o : FeedbackRequest.t) (w : World) : World * ref :=
  let (h, r) := alloc (heap w) o in ({| heap := h; app := app w |}, r).

(* ================================================================== *)
(** ** The agent and the clock *)

(** [callAIAgent(message, agentId)]. *)
Record AgentCall := {
  prompt : jsstring;
  agentId : jsstring
}.

(** [parseLLMJson(response.response, {})]: an object that may carry the
    payload in its [result] field or be the payload itself. *)
Record AgentData := {
  result : option Feedback.t;
  self : Feedback.t
}.

(** How the awaited call ends: it resolves and its response parses to
    [data], or the promise rejects with [err]. *)
Inductive AgentOutcome :=
| Resolved (data : AgentData)
| Rejected (err : JsError).

(** What the handler reads from the browser when it resumes. *)
Record Env := {
  now : Z;              (* Date.now() *)
  isoNow : jsstring;    (* new Date().toISOString() *)
  origin : jsstring     (* window.location.origin *)
}.

(** An async handler runs to its end, or to its [await]: the state it
    leaves there, the call it awaits, and how it resumes from the outcome
    of the call in the state it then finds. *)
Inductive Run :=
| Finished (w : World)
| Suspended (w : World) (call : AgentCall)
            (resume : AgentOutcome -> Env -> World -> World).

(** The call a run awaits, if it awaits one. *)
Definition awaited (r : Run) : option AgentCall :=
  match r with
  | Finished _ => None
  | Suspended _ call _ => Some call
  end.

Definition theAgent : jsstring := js "68f90a3671c6b27d6c8e8b5b".

(* ================================================================== *)
(** ** [App.handleSubmit] *)

(** One line of the reviewer text, ["Name|email@example.com"]:
    [const [name, email] = line.split('|').map(s => s.trim())] and
    [{ name: name || '', email }]. *)
Record ParsedLine := {
  parsedName : jsstring;
  parsedEmail : option jsstring   (* undefined when the line has no '|' *)
}.

Definition parseLine (line : jsstring) : ParsedLine :=
  match map trim (split 124 line) with
  | [] => {| parsedName := []; parsedEmail := None |}
  | [name] => {| parsedName := orElse name []; parsedEmail := None |}
  | name :: email :: _ => {| parsedName := orElse name []; parsedEmail := Some email |}
  end.

(** The filter [r => r.email && r.email.includes('@')]. *)
Definition hasEmail (r : ParsedLine) : bool :=
  match parsedEmail r with
  | Some e => truthy e && includes e (js "@")
  | None => false
  end.

Record Reviewer := {
  name : jsstring;
  email : jsstring
}.

(** After the filter every [email] is a string. *)
Definition narrow (r : ParsedLine) : list Reviewer :=
  match parsedEmail r with
  | Some e => [{| name := parsedName r; email := e |}]
  | None => []
  end.

Definition parseReviewers (reviewerData : jsstring) : list ParsedLine :=
  map parseLine (split 10 reviewerData).

Definition reviewerList (reviewerData : jsstring) : list Reviewer :=
  flat_map narrow (filter hasEmail (parseReviewers reviewerData)).

Definition createMessage (candidateName candidateRole emailList : jsstring) : jsstring :=
  join nl
    [js "Please process feedback collection for:";
     js "      - Candidate Name: " ++ candidateName;
     js "      - Candidate Role: " ++ candidateRole;
     js "      - Reviewer Emails: " ++ emailList;
     [];
     js "      Generate unique feedback form links for each reviewer and send invitations. Then track responses and provide analysis."].

(** [reviewerList.map(r => { const reviewerId = btoa(...); return {...} })]:
    the first [btoa] that throws ends the loop. *)
Definition formLink (origin assessmentId : jsstring) (r : Reviewer) : Res FormLink.t :=
  match reviewerId (email r) assessmentId with
  | Ok token =>
      Ok {| FormLink.email := email r;
            FormLink.reviewerName := name r;
            FormLink.link :=
              origin ++ js "?reviewerId=" ++ token ++ js "&email=" ++ email r
              ++ js "&assessmentId=" ++ assessmentId;
            FormLink.status := js "sent" |}
  | Throw e => Throw e
  end.

Fixpoint mapRes {A B : Type} (f : A -> Res B) (l : list A) : Res (list B) :=
  match l with
  | [] => Ok []
  | a :: l' =>
      match f a with
      | Throw e => Throw e
      | Ok b => match mapRes f l' with
                | Throw e => Throw e
                | Ok bs => Ok (b :: bs)
                end
      end
  end.

(** The [try] block after the [await]: [requests] is the array the
    handler captured when it was called, [w] the state it resumes in. *)
Definition createRequest (requests : list ref) (candidateName candidateRole : jsstring)
    (reviewers : list Reviewer) (data : AgentData) (env : Env) (w : World) : Res World :=
  let feedbackData := match result data with Some r => r | None => self data end in
  let assessmentId := decimal (now env) in
  match mapRes (formLink (origin env) assessmentId) reviewers with
  | Throw e => Throw e
  | Ok formLinks =>
      let newRequest :=
        {| FeedbackRequest.id := assessmentId;
           FeedbackRequest.candidateName := candidateName;
           FeedbackRequest.candidateRole := candidateRole;
           FeedbackRequest.reviewerEmails := map email reviewers;
           FeedbackRequest.reviewerNames := map name reviewers;
           FeedbackRequest.status := sent;
           FeedbackRequest.createdAt := isoNow env;
           FeedbackRequest.formLinks := formLinks;
           FeedbackRequest.feedback := Some feedbackData;
           FeedbackRequest.responses := [] |} in
      let (w1, r) := newObject newRequest w in
      Ok (setCurrentView dashboard
           (setSuccessMessage (js "Assessment created! Share the feedback form links with reviewers.")
             (setSelectedRequest (Some r)
               (setRequests (requests ++ [r]) w1))))
  end.

Definition handleSubmit (w : World) (candidateName candidateRole reviewerData : jsstring) : Run :=
  let requests := requests (app w) in
  let w := setSuccessMessage [] (setError [] w) in
  if negb (truthy (trim candidateName)) || negb (truthy (trim candidateRole))
     || negb (truthy (trim reviewerData))
  then Finished (setError (js "Please fill in all fields") w)
  else
    let reviewers := reviewerList reviewerData in
    if (List.length reviewers =? 0)%nat
    then Finished (setError (js "Please enter at least one valid reviewer with email") w)
    else
      let emailList := join (js ", ") (map email reviewers) in
      Suspended (setLoading true w)
        {| prompt := createMessage candidateName candidateRole emailList;
           agentId := theAgent |}
        (fun outcome env w' =>
           setLoading false
             match outcome with
             | Rejected err => setError (orElse (message err) (js "Failed to process request")) w'
             | Resolved data =>
                 match createRequest requests candidateName candidateRole reviewers data env w' with
                 | Ok w'' => w''
                 | Throw err => setError (orElse (message err) (js "Failed to process request")) w'
                 end
             end).

(* ================================================================== *)
(** ** [FeedbackFormView.handleSubmit] and [App.handleFeedbackSubmit] *)

(** [arr.indexOf(x)]: -1 when [x] is no element. *)
Fixpoint indexOf (arr : list jsstring) (x : jsstring) : Z :=
  match arr with
  | [] => (-1)%Z
  | y :: arr' =>
      if jsstring_eqb y x then 0%Z
      else let i := indexOf arr' x in if (i <? 0)%Z then (-1)%Z else (i + 1)%Z
  end.

(** [arr[i]]: undefined outside the array. *)
Definition at_index {A : Type} (arr : list A) (i : Z) : option A :=
  if (i <? 0)%Z then None else nth_error arr (Z.to_nat i).

(** [x || d] for a string that may be undefined. *)
Definition orDefault (x : option jsstring) (d : jsstring) : jsstring :=
  match x with
  | Some s => orElse s d
  | None => d
  end.

(** The submission the form builds from its props and its two state
    cells, [isoNow] being [new Date().toISOString()]. *)
Definition buildSubmission (request : FeedbackRequest.t) (reviewerEmail : jsstring)
    (scores : Scores.t) (textResponses : TextResponses.t) (isoNow : jsstring)
    : FeedbackSubmission.t :=
  {| FeedbackSubmission.reviewerEmail := reviewerEmail;
     FeedbackSubmission.reviewerName :=
       orDefault
         (at_index (FeedbackRequest.reviewerNames request)
                   (indexOf (FeedbackRequest.reviewerEmails request) reviewerEmail))
         reviewerEmail;
     FeedbackSubmission.submissionTimestamp := isoNow;
     FeedbackSubmission.scores := scores;
     FeedbackSubmission.textResponses := textResponses |}.

(** [{ ...selectedRequest, responses: [...selectedRequest.responses, submission] }] *)
Definition updatedRequest (selectedRequest : FeedbackRequest.t)
    (submission : FeedbackSubmission.t) : FeedbackRequest.t :=
  {| FeedbackRequest.id := FeedbackRequest.id selectedRequest;
     FeedbackRequest.candidateName := FeedbackRequest.candidateName selectedRequest;
     FeedbackRequest.candidateRole := FeedbackRequest.candidateRole selectedRequest;
     FeedbackRequest.reviewerEmails := FeedbackRequest.reviewerEmails selectedRequest;
     FeedbackRequest.reviewerNames := FeedbackRequest.reviewerNames selectedRequest;
     FeedbackRequest.status := FeedbackRequest.status selectedRequest;
     FeedbackRequest.createdAt := FeedbackRequest.createdAt selectedRequest;
     FeedbackRequest.formLinks := FeedbackRequest.formLinks selectedRequest;
     FeedbackRequest.feedback := FeedbackRequest.feedback selectedRequest;
     FeedbackRequest.responses := FeedbackRequest.responses selectedRequest ++ [submission] |}.

(** [JSON.stringify(submission.scores)]. *)
Definition stringifyScores (s : Scores.t) : jsstring :=
  js "{"
  ++ quote ++ js "leadership_vision" ++ quote ++ js ":" ++ decimal (Scores.leadership_vision s)
  ++ js "," ++ quote ++ js "communication_influence" ++ quote ++ js ":"
  ++ decimal (Scores.communication_influence s)
  ++ js "," ++ quote ++ js "experience_expertise" ++ quote ++ js ":"
  ++ decimal (Scores.experience_expertise s)
  ++ js "," ++ quote ++ js "cultural_fit" ++ quote ++ js ":" ++ decimal (Scores.cultural_fit s)
  ++ js "," ++ quote ++ js "team_management" ++ quote ++ js ":"
  ++ decimal (Scores.team_management s)
  ++ js "}".

Definition notifyMessage (updated : FeedbackRequest.t) (submission : FeedbackSubmission.t)
    : jsstring :=
  join nl
    [js "New feedback received for " ++ FeedbackRequest.candidateName updated ++ js ":";
     js "      Reviewer: " ++ FeedbackSubmission.reviewerName submission ++ js " ("
       ++ FeedbackSubmission.reviewerEmail submission ++ js ")";
     js "      Scores: " ++ stringifyScores (FeedbackSubmission.scores submission)].

(** [requests.map(r => (r.id === selectedRequest.id ? updatedRequest : r))] *)
Definition replaceById (h : Heap) (selectedId : jsstring) (updated : ref) (r : ref) : ref :=
  match deref h r with
  | Some o => if jsstring_eqb (FeedbackRequest.id o) selectedId then updated else r
  | None => r
  end.

Definition handleFeedbackSubmit (w : World) (submission : FeedbackSubmission.t) : Run :=
  match selectedRequest (app w) with
  | None => Finished w
  | Some sel =>
      match deref (heap w) sel with
      | None => Finished w   (* no reference dangles *)
      | Some selected =>
          let requests := requests (app w) in
          let w := setLoading true w in
          let (w, updated) := newObject (updatedRequest selected submission) w in
          let w := setRequests
                     (map (replaceById (heap w) (FeedbackRequest.id selected) updated) requests) w in
          let w := setSelectedRequest (Some updated) w in
          let w := setSuccessMessage (js "Thank you! Your feedback has been submitted.") w in
          let w := setCurrentView input w in
          let w := setFeedbackReviewerId [] w in
          let w := setFeedbackReviewerEmail [] w in
          Suspended w
            {| prompt := notifyMessage (updatedRequest selected submission) submission;
               agentId := theAgent |}
            (fun outcome _ w' =>
               setLoading false
                 match outcome with
                 | Resolved _ => w'
                 | Rejected err =>
                     setError (orElse (message err) (js "Failed to submit feedback")) w'
                 end)
      end
  end.

(** The form's submit button, end to end: the form of the [feedback] view
    is bound to the selected request and to [feedbackReviewerEmail]. *)
Definition submitFeedbackForm (w : World) (scores : Scores.t)
    (textResponses : TextResponses.t) (isoNow : jsstring) : Run :=
  match selectedRequest (app w) with
  | None => Finished w
  | Some sel =>
      match deref (heap w) sel with
      | None => Finished w
      | Some request =>
          handleFeedbackSubmit w
            (buildSubmission request (feedbackReviewerEmail (app w)) scores textResponses isoNow)
      end
  end.

(* ================================================================== *)
(** ** Helper functions and views *)

Definition green : jsstring := js "bg-gradient-to-br from-green-50 to-emerald-50".
Definition blue : jsstring := js "bg-gradient-to-br from-blue-50 to-cyan-50".
Definition amber : jsstring := js "bg-gradient-to-br from-amber-50 to-yellow-50".
Definition orange : jsstring := js "bg-gradient-to-br from-orange-50 to-red-50".
Definition red : jsstring := js "bg-gradient-to-br from-red-50 to-rose-50".
Definition slate : jsstring := js "bg-gradient-to-br from-slate-50 to-slate-100".

Definition bullet : jsstring := [8226].

(** [`${x}`] of a string that may be undefined. *)
Definition interpolate (x : option jsstring) : jsstring :=
  match x with
  | Some s => s
  | None => js "undefined"
  end.

(** [{x}] as a React child: undefined renders nothing. *)
Definition child (x : option jsstring) : jsstring :=
  match x with
  | Some s => s
  | None => []
  end.

(** [x || 0] on a number that may be undefined. *)
Definition orZero (x : option Q) : Q :=
  match x with
  | Some q => if Qeq_bool q 0 then 0%Q else q
  | None => 0%Q
  end.

(** [xs || []]. *)
Definition orEmpty {A : Type} (xs : option (list A)) : list A :=
  match xs with
  | Some l => l
  | None => []
  end.

(** [arr.slice(0, n)]. *)
Definition slice0 {A : Type} (n : nat) (arr : list A) : list A := firstn n arr.

(** [obj[key]]. *)
Fixpoint lookup {A : Type} (obj : list (jsstring * A)) (key : jsstring) : option A :=
  match obj with
  | [] => None
  | (k, v) :: obj' => if jsstring_eqb k key then Some v else lookup obj' key
  end.

Record Criterion := {
  key : jsstring;
  label : jsstring
}.

Definition criteriaList : list Criterion :=
  [ {| key := js "leadership_vision"; label := js "Leadership & Vision" |};
    {| key := js "communication_influence"; label := js "Communication & Influence" |};
    {| key := js "experience_expertise"; label := js "Experience & Expertise" |};
    {| key := js "cultural_fit"; label := js "Cultural Fit" |};
    {| key := js "team_management"; label := js "Team Management" |} ].

(** [criterionBreakdown[criterion.key] || { score: 0, feedback: '' }] *)
Definition criterionData (criterionBreakdown : list (jsstring * CriterionScore.t))
    (c : Criterion) : CriterionScore.t :=
  match lookup criterionBreakdown (key c) with
  | Some data => data
  | None => {| CriterionScore.score := 0%Q; CriterionScore.feedback := [] |}
  end.

(** What [SummaryView] puts on the screen. *)
Record CriterionRow := {
  rowLabel : jsstring;
  rowBadge : jsstring;               (* {data.score}/5 *)
  rowProgress : Q;                   (* (data.score / 5) * 100 *)
  rowFeedback : option jsstring      (* data.feedback && <p>...</p> *)
}.

Record SummaryScreen := {
  scoreText : jsstring;              (* {(overallScore * 20).toFixed(0)}% *)
  scoreProgress : Q;                 (* overallScore * 20 *)
  basedOn : jsstring;
  recommendationColor : jsstring;
  recommendationText : jsstring;
  rationaleText : jsstring;
  criterionRows : list CriterionRow;
  strengthItems : list jsstring;
  concernItems : list jsstring
}.

Section Views.
Context {host : Host}.

Definition getRecommendationColor (recommendation : option jsstring) : jsstring :=
  let rec := orElse (match recommendation with
                     | Some r => toLowerCase r
                     | None => []
                     end) [] in
  if includes rec (js "strong hire") then green
  else if includes rec (js "hire") then blue
  else if includes rec (js "consider") then amber
  else if includes rec (js "caution") then orange
  else if includes rec (js "do not") then red
  else slate.

Definition criterionRow (criterionBreakdown : list (jsstring * CriterionScore.t))
    (c : Criterion) : CriterionRow :=
  let data := criterionData criterionBreakdown c in
  {| rowLabel := label c;
     rowBadge := numberToString (CriterionScore.score data) ++ js "/5";
     rowProgress := times (dividedBy (CriterionScore.score data) 5) 100;
     rowFeedback := if truthy (CriterionScore.feedback data)
                    then Some (CriterionScore.feedback data) else None |}.

Definition SummaryView (feedback : Feedback.t) : SummaryScreen :=
  let summary := match Feedback.feedback_summary feedback with
                 | Some s => s
                 | None => Summary.empty
                 end in
  let criterionBreakdown := orEmpty (Summary.criterion_breakdown summary) in
  let overallScore := orZero (Summary.overall_score summary) in
  {| scoreText := toFixed0 (times overallScore 20) ++ js "%";
     scoreProgress := times overallScore 20;
     basedOn := js "Based on " ++ numberToString (orZero (Summary.total_responses summary))
                ++ js " responses ("
                ++ numberToString (orZero (Summary.completion_percentage summary))
                ++ js "% complete)";
     recommendationColor := getRecommendationColor (Summary.recommendation summary);
     recommendationText := child (Summary.recommendation summary);
     rationaleText := child (Summary.recommendation_rationale summary);
     criterionRows := map (criterionRow criterionBreakdown) criteriaList;
     strengthItems := slice0 3 (orEmpty (Summary.key_strengths summary));
     concernItems := slice0 3 (orEmpty (Summary.key_concerns summary)) |}.

(** The sections of the report, one definition per interpolated block. *)
Definition strengthLines (feedback : Summary.t) : jsstring :=
  join nl (map (fun s => bullet ++ js " " ++ s) (orEmpty (Summary.key_strengths feedback))).

Definition concernLines (feedback : Summary.t) : jsstring :=
  join nl (map (fun c => bullet ++ js " " ++ c) (orEmpty (Summary.key_concerns feedback))).

Definition breakdownLines (feedback : Summary.t) : jsstring :=
  join nl
    (map (fun entry : jsstring * CriterionScore.t =>
            let (key, data) := entry in
            key ++ js ": " ++ numberToString (CriterionScore.score data) ++ js "/5 - "
            ++ CriterionScore.feedback data)
         (orEmpty (Summary.criterion_breakdown feedback))).

Definition overallScoreLine (feedback : Summary.t) : jsstring :=
  js "Overall Score: " ++ toFixed0 (times (orZero (Summary.overall_score feedback)) 20)
  ++ js "%".

(** The lines of the template literal of [generatePDFContent], the line
    that opens it and the line that closes it included. *)
Definition reportLines (request : FeedbackRequest.t) : list jsstring :=
  let feedback :=
    match FeedbackRequest.feedback request with
    | Some f => match Feedback.feedback_summary f with
                | Some s => s
                | None => Summary.empty
                end
    | None => Summary.empty
    end in
    [ [];
      js "FEEDBACK ASSESSMENT REPORT";
      js "==========================";
      [];
      js "Candidate: " ++ FeedbackRequest.candidateName request;
      js "Position: " ++ FeedbackRequest.candidateRole request;
      js "Assessment Date: " ++ toLocaleDateString (FeedbackRequest.createdAt request);
      [];
      js "OVERALL SCORE";
      js "=============";
      overallScoreLine feedback;
      js "Total Responses: " ++ numberToString (orZero (Summary.total_responses feedback));
      js "Completion: " ++ numberToString (orZero (Summary.completion_percentage feedback))
        ++ js "%";
      [];
      js "RECOMMENDATION";
      js "==============";
      js "Recommendation: " ++ interpolate (Summary.recommendation feedback);
      js "Rationale: " ++ interpolate (Summary.recommendation_rationale feedback);
      [];
      js "KEY STRENGTHS";
      js "=============";
      strengthLines feedback;
      [];
      js "KEY CONCERNS";
      js "============";
      concernLines feedback;
      [];
      js "CRITERION BREAKDOWN";
      js "===================";
      breakdownLines feedback;
      [];
      js "CONSENSUS AREAS";
      js "===============";
      js "Strong Agreement: "
        ++ interpolate match Summary.consensus_areas feedback with
                       | Some c => ConsensusAreas.strong_agreement c
                       | None => None
                       end;
      js "Areas of Disagreement: "
        ++ interpolate match Summary.consensus_areas feedback with
                       | Some c => ConsensusAreas.areas_of_disagreement c
                       | None => None
                       end;
      [];
      js "EXECUTIVE SUMMARY";
      js "=================";
      interpolate (Summary.executive_summary feedback);
      js "  " ].

Definition generatePDFContent (request : FeedbackRequest.t) : jsstring :=
  trim (join nl (reportLines request)).

End Views.

(** [handleSelectAssessmentForFeedback]: the "Give Feedback" screen binds
    the form to the chosen assessment and to the email typed there. *)
Definition handleSelectAssessmentForFeedback (w : World) (assessment : ref) (email : jsstring)
    : World :=
  setFeedbackReviewerEmail email (setSelectedRequest (Some assessment) w).

(** What ties a form link to the reviewer email at its position: the
    link carries the email, and the token of the email and the id, which
    no other pair shares when the clock reading is not negative. *)
Definition linkedTo (env : Env) (assessmentId : jsstring) (l : FormLink.t) (e : jsstring) : Prop :=
  FormLink.email l = e
  /\ exists token,
       reviewerId e assessmentId = Ok token
       /\ FormLink.link l =
          origin env ++ js "?reviewerId=" ++ token ++ js "&email=" ++ e
          ++ js "&assessmentId=" ++ assessmentId
       /\ ((0 <= now env)%Z ->
           forall e' id', dashFree id' = true -> reviewerId e' id' = Ok token ->
                          e' = e /\ id' = assessmentId).

(** The message a reviewer reads after submitting. *)
Definition thanks : jsstring := js "Thank you! Your feedback has been submitted.".

(** [App]'s initial state: every [useState] cell at its default. *)
Definition initialWorld : World :=
  {| heap := [];
     app := {| currentView := input; requests := []; selectedRequest := None;
               loading := false; error := []; successMessage := [];
               feedbackReviewerEmail := []; feedbackReviewerId := [] |} |}.

(** [handleExportPDF] up to the download: nothing without a selected
    request that carries a payload. *)
Definition handleExportPDF {host : Host} (w : World) : option jsstring :=
  match selectedRequest (app w) with
  | None => None
  | Some sel =>
      match deref (heap w) sel with
      | None => None
      | Some request =>
          match FeedbackRequest.feedback request with
          | None => None
          | Some _ => Some (generatePDFContent request)
          end
      end
  end.

(* ================================================================== *)
(** ** The specification's table of recommendation classes

    This table is written from the specification (section 4.4), to be
    compared with the chain of tests in [getRecommendationColor]. *)

Inductive Visual :=
| strong_positive
| positive
| neutral_caution
| negative_lean
| strong_negative
| neutral_unknown.

Definition priorityList : list (jsstring * Visual) :=
  [ (js "strong hire", strong_positive);
    (js "hire", positive);
    (js "consider", neutral_caution);
    (js "caution", negative_lean);
    (js "do not", strong_negative) ].

(** The emphasis each class is shown with. *)
Definition visualColor (v : Visual) : jsstring :=
  match v with
  | strong_positive => green
  | positive => blue
  | neutral_caution => amber
  | negative_lean => orange
  | strong_negative => red
  | neutral_unknown => slate
  end.

(** [needle] occurs in [text]. *)
Definition occursIn (needle text : jsstring) : Prop :=
  exists before after, text = before ++ needle ++ after.

Section SpecClassification.
Context {host : Host}.

(** Case-insensitive occurrence: the occurrence of the lowered needle in
    the lowered text. *)
Definition occursIgnoringCase (needle text : jsstring) : Prop :=
  occursIn (toLowerCase needle) (toLowerCase text).

(** A text has class [v] when [v] is the class of the first entry of the
    table whose substring occurs in it, and [neutral_unknown] when none
    does. *)
Inductive classifiedBy : list (jsstring * Visual) -> jsstring -> Visual -> Prop :=
| classified_none text :
    classifiedBy [] text neutral_unknown
| classified_here needle v table text :
    occursIgnoringCase needle text ->
    classifiedBy ((needle, v) :: table) text v
| classified_later needle v table text v' :
    ~ occursIgnoringCase needle text ->
    classifiedBy table text v' ->
    classifiedBy ((needle, v) :: table) text v'.

End SpecClassification.

(** The class the table computes, test by test. *)
Fixpoint classify {host : Host} (table : list (jsstring * Visual)) (text : jsstring) : Visual :=
  match table with
  | [] => neutral_unknown
  | (needle, v) :: table' =>
      if includes (toLowerCase text) (toLowerCase needle) then v else classify table' text
  end.

(** A text shows ink when one of its characters is no white space. *)
Definition hasInk (s : jsstring) : bool := existsb (fun c => negb (isWhiteSpace c)) s.

(* ================================================================== *)
(** ** A scenario to run the handlers on *)

(** A host whose locale writes a date as the date part of the ISO text,
    and whose arithmetic is exact on the numbers of the scenario.  The
    scenario never reaches its number printer nor its lowering of texts
    beyond Latin-1. *)
Definition scenarioHost : Host :=
  {| roundToDouble := fun x => x;
     roundToDouble_monotone := fun x y H => H;
     roundToDouble_integer := fun z _ => Qeq_refl (inject_Z z);
     numberToStringOther := fun _ => js "NaN";
     toLowerCaseUnicode := fun s => s;
     toLocaleDateString := fun iso => firstn 10 iso |}.

Definition scenarioEnv : Env :=
  {| now := 1730000000000;
     isoNow := js "2024-10-27T03:33:20.000Z";
     origin := js "https://feedback.example" |}.

(** A handler run with nothing happening while it awaits. *)
Definition run (r : Run) (outcome : AgentOutcome) (env : Env) : World :=
  match r with
  | Finished w => w
  | Suspended w _ resume => resume outcome env w
  end.

(** The agent's answer did not parse: [parseLLMJson] fell back to [{}]. *)
Definition emptyData : AgentData := {| result := None; self := Feedback.empty |}.

Definition scenarioSummary : Summary.t :=
  {| Summary.overall_score := Some (7 # 2);
     Summary.total_responses := Some 4%Q;
     Summary.completion_percentage := Some 100%Q;
     Summary.recommendation := Some (js "Strong Hire");
     Summary.recommendation_rationale := Some (js "Consistent praise from all reviewers.");
     Summary.key_strengths :=
       Some [js "Vision"; js "Mentoring"; js "Delivery"; js "Hiring"];
     Summary.key_concerns := Some [js "Delegation"];
     Summary.criterion_breakdown :=
       Some [(js "leadership_vision",
              {| CriterionScore.score := 4%Q; CriterionScore.feedback := js "Sets direction" |})];
     Summary.consensus_areas := None;
     Summary.executive_summary := Some (js "A strong candidate.") |}.

Definition scenarioData : AgentData :=
  {| result := Some {| Feedback.feedback_summary := Some scenarioSummary |};
     self := Feedback.empty |}.

(** The requester creates the assessment of the end-to-end scenario. *)
Definition scenarioCreated (data : AgentData) : World :=
  run (handleSubmit initialWorld (js "Sarah Johnson") (js "Eng Manager")
         (js "John|john@x.com"))
      (Resolved data) scenarioEnv.

(** The request object the scenario created. *)
Definition scenarioRequest (data : AgentData) : FeedbackRequest.t :=
  {| FeedbackRequest.id := js "1730000000000";
     FeedbackRequest.candidateName := js "Sarah Johnson";
     FeedbackRequest.candidateRole := js "Eng Manager";
     FeedbackRequest.reviewerEmails := [js "john@x.com"];
     FeedbackRequest.reviewerNames := [js "John"];
     FeedbackRequest.status := sent;
     FeedbackRequest.createdAt := js "2024-10-27T03:33:20.000Z";
     FeedbackRequest.formLinks :=
       [ {| FormLink.email := js "john@x.com";
            FormLink.link :=
              js "https://feedback.example?reviewerId=am9obkB4LmNvbS0xNzMwMDAwMDAwMDAw&email=john@x.com&assessmentId=1730000000000";
            FormLink.status := js "sent";
            FormLink.reviewerName := js "John" |} ];
     FeedbackRequest.feedback :=
       Some match result data with Some r => r | None => self data end;
     FeedbackRequest.responses := [] |}.

Definition allFours : Scores.t :=
  {| Scores.leadership_vision := 4; Scores.communication_influence := 4;
     Scores.experience_expertise := 4; Scores.cultural_fit := 4;
     Scores.team_management := 4 |}.

Definition noComments : TextResponses.t :=
  {| TextResponses.leadership_vision := []; TextResponses.communication_influence := [];
     TextResponses.experience_expertise := []; TextResponses.cultural_fit := [];
     TextResponses.team_management := [] |}.

(* ================================================================== *)
(** ** The view router of [App]

    The [useEffect] that reads [window.location.search]: [Params] holds
    what [params.get] returns for the three names, [None] for [null]. *)

Record Params := {
  reviewerIdParam : option jsstring;
  emailParam : option jsstring;
  assessmentIdParam : option jsstring
}.

(** [requests.find(r => r.id === assessmentId)] *)
Fixpoint findById (h : Heap) (requests : list ref) (assessmentId : jsstring) : option ref :=
  match requests with
  | [] => None
  | r :: requests' =>
      match deref h r with
      | Some o =>
          if jsstring_eqb (FeedbackRequest.id o) assessmentId then Some r
          else findById h requests' assessmentId
      | None => findById h requests' assessmentId
      end
  end.

(** The body of the effect, run after the first render and after every
    render in which [requests] is a new array. *)
Definition routeEffect (params : Params) (w : World) : World :=
  match reviewerIdParam params, emailParam params, assessmentIdParam params with
  | Some reviewerId, Some email, Some assessmentId =>
      if truthy reviewerId && truthy email && truthy assessmentId then
        let w1 := setFeedbackReviewerEmail email (setFeedbackReviewerId reviewerId w) in
        match findById (heap w) (requests (app w)) assessmentId with
        | Some request => setCurrentView feedback (setSelectedRequest (Some request) w1)
        | None => w1
        end
      else w
  | _, _, _ => w
  end.

(* ================================================================== *)
(** ** [App.handleResendInvitations] and the export *)

Definition resendMessage (request : FeedbackRequest.t) : jsstring :=
  join nl
    [js "Resend feedback collection invitations for:";
     js "      - Candidate: " ++ FeedbackRequest.candidateName request;
     js "      - Reviewers: " ++ join (js ", ") (FeedbackRequest.reviewerEmails request)].

Definition handleResendInvitations (w : World) (request : FeedbackRequest.t) : Run :=
  Suspended (setLoading true w)
    {| prompt := resendMessage request; agentId := theAgent |}
    (fun outcome _ w' =>
       setLoading false
         match outcome with
         | Resolved _ => setSuccessMessage (js "Invitations resent successfully!") w'
         | Rejected err =>
             setError (orElse (message err) (js "Failed to resend invitations")) w'
         end).

(** The file that [handleExportPDF] hands to the browser:
    [element.download] and the text of the [Blob]. *)
Record Download := {
  fileName : jsstring;
  fileText : jsstring
}.

Definition exportedFile {host : Host} (env : Env) (w : World) : option Download :=
  match selectedRequest (app w) with
  | None => None
  | Some sel =>
      match deref (heap w) sel with
      | None => None
      | Some request =>
          match FeedbackRequest.feedback request with
          | None => None
          | Some _ =>
              Some {| fileName := js "feedback-" ++ FeedbackRequest.candidateName request
                                  ++ js "-" ++ decimal (now env) ++ js ".txt";
                      fileText := generatePDFContent request |}
          end
      end
  end.

(* ================================================================== *)
(** ** What [App] renders, and the events its controls fire *)

(** The component shown in [<main>]. *)
Inductive Screen :=
| InputScreen
| DashboardScreen
| FeedbackFormScreen (request : ref) (reviewerEmail : jsstring)
| FeedbackAccessScreen (assessments : list ref).

Definition mainContent (w : World) : Screen :=
  match currentView (app w) with
  | input => InputScreen
  | dashboard => DashboardScreen
  | feedback =>
      match selectedRequest (app w) with
      | Some request => FeedbackFormScreen request (feedbackReviewerEmail (app w))
      | None => FeedbackAccessScreen (requests (app w))
      end
  end.

(** A handler that awaits the agent, with what its closure captured: the
    continuation of [handleSubmit] keeps the [requests] array and the
    reviewers of the render it was called in. *)
Inductive Awaiting :=
| AwaitSubmit (requests : list ref) (candidateName candidateRole : jsstring)
              (reviewers : list Reviewer)
| AwaitFeedbackSubmit
| AwaitResend.

(** The code after the [await] of each handler. *)
Definition resumeOf (a : Awaiting) (outcome : AgentOutcome) (env : Env) (w' : World) : World :=
  match a with
  | AwaitSubmit requests candidateName candidateRole reviewers =>
      setLoading false
        match outcome with
        | Rejected err => setError (orElse (message err) (js "Failed to process request")) w'
        | Resolved data =>
            match createRequest requests candidateName candidateRole reviewers data env w' with
            | Ok w'' => w''
            | Throw err => setError (orElse (message err) (js "Failed to process request")) w'
            end
        end
  | AwaitFeedbackSubmit =>
      setLoading false
        match outcome with
        | Resolved _ => w'
        | Rejected err => setError (orElse (message err) (js "Failed to submit feedback")) w'
        end
  | AwaitResend =>
      setLoading false
        match outcome with
        | Resolved _ => setSuccessMessage (js "Invitations resent successfully!") w'
        | Rejected err =>
            setError (orElse (message err) (js "Failed to resend invitations")) w'
        end
  end.

(** Whether the continuation calls [setRequests], after which the router
    effect runs again. *)
Definition callsSetRequests (a : Awaiting) (outcome : AgentOutcome) (env : Env) (w' : World)
    : bool :=
  match a, outcome with
  | AwaitSubmit requests candidateName candidateRole reviewers, Resolved data =>
      match createRequest requests candidateName candidateRole reviewers data env w' with
      | Ok _ => true
      | Throw _ => false
      end
  | _, _ => false
  end.

(** The page: the React state with the objects it refers to, and the
    handlers that await the agent. *)
Record Page := {
  world : World;
  pending : list Awaiting
}.

(** What the user and the agent do.  Typing into a field changes the
    local state of a form only, and comes here with the event that
    submits it. *)
Inductive Event :=
| ClickNewAssessment                                   (* header, setCurrentView('input') *)
| ClickGiveFeedback                                    (* header, setCurrentView('feedback') *)
| ClickDashboard                                       (* header, setCurrentView('dashboard') *)
| ClickBack                                            (* header of the feedback view *)
| SubmitAssessment (candidateName candidateRole reviewerData : jsstring)
| SelectRequest (request : ref)                        (* dashboard list *)
| ClickResend                                          (* details of the selected request *)
| ChooseAssessment (assessment : ref) (email : jsstring)   (* feedback access screen *)
| SubmitFeedback (scores : Scores.t) (textResponses : TextResponses.t) (isoNow : jsstring)
| AgentReplies (call : nat) (outcome : AgentOutcome) (env : Env).

Definition isFeedbackView (v : View) : bool :=
  match v with feedback => true | _ => false end.

Definition isInputView (v : View) : bool :=
  match v with input => true | _ => false end.

Definition isDashboardView (v : View) : bool :=
  match v with dashboard => true | _ => false end.

Definition memRef (r : ref) (rs : list ref) : bool := existsb (Nat.eqb r) rs.

(** [l] without its [i]-th element. *)
Fixpoint removeAt {A : Type} (i : nat) (l : list A) : list A :=
  match l, i with
  | [], _ => []
  | _ :: l', O => l'
  | a :: l', S i' => a :: removeAt i' l'
  end.

(** One event on the page; [None] when the control that fires it is not
    on the screen or is disabled.  The state changes of a handler are
    committed together, then the router effect runs if [requests] is a
    new array. *)
Definition step (params : Params) (p : Page) (e : Event) : option Page :=
  let w := world p in
  match e with
  | ClickNewAssessment =>
      if isFeedbackView (currentView (app w)) then None
      else Some {| world := setCurrentView input w; pending := pending p |}
  | ClickGiveFeedback =>
      if isFeedbackView (currentView (app w)) then None
      else Some {| world := setCurrentView feedback w; pending := pending p |}
  | ClickDashboard =>
      if isFeedbackView (currentView (app w)) then None
      else Some {| world := setCurrentView dashboard w; pending := pending p |}
  | ClickBack =>
      if isFeedbackView (currentView (app w))
      then Some {| world := setCurrentView input w; pending := pending p |}
      else None
  | SubmitAssessment candidateName candidateRole reviewerData =>
      if isInputView (currentView (app w)) && negb (loading (app w)) then
        match handleSubmit w candidateName candidateRole reviewerData with
        | Finished w' => Some {| world := w'; pending := pending p |}
        | Suspended w' _ _ =>
            Some {| world := w';
                    pending := pending p
                               ++ [AwaitSubmit (requests (app w)) candidateName candidateRole
                                     (reviewerList reviewerData)] |}
        end
      else None
  | SelectRequest request =>
      if isDashboardView (currentView (app w)) && memRef request (requests (app w))
      then Some {| world := setSelectedRequest (Some request) w; pending := pending p |}
      else None
  | ClickResend =>
      if isDashboardView (currentView (app w)) && negb (loading (app w)) then
        match requests (app w), selectedRequest (app w) with
        | _ :: _, Some sel =>
            match deref (heap w) sel with
            | Some request =>
                match handleResendInvitations w request with
                | Finished w' => Some {| world := w'; pending := pending p |}
                | Suspended w' _ _ =>
                    Some {| world := w'; pending := pending p ++ [AwaitResend] |}
                end
            | None => None
            end
        | _, _ => None
        end
      else None
  | ChooseAssessment assessment email =>
      if isFeedbackView (currentView (app w)) && memRef assessment (requests (app w))
         && includes email (js "@")
      then match selectedRequest (app w) with
           | None => Some {| world := handleSelectAssessmentForFeedback w assessment email;
                             pending := pending p |}
           | Some _ => None
           end
      else None
  | SubmitFeedback scores textResponses isoNow =>
      if isFeedbackView (currentView (app w)) && negb (loading (app w)) then
        match selectedRequest (app w) with
        | None => None
        | Some _ =>
            match submitFeedbackForm w scores textResponses isoNow with
            | Finished w' => Some {| world := w'; pending := pending p |}
            | Suspended w' _ _ =>
                Some {| world := routeEffect params w';
                        pending := pending p ++ [AwaitFeedbackSubmit] |}
            end
        end
      else None
  | AgentReplies call outcome env =>
      match nth_error (pending p) call with
      | None => None
      | Some a =>
          let w' := resumeOf a outcome env w in
          Some {| world := if callsSetRequests a outcome env w then routeEffect params w' else w';
                  pending := removeAt call (pending p) |}
      end
  end.

(** The page as it is after its first render and the first run of the
    effect. *)
Definition firstPage (params : Params) : Page :=
  {| world := routeEffect params initialWorld; pending := [] |}.

(** The pages a session can reach. *)
Inductive Reachable (params : Params) : Page -> Prop :=
| reach_first : Reachable params (firstPage params)
| reach_step p e p' :
    Reachable params p -> step params p e = Some p' -> Reachable params p'.

(** A page opened without query parameters. *)
Definition noParams : Params :=
  {| reviewerIdParam := None; emailParam := None; assessmentIdParam := None |}.

(** A request object as the handlers build it. *)
Definition RequestOK (o : FeedbackRequest.t) : Prop :=
  FeedbackRequest.status o = sent
  /\ FeedbackRequest.feedback o <> None
  /\ FeedbackRequest.reviewerEmails o <> []
  /\ map FormLink.email (FeedbackRequest.formLinks o) = FeedbackRequest.reviewerEmails o
  /\ map FormLink.reviewerName (FeedbackRequest.formLinks o) = FeedbackRequest.reviewerNames o
  /\ Forall (fun e => includes e (js "@") = true) (FeedbackRequest.reviewerEmails o)
  /\ Forall (fun l => FormLink.status l = js "sent") (FeedbackRequest.formLinks o).

(** What an awaiting handler captured, against the page it will resume
    in. *)
Definition AwaitingOK (w : World) (a : Awaiting) : Prop :=
  match a with
  | AwaitSubmit captured _ _ reviewers =>
      captured = requests (app w)
      /\ reviewers <> []
      /\ Forall (fun x => includes (email x) (js "@") = true) reviewers
  | _ => True
  end.

(** What holds of every page of a session. *)
Definition PageOK (p : Page) : Prop :=
  let w := world p in
  Forall RequestOK (heap w)
  /\ Forall (fun r => (r < List.length (heap w))%nat) (requests (app w))
  /\ (forall r, selectedRequest (app w) = Some r -> In r (requests (app w)))
  /\ (loading (app w) = true <-> pending p <> [])
  /\ (List.length (pending p) <= 1)%nat
  /\ Forall (AwaitingOK w) (pending p).

(** The page of the scenario once the assessment is created, on a page
    opened without query parameters. *)
Definition scenarioPage : Page :=
  {| world := scenarioCreated emptyData; pending := [] |}.

(** The same page after "Give Feedback" and the submission of the form,
    while the notification is on its way to the agent. *)
Definition scenarioAwaiting : Page :=
  match step noParams
          {| world := setCurrentView feedback (scenarioCreated emptyData); pending := [] |}
          (SubmitFeedback allFours noComments (js "2024-10-28T09:00:00.000Z")) with
  | Some p => p
  | None => scenarioPage
  end.

(** A query parameter that is absent or empty: [params.get] gives [null]
    or [''], both falsy. *)
Definition missing (x : option jsstring) : Prop := x = None \/ x = Some [].

(** The reviewer email that the query parameters bind the page to. *)
Definition boundEmail (params : Params) : option jsstring :=
  match reviewerIdParam params, emailParam params, assessmentIdParam params with
  | Some reviewerId, Some email, Some assessmentId =>
      if truthy reviewerId && truthy email && truthy assessmentId then Some email else None
  | _, _, _ => None
  end.

(** An evaluator email of the session: none, or the one of the query. *)
Definition sessionEmail (params : Params) (e : jsstring) : Prop :=
  e = [] \/ boundEmail params = Some e.

(** A submission of the session: under a session email, and under no
    name when under no email. *)
Definition submittedInSession (params : Params) (sub : FeedbackSubmission.t) : Prop :=
  sessionEmail params (FeedbackSubmission.reviewerEmail sub)
  /\ (FeedbackSubmission.reviewerEmail sub = [] -> FeedbackSubmission.reviewerName sub = []).

(** What holds of the selection and of the evaluator through a session. *)
Definition SessionOK (params : Params) (p : Page) : Prop :=
  let w := world p in
  (requests (app w) <> [] -> selectedRequest (app w) <> None)
  /\ sessionEmail params (feedbackReviewerEmail (app w))
  /\ Forall (fun o => Forall (submittedInSession params) (FeedbackRequest.responses o))
            (heap w).

(** The link of a reviewer opened in the page that holds the requests:
    the query names the assessment that the scenario creates. *)
Definition linkParams : Params :=
  {| reviewerIdParam := Some (js "am9obkB4LmNvbS0xNzMwMDAwMDAwMDAw");
     emailParam := Some (js "john@x.com");
     assessmentIdParam := Some (js "1730000000000") |}.

(** That page once the assessment of the scenario is created in it. *)
Definition linkedPage : Page :=
  let first := firstPage linkParams in
  let asked :=
    match step linkParams first
            (SubmitAssessment (js "Sarah Johnson") (js "Eng Manager") (js "John|john@x.com")) with
    | Some p => p
    | None => first
    end in
  match step linkParams asked (AgentReplies 0 (Resolved emptyData) scenarioEnv) with
  | Some p => p
  | None => asked
  end.

(** The scenario with a second assessment created at the same reading of
    the clock. *)
Definition scenarioTwice : World :=
  match createRequest [0%nat] (js "Ravi Patel") (js "Designer")
          [{| name := js "Ann"; email := js "ann@x.com" |}] emptyData scenarioEnv
          (scenarioCreated emptyData) with
  | Ok w => w
  | Throw _ => scenarioCreated emptyData
  end.

(* ================================================================== *)
(** * Properties *)

(** ** Base64 loses nothing *)

Lemma bounded_cases (P : N -> Prop) (n : nat) :
  Forall P (map N.of_nat (seq 0 n)) -> forall i, i < N.of_nat n -> P i.
Proof.
  intros HF i Hi. rewrite Forall_forall in HF. apply HF.
  apply in_map_iff. exists (N.to_nat i). split; [apply N2Nat.id|].
  apply in_seq. lia.
Qed.

Lemma b64val_b64char i : i < 64 -> b64val (b64char i) = Some i.
Proof.
  intros H. revert i H. apply (bounded_cases (fun i => b64val (b64char i) = Some i) 64).
  repeat constructor.
Qed.

Lemma b64char_not_pad i : i < 64 -> (b64char i =? pad) = false.
Proof.
  intros H. revert i H. apply (bounded_cases (fun i => (b64char i =? pad) = false) 64).
  repeat constructor.
Qed.

Lemma div_small_lt x k m : 0 < k -> x < k * m -> x / k < m.
Proof. intros Hk H. apply N.Div0.div_lt_upper_bound. exact H. Qed.

Lemma div_mul_add k x y : y < k -> (x * k + y) / k = x.
Proof.
  intros H. symmetry. apply (N.div_unique _ _ _ y); [exact H | lia].
Qed.

Lemma mod_mul_add k x y : y < k -> (x * k + y) mod k = y.
Proof.
  intros H. symmetry. apply (N.mod_unique _ _ x); [exact H | lia].
Qed.

Lemma recombine k x : 0 < k -> x / k * k + x mod k = x.
Proof. intros H. rewrite (N.div_mod x k) at 3 by lia. lia. Qed.

(** The four digits of a group are below 64. *)
Lemma sextets a b c :
  a <= 255 -> b <= 255 -> c <= 255 ->
  a / 4 < 64 /\ (a mod 4) * 16 + b / 16 < 64 /\ (b mod 16) * 4 + c / 64 < 64 /\ c mod 64 < 64
  /\ (a mod 4) * 16 < 64 /\ (b mod 16) * 4 < 64.
Proof.
  intros Ha Hb Hc.
  assert (a / 4 < 64) by (apply div_small_lt; lia).
  assert (a mod 4 < 4) by (apply N.mod_lt; lia).
  assert (b mod 16 < 16) by (apply N.mod_lt; lia).
  assert (c mod 64 < 64) by (apply N.mod_lt; lia).
  assert (b / 16 < 16) by (apply div_small_lt; lia).
  assert (c / 64 < 4) by (apply div_small_lt; lia).
  repeat split; lia.
Qed.

(** The three octets of a group are read back from its four digits. *)
Lemma octets a b c :
  a <= 255 -> b <= 255 -> c <= 255 ->
  (a / 4) * 4 + ((a mod 4) * 16 + b / 16) / 16 = a
  /\ (((a mod 4) * 16 + b / 16) mod 16) * 16 + ((b mod 16) * 4 + c / 64) / 4 = b
  /\ (((b mod 16) * 4 + c / 64) mod 4) * 64 + c mod 64 = c.
Proof.
  intros Ha Hb Hc.
  assert (b / 16 < 16) by (apply div_small_lt; lia).
  assert (c / 64 < 4) by (apply div_small_lt; lia).
  rewrite !div_mul_add, !mod_mul_add by assumption.
  repeat split; apply recombine; lia.
Qed.

Lemma octets_last a b :
  a <= 255 -> b <= 255 ->
  (a / 4) * 4 + ((a mod 4) * 16) / 16 = a
  /\ (((a mod 4) * 16 + b / 16) mod 16) * 16 + ((b mod 16) * 4) / 4 = b.
Proof.
  intros Ha Hb.
  assert (b / 16 < 16) by (apply div_small_lt; lia).
  rewrite mod_mul_add by assumption.
  rewrite !N.div_mul by lia.
  split; apply recombine; lia.
Qed.

Lemma isLatin1_cons c s : isLatin1 (c :: s) = true <-> c <= 255 /\ isLatin1 s = true.
Proof.
  unfold isLatin1. simpl. rewrite andb_true_iff, N.leb_le. tauto.
Qed.

Lemma isLatin1_app s t : isLatin1 (s ++ t) = isLatin1 s && isLatin1 t.
Proof. apply forallb_app. Qed.

Ltac latin1_head H a Ha :=
  apply isLatin1_cons in H; destruct H as [Ha H].

Lemma atob_base64_bounded n : forall s,
  (List.length s <= n)%nat -> isLatin1 s = true -> atob (base64 s) = Some s.
Proof.
  induction n as [|n IH]; intros s Hlen Hs.
  - destruct s; [reflexivity | simpl in Hlen; lia].
  - destruct s as [|a [|b [|c rest]]].
    + reflexivity.
    + latin1_head Hs a Ha.
      destruct (sextets a a a Ha Ha Ha) as (H1 & _ & _ & _ & H5 & _).
      destruct (octets_last a a Ha Ha) as (E1 & _).
      cbn [base64 atob]. rewrite !b64val_b64char by assumption.
      rewrite N.eqb_refl, E1. reflexivity.
    + latin1_head Hs a Ha. latin1_head Hs b Hb.
      destruct (sextets a b b Ha Hb Hb) as (H1 & H2 & _ & _ & _ & H6).
      destruct (octets_last a b Ha Hb) as (_ & E2).
      destruct (octets a b b Ha Hb Hb) as (E1 & _ & _).
      cbn [base64 atob]. rewrite !b64val_b64char by assumption.
      rewrite (b64char_not_pad _ H6), N.eqb_refl, E1, E2. reflexivity.
    + latin1_head Hs a Ha. latin1_head Hs b Hb. latin1_head Hs c Hc.
      destruct (sextets a b c Ha Hb Hc) as (H1 & H2 & H3 & H4 & _ & _).
      destruct (octets a b c Ha Hb Hc) as (E1 & E2 & E3).
      cbn [base64 atob]. rewrite !b64val_b64char by assumption.
      rewrite (b64char_not_pad _ H3), (b64char_not_pad _ H4).
      rewrite (IH rest); [| simpl in Hlen; lia | assumption].
      rewrite E1, E2, E3. reflexivity.
Qed.

Lemma atob_base64 s : isLatin1 s = true -> atob (base64 s) = Some s.
Proof. apply (atob_base64_bounded (List.length s)). lia. Qed.

Lemma btoa_Ok s t : btoa s = Ok t <-> isLatin1 s = true /\ t = base64 s.
Proof.
  unfold btoa. destruct (isLatin1 s); split.
  - intros H. inversion H. auto.
  - intros [_ ->]. reflexivity.
  - discriminate.
  - intros [H _]. discriminate.
Qed.

Lemma btoa_injective s1 s2 t : btoa s1 = Ok t -> btoa s2 = Ok t -> s1 = s2.
Proof.
  intros H1 H2. apply btoa_Ok in H1, H2. destruct H1 as [L1 E1], H2 as [L2 E2].
  apply atob_base64 in L1, L2. rewrite <- E1 in L1. rewrite <- E2 in L2. congruence.
Qed.

(** ** Cutting a text at its last dash *)

Lemma split_at_first (x1 : list N) : forall x2 y1 y2 d,
  ~ In d x1 -> ~ In d x2 -> x1 ++ d :: y1 = x2 ++ d :: y2 -> x1 = x2 /\ y1 = y2.
Proof.
  induction x1 as [|c x1 IH]; intros [|c2 x2] y1 y2 d N1 N2 E; simpl in *.
  - inversion E. auto.
  - inversion E. subst. exfalso. apply N2. now left.
  - inversion E. subst. exfalso. apply N1. now left.
  - inversion E. subst. destruct (IH x2 y1 y2 d) as [-> ->]; auto.
Qed.

Lemma split_at_last (y1 y2 x1 x2 : list N) d :
  ~ In d y1 -> ~ In d y2 -> x1 ++ d :: y1 = x2 ++ d :: y2 -> x1 = x2 /\ y1 = y2.
Proof.
  intros N1 N2 E. apply (f_equal (@rev N)) in E.
  rewrite !rev_app_distr in E. simpl in E. rewrite <- !app_assoc in E. simpl in E.
  apply split_at_first in E; try (rewrite <- in_rev; assumption).
  destruct E as [E1 E2]. split.
  - rewrite <- (rev_involutive x1), <- (rev_involutive x2). now f_equal.
  - rewrite <- (rev_involutive y1), <- (rev_involutive y2). now f_equal.
Qed.

Lemma dashFree_spec s : dashFree s = true <-> ~ In dash s.
Proof.
  unfold dashFree. rewrite forallb_forall. split.
  - intros H Hin. specialize (H _ Hin). rewrite N.eqb_refl in H. discriminate.
  - intros H c Hin. destruct (N.eqb_spec c dash); [subst; contradiction | reflexivity].
Qed.

(** Two pairs with dash-free ids and one token are one pair. *)
Lemma reviewerId_injective email1 id1 email2 id2 token :
  dashFree id1 = true -> dashFree id2 = true ->
  reviewerId email1 id1 = Ok token -> reviewerId email2 id2 = Ok token ->
  email1 = email2 /\ id1 = id2.
Proof.
  intros D1 D2 H1 H2. unfold reviewerId in *.
  pose proof (btoa_injective _ _ _ H1 H2) as E. simpl in E.
  apply dashFree_spec in D1, D2. exact (split_at_last _ _ _ _ _ D1 D2 E).
Qed.

Lemma reviewerId_defined email id :
  isLatin1 email = true -> isLatin1 id = true ->
  reviewerId email id = Ok (base64 (email ++ [dash] ++ id)).
Proof.
  intros He Hi. unfold reviewerId, btoa.
  rewrite !isLatin1_app, He, Hi. reflexivity.
Qed.

(** ** C1: the reviewer token *)

(** C1, as amended.  For every email and assessment id made of Latin-1
    characters, the id holding no '-', [btoa] yields a token, and that
    token stands for this pair alone among the pairs whose id holds no
    '-': email and id are read back from it without loss, whatever the
    email contains ('+', '.', '-' included). *)
Theorem C1_token_determines_pair email assessmentId :
  isLatin1 email = true -> isLatin1 assessmentId = true -> dashFree assessmentId = true ->
  exists token,
    reviewerId email assessmentId = Ok token
    /\ (exists text, atob token = Some text /\ text = email ++ [dash] ++ assessmentId)
    /\ forall email' assessmentId',
         dashFree assessmentId' = true ->
         reviewerId email' assessmentId' = Ok token ->
         email' = email /\ assessmentId' = assessmentId.
Proof.
  intros He Hi Hd. exists (base64 (email ++ [dash] ++ assessmentId)).
  pose proof (reviewerId_defined email assessmentId He Hi) as Hr.
  split; [exact Hr|]. split.
  - eexists. split; [|reflexivity]. apply atob_base64.
    rewrite !isLatin1_app, He, Hi. reflexivity.
  - intros e' i' Hd' Hr'.
    exact (reviewerId_injective e' i' email assessmentId _ Hd' Hd Hr' Hr).
Qed.

Lemma C1_token_determines_pair_witness :
  exists token,
    reviewerId (js "john+hr@x.com") (js "1730000000000") = Ok token
    /\ (exists text, atob token = Some text
                     /\ text = js "john+hr@x.com" ++ [dash] ++ js "1730000000000")
    /\ forall email' assessmentId',
         dashFree assessmentId' = true ->
         reviewerId email' assessmentId' = Ok token ->
         email' = js "john+hr@x.com" /\ assessmentId' = js "1730000000000".
Proof.
  apply (C1_token_determines_pair (js "john+hr@x.com") (js "1730000000000"));
    reflexivity.
Defined.

(** C1 fails as stated: two different printable pairs share one token as
    soon as an id may hold the delimiter, so no decoder returns both. *)
Lemma C1_delimiter_collision :
  reviewerId (js "ann@x.com") (js "7-1") = reviewerId (js "ann@x.com-7") (js "1")
  /\ reviewerId (js "ann@x.com") (js "7-1") = Ok (js "YW5uQHguY29tLTctMQ==")
  /\ (js "ann@x.com", js "7-1") <> (js "ann@x.com-7", js "1")
  /\ ~ exists decode : jsstring -> jsstring * jsstring,
         forall email assessmentId token,
           reviewerId email assessmentId = Ok token ->
           decode token = (email, assessmentId).
Proof.
  split; [reflexivity|]. split; [reflexivity|]. split; [discriminate|].
  intros [decode H].
  pose proof (H (js "ann@x.com") (js "7-1") _ eq_refl) as H1.
  pose proof (H (js "ann@x.com-7") (js "1") _ eq_refl) as H2.
  vm_compute in H1, H2. rewrite H1 in H2. discriminate.
Qed.

(** ** Texts: search, joining, trimming *)

Lemma jsstring_eqb_eq a b : jsstring_eqb a b = true <-> a = b.
Proof.
  unfold jsstring_eqb. destruct (list_eq_dec N.eq_dec a b); split; congruence.
Qed.

Lemma jsstring_eqb_refl a : jsstring_eqb a a = true.
Proof. now apply jsstring_eqb_eq. Qed.

Lemma startsWith_spec p : forall s,
  startsWith s p = true <-> exists after, s = p ++ after.
Proof.
  induction p as [|c p IH]; intros s; simpl.
  - split; [intros _; now exists s | intros _; now destruct s].
  - destruct s as [|d s].
    + split; [discriminate | intros [a E]; discriminate].
    + simpl. rewrite andb_true_iff, N.eqb_eq, IH. split.
      * intros [-> [a ->]]. now exists a.
      * intros [a E]. inversion E. split; [reflexivity | now exists a].
Qed.

Lemma includes_spec p : forall s, includes s p = true <-> occursIn p s.
Proof.
  unfold occursIn. induction s as [|d s IH].
  - cbn [includes]. rewrite orb_false_r, startsWith_spec. split.
    + intros [a E]. now exists [], a.
    + intros [b [a E]]. destruct b; [now exists a | discriminate].
  - cbn [includes]. rewrite orb_true_iff, startsWith_spec, IH. split.
    + intros [[a E] | [b [a E]]].
      * now exists [], a.
      * exists (d :: b), a. simpl. now rewrite E.
    + intros [[|d' b] [a E]].
      * left. now exists a.
      * right. inversion E. now exists b, a.
Qed.

Lemma orElse_nil_r s : orElse s [] = s.
Proof. now destruct s. Qed.

(** ** C5: the colour of a recommendation *)

Section Classification.
Context {host : Host}.

Lemma classify_sound table text : classifiedBy table text (classify table text).
Proof.
  induction table as [|[needle v] table IH]; simpl.
  - constructor.
  - destruct (includes (toLowerCase text) (toLowerCase needle)) eqn:E.
    + apply classified_here. now apply includes_spec.
    + apply classified_later; [|exact IH].
      intros H. apply includes_spec in H. congruence.
Qed.

Lemma classify_complete table text v :
  classifiedBy table text v -> v = classify table text.
Proof.
  induction 1 as [text | needle v table text Hocc | needle v table text v' Hno _ IH]; simpl.
  - reflexivity.
  - apply includes_spec in Hocc. unfold occursIgnoringCase in Hocc. now rewrite Hocc.
  - destruct (includes (toLowerCase text) (toLowerCase needle)) eqn:E; [|exact IH].
    exfalso. apply Hno. now apply includes_spec.
Qed.

Lemma needles_are_lowered :
  Forall (fun entry => toLowerCase (fst entry) = fst entry) priorityList.
Proof. repeat constructor. Qed.

Lemma getRecommendationColor_classify text :
  getRecommendationColor (Some text) = visualColor (classify priorityList text).
Proof.
  unfold getRecommendationColor. rewrite orElse_nil_r.
  cbn [classify priorityList].
  change (toLowerCase (js "strong hire")) with (js "strong hire").
  change (toLowerCase (js "hire")) with (js "hire").
  change (toLowerCase (js "consider")) with (js "consider").
  change (toLowerCase (js "caution")) with (js "caution").
  change (toLowerCase (js "do not")) with (js "do not").
  repeat match goal with
         | |- context [if includes ?a ?b then _ else _] => destruct (includes a b)
         end; reflexivity.
Qed.

Lemma visualColor_injective v v' : visualColor v = visualColor v' -> v = v'.
Proof.
  intros E. apply jsstring_eqb_eq in E.
  destruct v, v'; solve [reflexivity | vm_compute in E; discriminate E].
Qed.

(** C5.  The colour of every recommendation text is the colour of the
    class that the ordered table assigns to it by case-insensitive
    substring search, the first entry that occurs winning; a missing
    recommendation is neutral-unknown; and "Strong Hire" is
    strong-positive, whose colour is not that of positive. *)
Theorem C5_first_match_wins :
  (forall text v,
     classifiedBy priorityList text v <->
     getRecommendationColor (Some text) = visualColor v)
  /\ getRecommendationColor None = visualColor neutral_unknown
  /\ classifiedBy priorityList (js "Strong Hire") strong_positive
  /\ getRecommendationColor (Some (js "Strong Hire")) = visualColor strong_positive
  /\ getRecommendationColor (Some (js "Strong Hire")) <> visualColor positive.
Proof.
  assert (Hiff : forall text v,
            classifiedBy priorityList text v <->
            getRecommendationColor (Some text) = visualColor v).
  { intros text v. rewrite getRecommendationColor_classify. split.
    - intros H. now rewrite (classify_complete _ _ _ H).
    - intros H. apply visualColor_injective in H. rewrite <- H. apply classify_sound. }
  assert (Hsh : getRecommendationColor (Some (js "Strong Hire")) = visualColor strong_positive)
    by reflexivity.
  split; [exact Hiff|]. split; [reflexivity|]. split; [now apply Hiff|].
  split; [exact Hsh|].
  rewrite Hsh. intros E. apply visualColor_injective in E. discriminate.
Qed.

End Classification.

(** ** Joined and trimmed texts *)

Lemma occursIn_refl (x : jsstring) : occursIn x x.
Proof. exists [], []. now rewrite app_nil_r. Qed.

Lemma occursIn_trans x y z : occursIn x y -> occursIn y z -> occursIn x z.
Proof.
  intros [b1 [a1 ->]] [b2 [a2 ->]]. exists (b2 ++ b1), (a1 ++ a2).
  now rewrite <- !app_assoc.
Qed.

Lemma occursIn_app_l x y pre : occursIn x y -> occursIn x (pre ++ y).
Proof. intros [b [a ->]]. exists (pre ++ b), a. now rewrite <- app_assoc. Qed.

Lemma occursIn_app_r x y post : occursIn x y -> occursIn x (y ++ post).
Proof. intros [b [a ->]]. exists b, (a ++ post). now rewrite <- !app_assoc. Qed.

Lemma join_cons sep p ps :
  join sep (p :: ps) = p ++ List.concat (map (fun q => sep ++ q) ps).
Proof.
  revert p. induction ps as [|q ps IH]; intros p.
  - simpl. now rewrite app_nil_r.
  - change (join sep (p :: q :: ps)) with (p ++ sep ++ join sep (q :: ps)).
    rewrite IH. simpl. now rewrite <- !app_assoc.
Qed.

Lemma concat_shift (sep : jsstring) parts :
  List.concat (map (fun q => sep ++ q) parts) ++ sep =
  sep ++ List.concat (map (fun q => q ++ sep) parts).
Proof.
  induction parts as [|q parts IH]; simpl.
  - now rewrite app_nil_r.
  - rewrite <- !app_assoc. now rewrite IH.
Qed.

(** A part of a joined text stands in it between what was joined before
    it and what was joined after it. *)
Lemma join_split sep before x after :
  join sep (before ++ x :: after) =
  List.concat (map (fun q => q ++ sep) before) ++ x
  ++ List.concat (map (fun q => sep ++ q) after).
Proof.
  destruct before as [|p before].
  - simpl. apply join_cons.
  - change ((p :: before) ++ x :: after) with (p :: (before ++ x :: after)).
    rewrite join_cons, map_app, concat_app. cbn [map List.concat].
    rewrite <- !app_assoc. f_equal.
    rewrite (app_assoc _ sep), concat_shift. now rewrite <- !app_assoc.
Qed.

Lemma join_In sep parts x : In x parts -> occursIn x (join sep parts).
Proof.
  intros H. apply in_split in H. destruct H as [before [after ->]].
  rewrite join_split. eexists _, _. reflexivity.
Qed.

Lemma hasInk_app a b : hasInk (a ++ b) = hasInk a || hasInk b.
Proof. apply existsb_app. Qed.

Lemma trimStart_ink a : forall rest,
  hasInk a = true ->
  exists a', trimStart (a ++ rest) = a' ++ rest /\ hasInk a' = true.
Proof.
  induction a as [|c a IH]; intros rest H; [discriminate|].
  simpl. destruct (isWhiteSpace c) eqn:E.
  - apply IH. simpl in H. unfold hasInk in H. simpl in H. now rewrite E in H.
  - exists (c :: a). split; [reflexivity|]. unfold hasInk. simpl. now rewrite E.
Qed.

Lemma hasInk_rev a : hasInk (rev a) = hasInk a.
Proof.
  induction a as [|c a IH]; [reflexivity|].
  simpl. rewrite hasInk_app, IH. unfold hasInk at 2 3. simpl.
  rewrite orb_false_r. apply orb_comm.
Qed.

Lemma trimEnd_ink b rest :
  hasInk b = true ->
  exists b', trimEnd (rest ++ b) = rest ++ b' /\ hasInk b' = true.
Proof.
  intros H. unfold trimEnd. rewrite rev_app_distr.
  destruct (trimStart_ink (rev b) (rev rest)) as [b' [E Hb']].
  - now rewrite hasInk_rev.
  - exists (rev b'). rewrite E, rev_app_distr, rev_involutive, hasInk_rev. auto.
Qed.

Lemma trim_keeps a x b :
  hasInk a = true -> hasInk b = true -> occursIn x (trim (a ++ x ++ b)).
Proof.
  intros Ha Hb. unfold trim.
  destruct (trimStart_ink a (x ++ b) Ha) as [a' [-> _]].
  rewrite app_assoc.
  destruct (trimEnd_ink b (a' ++ x) Hb) as [b' [-> _]].
  exists a', b'. now rewrite <- app_assoc.
Qed.

Lemma hasInk_concat (f : jsstring -> jsstring) parts p :
  In p parts -> hasInk (f p) = true -> hasInk (List.concat (map f parts)) = true.
Proof.
  intros Hin Hp. induction parts as [|q parts IH]; [contradiction|].
  simpl. rewrite hasInk_app. destruct Hin as [-> | Hin].
  - now rewrite Hp.
  - rewrite IH by assumption. apply orb_true_r.
Qed.

(** A line of a trimmed report survives when a line before it and a line
    after it show ink. *)
Lemma report_keeps parts i x h a j b :
  nth_error parts i = Some x ->
  nth_error parts h = Some a -> (h < i)%nat -> hasInk a = true ->
  nth_error parts j = Some b -> (i < j)%nat -> hasInk b = true ->
  occursIn x (trim (join nl parts)).
Proof.
  intros Hx Ha Hlt Hia Hb Hgt Hib.
  destruct (nth_error_split parts i Hx) as [before [after [-> Hlen]]].
  rewrite join_split. apply trim_keeps.
  - rewrite nth_error_app1 in Ha by lia.
    apply (hasInk_concat _ before a); [now apply nth_error_In in Ha|].
    rewrite hasInk_app, Hia. reflexivity.
  - rewrite nth_error_app2 in Hb by lia.
    destruct (j - List.length before)%nat as [|k] eqn:E; [lia|]. simpl in Hb.
    apply (hasInk_concat _ after b); [now apply nth_error_In in Hb|].
    rewrite hasInk_app, Hib. apply orb_true_r.
Qed.

(** ** Rounding to a percentage *)

Section Percentage.
Context {host : Host}.

Lemma nearestInteger_rounds x :
  (inject_Z (nearestInteger x) - (1#2) <= x /\ x < inject_Z (nearestInteger x) + (1#2))%Q.
Proof.
  unfold nearestInteger.
  pose proof (Qfloor_le x) as Hlo. pose proof (Qlt_floor x) as Hhi.
  assert (inject_Z (Qfloor x + 1) == inject_Z (Qfloor x) + 1)%Q as Hs
    by (rewrite inject_Z_plus; reflexivity).
  destruct (Qle_bool (inject_Z (Qfloor x + 1) - x) (x - inject_Z (Qfloor x))) eqn:E.
  - apply Qle_bool_iff in E. rewrite Hs in *. split; lra.
  - assert (~ (inject_Z (Qfloor x + 1) - x <= x - inject_Z (Qfloor x))%Q) as E'.
    { intros H. apply Qle_bool_iff in H. congruence. }
    rewrite Hs in *. split; lra.
Qed.

Lemma nearestInteger_unique x n :
  (inject_Z n - (1#2) <= x)%Q -> (x < inject_Z n + (1#2))%Q -> nearestInteger x = n.
Proof.
  intros H1 H2. destruct (nearestInteger_rounds x) as [H3 H4].
  assert (inject_Z n < inject_Z (nearestInteger x) + 1)%Q as A by lra.
  assert (inject_Z (nearestInteger x) < inject_Z n + 1)%Q as B by lra.
  change 1%Q with (inject_Z 1) in A, B.
  rewrite <- inject_Z_plus in A, B. rewrite <- Zlt_Qlt in A, B. lia.
Qed.

Lemma toFixed0_percent x :
  (0 <= x)%Q -> (x <= 100)%Q -> toFixed0 x = decimal (nearestInteger x).
Proof.
  intros H0 H100. unfold toFixed0.
  assert (Qabs x == x)%Q as Habs by (now apply Qabs_pos).
  destruct (Qlt_le_dec x 0) as [Hneg|_]; [lra|]. cbv zeta.
  destruct (Qle_bool tenTo21 (Qabs x)) eqn:E.
  - apply Qle_bool_iff in E. rewrite Habs in E. exfalso.
    assert (100 < tenTo21)%Q by reflexivity. lra.
  - simpl. f_equal.
    apply nearestInteger_unique; rewrite Habs; apply nearestInteger_rounds.
Qed.

Lemma orZero_value score : (orZero score == match score with Some q => q | None => 0 end)%Q.
Proof.
  destruct score as [q|]; simpl; [|reflexivity].
  destruct (Qeq_bool q 0) eqn:E; [|reflexivity].
  apply Qeq_bool_iff in E. now rewrite E.
Qed.

(** Rounding to a double respects equality of rationals. *)
Lemma roundToDouble_compat x y : (x == y -> roundToDouble x == roundToDouble y)%Q.
Proof.
  intros E. apply Qle_antisym; apply roundToDouble_monotone; rewrite E; apply Qle_refl.
Qed.

Lemma times_compat x x' y : (x == x' -> times x y == times x' y)%Q.
Proof. intros E. apply roundToDouble_compat. now rewrite E. Qed.

(** A product that is a small integer is computed exactly. *)
Lemma times_integer x y (z : Z) :
  (Z.abs z <= 2 ^ 53)%Z -> (x * y == inject_Z z -> times x y == inject_Z z)%Q.
Proof.
  intros Hz E. unfold times. rewrite (roundToDouble_compat _ _ E).
  now apply roundToDouble_integer.
Qed.

(** Twenty times a score of [0,5] is computed within [0,100]. *)
Lemma times20_range q : (0 <= q -> q <= 5 -> 0 <= times q 20 /\ times q 20 <= 100)%Q.
Proof.
  intros H0 H5. unfold times. split.
  - rewrite <- (roundToDouble_integer 0) by (vm_compute; discriminate).
    apply roundToDouble_monotone. change (inject_Z 0) with 0%Q. lra.
  - rewrite <- (roundToDouble_integer 100) by (vm_compute; discriminate).
    apply roundToDouble_monotone. change (inject_Z 100) with 100%Q. lra.
Qed.

(** The text of a percentage: the digits of the nearest integer. *)
Lemma percentage_text score :
  (0 <= score)%Q -> (score <= 5)%Q ->
  toFixed0 (times score 20) = decimal (nearestInteger (times score 20)).
Proof.
  intros H0 H5. destruct (times20_range score H0 H5). now apply toFixed0_percent.
Qed.

Lemma nearestInteger_compat x y : (x == y)%Q -> nearestInteger x = nearestInteger y.
Proof.
  intros E. apply nearestInteger_unique; rewrite E; apply nearestInteger_rounds.
Qed.

Lemma toFixed0_zero x : (x == 0)%Q -> toFixed0 x = js "0".
Proof.
  intros E. rewrite toFixed0_percent by (rewrite E; discriminate).
  now rewrite (nearestInteger_compat _ _ E).
Qed.

End Percentage.

Section Reports.
Context {host : Host}.

Lemma trimStart_blank w rest : hasInk w = false -> trimStart (w ++ rest) = trimStart rest.
Proof.
  induction w as [|c w IH]; intros H; [reflexivity|].
  unfold hasInk in H. simpl in H. apply orb_false_iff in H. destruct H as [Hc Hw].
  apply negb_false_iff in Hc. simpl. rewrite Hc. now apply IH.
Qed.

(** The last line of a trimmed report survives when it ends in ink, and
    the report ends with it. *)
Lemma trim_keeps_last a x c b :
  hasInk a = true -> isWhiteSpace c = false -> hasInk b = false ->
  exists before, trim (a ++ (x ++ [c]) ++ b) = before ++ x ++ [c].
Proof.
  intros Ha Hc Hb. unfold trim.
  destruct (trimStart_ink a ((x ++ [c]) ++ b) Ha) as [a' [-> _]].
  unfold trimEnd. rewrite !rev_app_distr. simpl rev at 2.
  rewrite <- !app_assoc. rewrite trimStart_blank by now rewrite hasInk_rev.
  simpl. rewrite Hc. simpl. rewrite !rev_app_distr, !rev_involutive.
  exists a'. now rewrite <- app_assoc.
Qed.

Lemma report_line request i x :
  nth_error (reportLines request) i = Some x -> (1 < i < 37)%nat ->
  occursIn x (generatePDFContent request).
Proof.
  intros Hx Hi. unfold generatePDFContent.
  apply (report_keeps _ i x 1%nat (js "FEEDBACK ASSESSMENT REPORT") 37%nat
           (js "=================")); try reflexivity; try lia. exact Hx.
Qed.

(** The report ends with its last line when that line ends in ink. *)
Lemma report_last_line request x c :
  nth_error (reportLines request) 38 = Some (x ++ [c]) -> isWhiteSpace c = false ->
  exists before,
    generatePDFContent request = before ++ js "=================" ++ nl ++ x ++ [c].
Proof.
  intros Hx Hc. unfold generatePDFContent.
  assert (reportLines request =
          firstn 37 (reportLines request) ++ js "=================" :: [x ++ [c]; js "  "]) as E.
  { injection Hx as Hx. rewrite <- Hx. reflexivity. }
  rewrite E, join_split. cbn [map List.concat].
  set (a := List.concat (map (fun q => q ++ nl) (firstn 37 (reportLines request)))).
  assert (hasInk a = true) as Ha.
  { apply (hasInk_concat _ _ (js "FEEDBACK ASSESSMENT REPORT")); [|reflexivity].
    right. left. reflexivity. }
  destruct (trim_keeps_last a (js "=================" ++ nl ++ x) c (nl ++ js "  ") Ha Hc eq_refl)
    as [before Hb].
  exists before. rewrite <- !app_assoc in *. rewrite app_nil_r. exact Hb.
Qed.

(** ** C6: the percentage *)

(** C6.  For every payload whose [overall_score], when present, lies in
    [0,5], the summary view and the exported report show one and the same
    percentage [n], between 0 and 100: the integer nearest to the product
    of the score by twenty as the engine computes it, halves going up; a
    score of 3.5 shows 70%, a score of 0 or a missing score shows 0%. *)
Theorem C6_percentage_is_rounded_score (request : FeedbackRequest.t) (fb : Feedback.t)
    (s : Summary.t) :
  FeedbackRequest.feedback request = Some fb ->
  Feedback.feedback_summary fb = Some s ->
  (forall q, Summary.overall_score s = Some q -> 0 <= q /\ q <= 5)%Q ->
  exists n : Z,
    let score := match Summary.overall_score s with Some q => q | None => 0%Q end in
    scoreText (SummaryView fb) = decimal n ++ js "%"
    /\ occursIn (js "Overall Score: " ++ decimal n ++ js "%") (generatePDFContent request)
    /\ (inject_Z n - (1#2) <= times score 20 /\ times score 20 < inject_Z n + (1#2))%Q
    /\ (0 <= n <= 100)%Z
    /\ (score == 7#2 -> n = 70%Z /\ scoreText (SummaryView fb) = js "70%")%Q
    /\ (score == 0 -> n = 0%Z /\ scoreText (SummaryView fb) = js "0%")%Q.
Proof.
  intros Hfb Hs Hrange.
  set (score := match Summary.overall_score s with Some q => q | None => 0%Q end).
  assert (orZero (Summary.overall_score s) == score)%Q as Hz by apply orZero_value.
  assert (0 <= score /\ score <= 5)%Q as [H0 H5].
  { unfold score. destruct (Summary.overall_score s) as [q|]; [now apply Hrange | split; lra]. }
  set (x := times (orZero (Summary.overall_score s)) 20).
  assert (x == times score 20)%Q as Hx by (unfold x; now apply times_compat).
  destruct (times20_range score H0 H5) as [Hp0 Hp100].
  assert (toFixed0 x = decimal (nearestInteger x)) as Hfix
    by (apply toFixed0_percent; rewrite Hx; assumption).
  destruct (nearestInteger_rounds x) as [Hlo Hhi].
  assert (scoreText (SummaryView fb) = decimal (nearestInteger x) ++ js "%") as Htext.
  { unfold SummaryView. rewrite Hs. cbn [scoreText]. fold x. now rewrite Hfix. }
  exists (nearestInteger x). cbv zeta. fold score.
  split; [exact Htext|]. split.
  { apply (report_line request 10); [|lia].
    unfold reportLines. rewrite Hfb, Hs. cbn [nth_error]. unfold overallScoreLine.
    fold x. now rewrite Hfix. }
  split; [split; lra|]. split.
  { assert (inject_Z (nearestInteger x) < 101)%Q as A by lra.
    assert (-1 < inject_Z (nearestInteger x))%Q as B by lra.
    change 101%Q with (inject_Z 101) in A. change (-1)%Q with (inject_Z (-1)) in B.
    rewrite <- Zlt_Qlt in A, B. lia. }
  split; intros Hq.
  - assert (times score 20 == inject_Z 70)%Q as Hp.
    { apply times_integer; [vm_compute; discriminate|]. rewrite Hq. reflexivity. }
    assert (nearestInteger x = 70%Z) as E
      by (apply nearestInteger_unique; rewrite Hx, Hp; [discriminate | reflexivity]).
    split; [exact E|]. rewrite Htext, E. reflexivity.
  - assert (times score 20 == inject_Z 0)%Q as Hp.
    { apply times_integer; [vm_compute; discriminate|]. rewrite Hq. reflexivity. }
    assert (nearestInteger x = 0%Z) as E
      by (apply nearestInteger_unique; rewrite Hx, Hp; [discriminate | reflexivity]).
    split; [exact E|]. rewrite Htext, E. reflexivity.
Qed.

End Reports.

(** ** The scenario *)

Lemma scenario_creates_request data :
  heap (scenarioCreated data) = [scenarioRequest data]
  /\ selectedRequest (app (scenarioCreated data)) = Some 0%nat
  /\ requests (app (scenarioCreated data)) = [0%nat].
Proof. repeat split. Qed.

Lemma C6_percentage_is_rounded_score_witness :
  scoreText (SummaryView (host := scenarioHost)
               {| Feedback.feedback_summary := Some scenarioSummary |}) = js "70%"
  /\ occursIn (js "Overall Score: 70%")
       (generatePDFContent (host := scenarioHost) (scenarioRequest scenarioData)).
Proof.
  destruct (C6_percentage_is_rounded_score (host := scenarioHost)
              (scenarioRequest scenarioData)
              {| Feedback.feedback_summary := Some scenarioSummary |}
              scenarioSummary eq_refl eq_refl)
    as [n (_ & Hreport & _ & _ & H70 & _)].
  - intros q Hq. injection Hq as <-. split; discriminate.
  - destruct (H70 (Qeq_refl _)) as [-> Htext]. split; [exact Htext | exact Hreport].
Defined.

(** ** C7: what is shown for a missing field *)

Section MissingFields.
Context {host : Host}.

(** C7, at the payload [{}] that an unparseable answer of the agent
    degrades to.  The summary view shows zeros and empty texts: 0%, no
    recommendation, no rationale, no strength, no concern, the neutral
    colour, and each of the five criteria at 0/5 without feedback.  The
    exported report prints 0% and empty lists, but the word "undefined"
    for the recommendation, its rationale, both consensus areas and the
    executive summary. *)
Theorem C7_empty_payload_rendering (request : FeedbackRequest.t) :
  FeedbackRequest.feedback request = Some Feedback.empty ->
  let screen := SummaryView Feedback.empty in
  let report := generatePDFContent request in
  (scoreText screen = js "0%"
   /\ recommendationText screen = []
   /\ rationaleText screen = []
   /\ recommendationColor screen = slate
   /\ strengthItems screen = []
   /\ concernItems screen = []
   /\ map rowLabel (criterionRows screen) = map label criteriaList
   /\ Forall (fun row => rowBadge row = js "0/5" /\ rowProgress row == 0 /\ rowFeedback row = None)
        (criterionRows screen))
  /\ (occursIn (js "Overall Score: 0%") report
      /\ occursIn (js "Recommendation: undefined") report
      /\ occursIn (js "Rationale: undefined") report
      /\ occursIn (js "Strong Agreement: undefined") report
      /\ occursIn (js "Areas of Disagreement: undefined") report
      /\ exists before, report = before ++ js "=================" ++ nl ++ js "undefined").
Proof.
  intros Hfb screen report.
  assert (toFixed0 (times 0 20) = js "0") as Hscore.
  { apply toFixed0_zero. apply (times_integer 0 20 0); [vm_compute; discriminate | reflexivity]. }
  assert (times (dividedBy 0 5) 100 == 0)%Q as Hbar.
  { apply (times_integer _ _ 0); [vm_compute; discriminate|].
    unfold dividedBy. rewrite (roundToDouble_compat (0 / 5) (inject_Z 0)) by reflexivity.
    rewrite roundToDouble_integer by (vm_compute; discriminate). reflexivity. }
  split.
  - split; [change (scoreText screen) with (toFixed0 (times 0 20) ++ js "%");
            now rewrite Hscore|].
    repeat (split; [reflexivity|]).
    repeat constructor; exact Hbar.
  - assert (forall i x, nth_error (reportLines request) i = Some x -> (1 < i < 37)%nat ->
                        occursIn x report) as Hline by apply report_line.
    unfold reportLines in Hline. rewrite Hfb in Hline.
    cbn [Feedback.feedback_summary Feedback.empty] in Hline.
    repeat split.
    + apply (Hline 10%nat); [|lia]. cbn [nth_error]. unfold overallScoreLine.
      cbn [orZero Summary.overall_score Summary.empty]. now rewrite Hscore.
    + apply (Hline 16%nat); [reflexivity | lia].
    + apply (Hline 17%nat); [reflexivity | lia].
    + apply (Hline 33%nat); [reflexivity | lia].
    + apply (Hline 34%nat); [reflexivity | lia].
    + apply (report_last_line request (js "undefine") 100); [|reflexivity].
      unfold reportLines. rewrite Hfb. reflexivity.
Qed.

End MissingFields.

Lemma C7_empty_payload_rendering_witness :
  occursIn (js "Recommendation: undefined")
    (generatePDFContent (host := scenarioHost) (scenarioRequest emptyData))
  /\ exists before,
       generatePDFContent (host := scenarioHost) (scenarioRequest emptyData)
       = before ++ js "=================" ++ nl ++ js "undefined".
Proof.
  destruct (C7_empty_payload_rendering (host := scenarioHost) (scenarioRequest emptyData) eq_refl)
    as [_ (_ & Hrec & _ & _ & _ & Hlast)].
  split; [exact Hrec | exact Hlast].
Defined.

(** The whole report of the scenario when the payload is [{}]. *)
Lemma scenario_report_of_empty_payload :
  generatePDFContent (host := scenarioHost) (scenarioRequest emptyData) =
  join nl
    [ js "FEEDBACK ASSESSMENT REPORT";
      js "==========================";
      [];
      js "Candidate: Sarah Johnson";
      js "Position: Eng Manager";
      js "Assessment Date: 2024-10-27";
      [];
      js "OVERALL SCORE";
      js "=============";
      js "Overall Score: 0%";
      js "Total Responses: 0";
      js "Completion: 0%";
      [];
      js "RECOMMENDATION";
      js "==============";
      js "Recommendation: undefined";
      js "Rationale: undefined";
      [];
      js "KEY STRENGTHS";
      js "=============";
      [];
      [];
      js "KEY CONCERNS";
      js "============";
      [];
      [];
      js "CRITERION BREAKDOWN";
      js "===================";
      [];
      [];
      js "CONSENSUS AREAS";
      js "===============";
      js "Strong Agreement: undefined";
      js "Areas of Disagreement: undefined";
      [];
      js "EXECUTIVE SUMMARY";
      js "=================";
      js "undefined" ].
Proof. vm_compute. reflexivity. Qed.

(** ** C10: strengths and concerns *)

Section StrengthsAndConcerns.
Context {host : Host}.

Lemma firstn_prefix {A : Type} (n : nat) (l : list A) :
  (List.length (firstn n l) <= n)%nat /\ l = firstn n l ++ skipn n l.
Proof.
  split; [apply firstn_le_length | symmetry; apply firstn_skipn].
Qed.

(** C10.  The summary view lists the first three strengths and the first
    three concerns, in their order and no more; the exported report holds
    a bullet line for every strength and for every concern, all of them in
    their order. *)
Theorem C10_three_on_screen_all_in_report (request : FeedbackRequest.t) (fb : Feedback.t)
    (s : Summary.t) :
  FeedbackRequest.feedback request = Some fb ->
  Feedback.feedback_summary fb = Some s ->
  let strengths := orEmpty (Summary.key_strengths s) in
  let concerns := orEmpty (Summary.key_concerns s) in
  let bulletLine := fun x => bullet ++ js " " ++ x in
  (strengthItems (SummaryView fb) = firstn 3 strengths
   /\ (List.length (strengthItems (SummaryView fb)) <= 3)%nat
   /\ strengths = strengthItems (SummaryView fb) ++ skipn 3 strengths)
  /\ (concernItems (SummaryView fb) = firstn 3 concerns
      /\ (List.length (concernItems (SummaryView fb)) <= 3)%nat
      /\ concerns = concernItems (SummaryView fb) ++ skipn 3 concerns)
  /\ occursIn (join nl (map bulletLine strengths)) (generatePDFContent request)
  /\ occursIn (join nl (map bulletLine concerns)) (generatePDFContent request)
  /\ (forall x, In x strengths -> occursIn (bulletLine x) (generatePDFContent request))
  /\ (forall x, In x concerns -> occursIn (bulletLine x) (generatePDFContent request)).
Proof.
  intros Hfb Hs strengths concerns bulletLine.
  assert (strengthItems (SummaryView fb) = firstn 3 strengths) as E1
    by (unfold SummaryView; now rewrite Hs).
  assert (concernItems (SummaryView fb) = firstn 3 concerns) as E2
    by (unfold SummaryView; now rewrite Hs).
  assert (occursIn (join nl (map bulletLine strengths)) (generatePDFContent request)) as R1.
  { apply (report_line request 21); [|lia]. unfold reportLines. now rewrite Hfb, Hs. }
  assert (occursIn (join nl (map bulletLine concerns)) (generatePDFContent request)) as R2.
  { apply (report_line request 25); [|lia]. unfold reportLines. now rewrite Hfb, Hs. }
  split; [|split; [|split; [exact R1 | split; [exact R2 | split]]]].
  - rewrite E1. destruct (firstn_prefix 3 strengths). auto.
  - rewrite E2. destruct (firstn_prefix 3 concerns). auto.
  - intros x Hx. apply occursIn_trans with (2 := R1). apply join_In. now apply in_map.
  - intros x Hx. apply occursIn_trans with (2 := R2). apply join_In. now apply in_map.
Qed.

End StrengthsAndConcerns.

Lemma C10_three_on_screen_all_in_report_witness :
  strengthItems (SummaryView (host := scenarioHost)
                   {| Feedback.feedback_summary := Some scenarioSummary |})
  = [js "Vision"; js "Mentoring"; js "Delivery"]
  /\ occursIn (bullet ++ js " " ++ js "Hiring")
       (generatePDFContent (host := scenarioHost) (scenarioRequest scenarioData)).
Proof.
  destruct (C10_three_on_screen_all_in_report (host := scenarioHost)
              (scenarioRequest scenarioData)
              {| Feedback.feedback_summary := Some scenarioSummary |}
              scenarioSummary eq_refl eq_refl)
    as [[Hscreen _] (_ & _ & _ & Hall & _)].
  split; [exact Hscreen|]. apply Hall. simpl. tauto.
Defined.

(** ** Decimal texts *)


Lemma uint_digits u : forallb isDigit (js (NilEmpty.string_of_uint u)) = true.
Proof. induction u; simpl; auto. Qed.

Lemma uint_digits_nilzero u : forallb isDigit (js (NilZero.string_of_uint u)) = true.
Proof. destruct u; try reflexivity; apply (uint_digits (_ u)). Qed.

Lemma forallb_weaken {A} (p q : A -> bool) l :
  (forall x, p x = true -> q x = true) -> forallb p l = true -> forallb q l = true.
Proof.
  intros H. rewrite !forallb_forall. auto.
Qed.

Lemma decimal_isLatin1 z : isLatin1 (decimal z) = true.
Proof.
  unfold decimal, isLatin1.
  assert (forall u, forallb (fun c => c <=? 255) (js (NilZero.string_of_uint u)) = true) as H.
  { intros u. apply (forallb_weaken isDigit); [|apply uint_digits_nilzero].
    intros c Hc. unfold isDigit in Hc. apply andb_true_iff in Hc. destruct Hc as [_ Hc].
    apply N.leb_le in Hc. apply N.leb_le. lia. }
  destruct (Z.to_int z); simpl; apply H.
Qed.

Lemma decimal_dashFree z : (0 <= z)%Z -> dashFree (decimal z) = true.
Proof.
  intros Hz. unfold decimal, dashFree.
  assert (exists u, Z.to_int z = Decimal.Pos u) as [u ->].
  { destruct z; [eexists; reflexivity | eexists; reflexivity | lia]. }
  simpl. apply (forallb_weaken isDigit); [|apply uint_digits_nilzero].
  intros c Hc. unfold isDigit in Hc. apply andb_true_iff in Hc. destruct Hc as [Hc _].
  apply N.leb_le in Hc. apply negb_true_iff. apply N.eqb_neq. unfold dash. lia.
Qed.

(** ** Blank texts *)

Lemma truthy_false s : truthy s = false <-> s = [].
Proof. destruct s; simpl; split; intros H; solve [reflexivity | discriminate H]. Qed.

Lemma trimStart_nil s : trimStart s = [] -> hasInk s = false.
Proof.
  induction s as [|c s IH]; [reflexivity|]. simpl.
  destruct (isWhiteSpace c) eqn:E; [|discriminate].
  intros H. unfold hasInk. cbn [existsb]. try rewrite E. now apply IH.
Qed.

Lemma trimStart_ink_or_nil s : trimStart s = [] \/ hasInk (trimStart s) = true.
Proof.
  induction s as [|c s IH]; [now left|]. simpl.
  destruct (isWhiteSpace c) eqn:E; [exact IH|].
  right. unfold hasInk. cbn [existsb]. try rewrite E. reflexivity.
Qed.

Lemma trim_nil s : trim s = [] -> hasInk s = false.
Proof.
  unfold trim, trimEnd. intros H.
  assert (trimStart (rev (trimStart s)) = []) as H1.
  { destruct (trimStart (rev (trimStart s))); [reflexivity|].
    simpl in H. now apply app_eq_nil in H as [_ ?]. }
  apply trimStart_nil in H1. rewrite hasInk_rev in H1.
  destruct (trimStart_ink_or_nil s) as [E|E]; [now apply trimStart_nil | congruence].
Qed.

Lemma hasInk_false s : hasInk s = false <-> forall c, In c s -> isWhiteSpace c = true.
Proof.
  unfold hasInk. split.
  - intros H c Hc. destruct (isWhiteSpace c) eqn:E; [reflexivity|].
    assert (existsb (fun c => negb (isWhiteSpace c)) s = true); [|congruence].
    apply existsb_exists. exists c. now rewrite E.
  - intros H. destruct (existsb _ s) eqn:E; [|reflexivity].
    apply existsb_exists in E. destruct E as [c [Hc E]]. rewrite (H c Hc) in E. discriminate.
Qed.

Lemma split_chars sep s : forall l c, In l (split sep s) -> In c l -> In c s.
Proof.
  induction s as [|d s IH]; intros l c Hl Hc.
  - simpl in Hl. destruct Hl as [<- | []]. contradiction.
  - simpl in Hl. destruct (d =? sep).
    + destruct Hl as [<- | Hl]; [contradiction | right; eauto].
    + destruct (split sep s) as [|w ws] eqn:E.
      * destruct Hl as [<- | []]. destruct Hc as [<- | []]. now left.
      * destruct Hl as [<- | Hl].
        -- destruct Hc as [<- | Hc]; [now left | right]. apply (IH w); [now left | exact Hc].
        -- right. apply (IH l); [now right | exact Hc].
Qed.

Lemma split_without sep s : ~ In sep s -> split sep s = [s].
Proof.
  induction s as [|d s IH]; intros H; [reflexivity|]. simpl.
  destruct (N.eqb_spec d sep) as [->|_]; [exfalso; apply H; now left|].
  rewrite IH; [reflexivity|]. intros Hin. apply H. now right.
Qed.

Lemma blank_has_no_reviewer reviewerData r :
  trim reviewerData = [] -> In r (parseReviewers reviewerData) -> parsedEmail r = None.
Proof.
  intros Hblank Hr. apply trim_nil in Hblank.
  unfold parseReviewers in Hr. apply in_map_iff in Hr. destruct Hr as [line [<- Hline]].
  unfold parseLine. rewrite split_without; [reflexivity|].
  intros Hbar. apply (split_chars _ _ _ _ Hline) in Hbar.
  pose proof (proj1 (hasInk_false _) Hblank _ Hbar) as Hws. discriminate Hws.
Qed.

Lemma narrow_valid r :
  hasEmail r = true -> exists x, narrow r = [x] /\ parsedEmail r = Some (email x).
Proof.
  unfold hasEmail, narrow. destruct (parsedEmail r) as [e|]; [|discriminate].
  intros _. eexists. split; reflexivity.
Qed.

Lemma reviewerList_nil reviewerData :
  (forall r, In r (parseReviewers reviewerData) -> hasEmail r = false) ->
  reviewerList reviewerData = [].
Proof.
  intros H. unfold reviewerList.
  induction (parseReviewers reviewerData) as [|r l IH]; [reflexivity|].
  simpl. rewrite (H r) by now left. apply IH. intros r' Hr'. apply H. now right.
Qed.

Lemma reviewerList_not_nil reviewerData r :
  In r (parseReviewers reviewerData) -> hasEmail r = true ->
  reviewerList reviewerData <> [].
Proof.
  intros Hin Hr. unfold reviewerList.
  induction (parseReviewers reviewerData) as [|r' l IH]; [contradiction|].
  simpl. destruct Hin as [-> | Hin].
  - rewrite Hr. simpl. destruct (narrow_valid r Hr) as [x [-> _]]. discriminate.
  - destruct (hasEmail r'); [|now apply IH].
    simpl. intros E. apply app_eq_nil in E. destruct E as [_ E]. now apply IH.
Qed.

(** Every reviewer kept has an email with an '@' in it. *)
Lemma reviewerList_emails reviewerData x :
  In x (reviewerList reviewerData) -> includes (email x) (js "@") = true.
Proof.
  unfold reviewerList. intros H. apply in_flat_map in H. destruct H as [r [Hr Hx]].
  apply filter_In in Hr. destruct Hr as [_ Hr]. unfold hasEmail in Hr. unfold narrow in Hx.
  destruct (parsedEmail r) as [e|]; [|contradiction].
  destruct Hx as [<- | []]. simpl. now apply andb_true_iff in Hr.
Qed.

(** ** C8: input that is refused *)

Lemma hasEmail_false r :
  (forall e, parsedEmail r = Some e -> includes e (js "@") = false) -> hasEmail r = false.
Proof.
  unfold hasEmail. destruct (parsedEmail r) as [e|]; [|reflexivity].
  intros H. rewrite (H e eq_refl). apply andb_false_r.
Qed.

(** C8.  When the candidate name is empty, or the role is empty, or no
    line of the reviewer text gives an email with an '@', [handleSubmit]
    ends at once with a validation message in [error]: it awaits no agent
    call, allocates no request, and leaves the list of requests, the
    selection, the view and the busy flag as they were. *)
Theorem C8_invalid_input_is_refused (w : World)
    (candidateName candidateRole reviewerData : jsstring) :
  candidateName = [] \/ candidateRole = []
  \/ (forall r e, In r (parseReviewers reviewerData) -> parsedEmail r = Some e ->
                  includes e (js "@") = false) ->
  exists w',
    handleSubmit w candidateName candidateRole reviewerData = Finished w'
    /\ awaited (handleSubmit w candidateName candidateRole reviewerData) = None
    /\ (error (app w') = js "Please fill in all fields"
        \/ error (app w') = js "Please enter at least one valid reviewer with email")
    /\ heap w' = heap w
    /\ requests (app w') = requests (app w)
    /\ selectedRequest (app w') = selectedRequest (app w)
    /\ currentView (app w') = currentView (app w)
    /\ loading (app w') = loading (app w)
    /\ successMessage (app w') = [].
Proof.
  intros H. unfold handleSubmit.
  destruct (negb (truthy (trim candidateName)) || negb (truthy (trim candidateRole))
            || negb (truthy (trim reviewerData))) eqn:Eblank.
  - eexists. split; [reflexivity|]. repeat split. now left.
  - apply orb_false_iff in Eblank. destruct Eblank as [Eblank _].
    apply orb_false_iff in Eblank. destruct Eblank as [En Er].
    destruct H as [-> | [-> | H]]; [discriminate En | discriminate Er |].
    rewrite (reviewerList_nil reviewerData).
    + eexists. split; [reflexivity|]. repeat split. now right.
    + intros r Hr. apply hasEmail_false. intros e He. exact (H r e Hr He).
Qed.

Lemma C8_invalid_input_is_refused_witness :
  exists w',
    handleSubmit initialWorld [] (js "Eng Manager") (js "John|john@x.com") = Finished w'
    /\ heap w' = [] /\ requests (app w') = [].
Proof.
  destruct (C8_invalid_input_is_refused initialWorld [] (js "Eng Manager") (js "John|john@x.com")
              (or_introl eq_refl))
    as [w' (Hrun & _ & _ & Hheap & Hreq & _)].
  exists w'. split; [exact Hrun|]. split; [exact Hheap | exact Hreq].
Defined.

(** ** C2: creating an assessment *)

Lemma formLink_Ok origin assessmentId r :
  isLatin1 (email r) = true -> isLatin1 assessmentId = true ->
  formLink origin assessmentId r =
  Ok {| FormLink.email := email r;
        FormLink.reviewerName := name r;
        FormLink.link :=
          origin ++ js "?reviewerId=" ++ base64 (email r ++ [dash] ++ assessmentId)
          ++ js "&email=" ++ email r ++ js "&assessmentId=" ++ assessmentId;
        FormLink.status := js "sent" |}.
Proof.
  intros He Hi. unfold formLink. now rewrite (reviewerId_defined _ _ He Hi).
Qed.

Lemma mapRes_Ok {A B : Type} (f : A -> Res B) (g : A -> B) l :
  (forall x, In x l -> f x = Ok (g x)) -> mapRes f l = Ok (map g l).
Proof.
  induction l as [|a l IH]; intros H; [reflexivity|].
  simpl. rewrite (H a) by now left. rewrite IH; [reflexivity|].
  intros x Hx. apply H. now right.
Qed.

Lemma deref_alloc h o : deref (h ++ [o]) (List.length h) = Some o.
Proof. unfold deref. rewrite nth_error_app2 by lia. now rewrite Nat.sub_diag. Qed.

Lemma deref_kept h o r x : deref h r = Some x -> deref (h ++ [o]) r = Some x.
Proof.
  unfold deref. intros H. rewrite nth_error_app1; [exact H|].
  apply nth_error_Some. congruence.
Qed.

(** C2, as amended.  When the candidate name and role are not blank, a
    line of the reviewer text gives an email with an '@', the emails kept
    are Latin-1 text and the agent call resolves, [handleSubmit] awaits
    the agent and then stores a new request, selected and appended to the
    list: its id is the clock reading, its status [sent], it has one form
    link per reviewer kept, and the link at each position carries that
    reviewer's email and the token of that email and the id.  With a clock
    reading that is not negative, no other pair has this token. *)
Theorem C2_create_links_each_reviewer (w w2 : World)
    (candidateName candidateRole reviewerData : jsstring) (env : Env) (data : AgentData) :
  truthy (trim candidateName) = true -> truthy (trim candidateRole) = true ->
  (exists r, In r (parseReviewers reviewerData) /\ hasEmail r = true) ->
  (forall x, In x (reviewerList reviewerData) -> isLatin1 (email x) = true) ->
  exists w1 call resume,
    handleSubmit w candidateName candidateRole reviewerData = Suspended w1 call resume
    /\ heap w1 = heap w /\ requests (app w1) = requests (app w) /\ loading (app w1) = true
    /\ exists r request,
         let w3 := resume (Resolved data) env w2 in
         heap w3 = heap w2 ++ [request]
         /\ deref (heap w3) r = Some request
         /\ selectedRequest (app w3) = Some r
         /\ requests (app w3) = requests (app w) ++ [r]
         /\ loading (app w3) = false
         /\ FeedbackRequest.id request = decimal (now env)
         /\ FeedbackRequest.candidateName request = candidateName
         /\ FeedbackRequest.candidateRole request = candidateRole
         /\ FeedbackRequest.status request = sent
         /\ FeedbackRequest.responses request = []
         /\ FeedbackRequest.reviewerEmails request = map email (reviewerList reviewerData)
         /\ FeedbackRequest.reviewerEmails request <> []
         /\ List.length (FeedbackRequest.formLinks request)
            = List.length (FeedbackRequest.reviewerEmails request)
         /\ Forall2 (linkedTo env (FeedbackRequest.id request))
              (FeedbackRequest.formLinks request) (FeedbackRequest.reviewerEmails request).
Proof.
  intros Hn Hr [r0 [Hin Hvalid]] Hlatin. unfold handleSubmit.
  assert (truthy (trim reviewerData) = true) as Hd.
  { destruct (truthy (trim reviewerData)) eqn:E; [reflexivity|].
    apply truthy_false in E. pose proof (blank_has_no_reviewer _ _ E Hin) as Hnone.
    unfold hasEmail in Hvalid. rewrite Hnone in Hvalid. discriminate. }
  rewrite Hn, Hr, Hd. cbn [negb orb].
  pose proof (reviewerList_not_nil _ _ Hin Hvalid) as Hne.
  destruct (reviewerList reviewerData) as [|x xs] eqn:El; [congruence|].
  cbn [List.length Nat.eqb].
  eexists _, _, _. split; [reflexivity|]. split; [reflexivity|].
  split; [reflexivity|]. split; [reflexivity|].
  pose proof (decimal_isLatin1 (now env)) as Hid.
  set (g := fun r : Reviewer =>
              {| FormLink.email := email r;
                 FormLink.reviewerName := name r;
                 FormLink.link :=
                   origin env ++ js "?reviewerId="
                   ++ base64 (email r ++ [dash] ++ decimal (now env))
                   ++ js "&email=" ++ email r ++ js "&assessmentId=" ++ decimal (now env);
                 FormLink.status := js "sent" |}).
  assert (mapRes (formLink (origin env) (decimal (now env))) (x :: xs) = Ok (map g (x :: xs)))
    as Hmap.
  { apply mapRes_Ok. intros y Hy. apply formLink_Ok; [now apply Hlatin | exact Hid]. }
  unfold createRequest. rewrite Hmap. unfold newObject, alloc.
  eexists _, _. cbv zeta.
  split; [reflexivity|]. split.
  { exact (deref_alloc _ _). }
  repeat (split; [reflexivity|]).
  split; [discriminate|]. split.
  { cbn [FeedbackRequest.formLinks FeedbackRequest.reviewerEmails]. now rewrite !length_map. }
  cbn [FeedbackRequest.formLinks FeedbackRequest.reviewerEmails FeedbackRequest.id].
  clear Hmap El Hne. revert Hlatin. generalize (x :: xs). intros l Hl.
  induction l as [|y l IH]; [constructor|]. cbn [map]. constructor.
  - assert (isLatin1 (email y) = true) as Hy by (apply Hl; now left).
    split; [reflexivity|].
    exists (base64 (email y ++ [dash] ++ decimal (now env))).
    split; [now apply reviewerId_defined|]. split; [reflexivity|].
    intros Hclock e' id' Hd' Htok.
    apply (reviewerId_injective e' id' (email y) (decimal (now env))
             (base64 (email y ++ [dash] ++ decimal (now env))) Hd');
      [now apply decimal_dashFree | exact Htok | now apply reviewerId_defined].
  - apply IH. intros z Hz. apply Hl. now right.
Qed.

Lemma C2_create_links_each_reviewer_witness :
  exists w1 call resume r request,
    handleSubmit initialWorld (js "Sarah Johnson") (js "Eng Manager") (js "John|john@x.com")
    = Suspended w1 call resume
    /\ deref (heap (resume (Resolved emptyData) scenarioEnv initialWorld)) r = Some request
    /\ List.length (FeedbackRequest.formLinks request) = 1%nat
    /\ Forall2 (linkedTo scenarioEnv (js "1730000000000"))
         (FeedbackRequest.formLinks request) [js "john@x.com"].
Proof.
  destruct (C2_create_links_each_reviewer initialWorld initialWorld
              (js "Sarah Johnson") (js "Eng Manager") (js "John|john@x.com")
              scenarioEnv emptyData eq_refl eq_refl)
    as (w1 & call & resume & Hrun & _ & _ & _ & r & request & H).
  - exists (parseLine (js "John|john@x.com")). split; [now left | reflexivity].
  - intros x [<- | []]. reflexivity.
  - cbv zeta in H.
    destruct H as (_ & Hderef & _ & _ & _ & Hid & _ & _ & _ & _ & Hemails & _ & Hlen & Hlinks).
    exists w1, call, resume, r, request. split; [exact Hrun|]. split; [exact Hderef|].
    rewrite Hemails in Hlen, Hlinks. rewrite Hid in Hlinks.
    split; [exact Hlen | exact Hlinks].
Defined.

(** C2 fails as stated: a candidate name that is not empty but blank is
    refused; with a valid form nothing is created when the agent call
    fails, nor when an email holds a character that [btoa] rejects. *)
Lemma C2_valid_input_without_assessment :
  (js " " <> []
   /\ exists w',
        handleSubmit initialWorld (js " ") (js "Eng Manager") (js "John|john@x.com")
        = Finished w'
        /\ heap w' = [] /\ requests (app w') = []
        /\ error (app w') = js "Please fill in all fields")
  /\ (let w' := run (handleSubmit initialWorld (js "Sarah Johnson") (js "Eng Manager")
                       (js "John|john@x.com"))
                    (Rejected {| message := js "Network error" |}) scenarioEnv in
      heap w' = [] /\ requests (app w') = [] /\ error (app w') = js "Network error")
  /\ (let w' := run (handleSubmit initialWorld (js "Sarah Johnson") (js "Eng Manager")
                       (js "Eve|" ++ [8364] ++ js "@x.com"))
                    (Resolved emptyData) scenarioEnv in
      includes ([8364] ++ js "@x.com") (js "@") = true
      /\ heap w' = [] /\ requests (app w') = []
      /\ error (app w') = message InvalidCharacterError).
Proof.
  split; [|split].
  - split; [discriminate|]. eexists. repeat split.
  - cbv zeta. repeat split.
  - cbv zeta. repeat split.
Qed.

(** ** Submitting feedback *)

(** The run of [handleFeedbackSubmit] with a request selected. *)
Lemma handleFeedbackSubmit_selected (w : World) (submission : FeedbackSubmission.t)
    (sel : ref) (selected : FeedbackRequest.t) :
  selectedRequest (app w) = Some sel -> deref (heap w) sel = Some selected ->
  exists resume,
    handleFeedbackSubmit w submission =
    Suspended
      {| heap := heap w ++ [updatedRequest selected submission];
         app := {| currentView := input;
                   requests := map (replaceById (heap w ++ [updatedRequest selected submission])
                                      (FeedbackRequest.id selected) (List.length (heap w)))
                                   (requests (app w));
                   selectedRequest := Some (List.length (heap w));
                   loading := true;
                   error := error (app w);
                   successMessage := thanks;
                   feedbackReviewerEmail := [];
                   feedbackReviewerId := [] |} |}
      {| prompt := notifyMessage (updatedRequest selected submission) submission;
         agentId := theAgent |}
      resume
    /\ (forall data env w', resume (Resolved data) env w' = setLoading false w')
    /\ (forall err env w',
          resume (Rejected err) env w' =
          setLoading false (setError (orElse (message err) (js "Failed to submit feedback")) w')).
Proof.
  intros Hsel Hderef. unfold handleFeedbackSubmit. rewrite Hsel, Hderef.
  eexists. split; [reflexivity|]. split; reflexivity.
Qed.

Lemma deref_fresh h r o : deref h r = Some o -> r <> List.length h.
Proof.
  unfold deref. intros H E. subst r.
  assert (nth_error h (List.length h) <> None) as N by congruence.
  apply nth_error_Some in N. lia.
Qed.

Lemma replaceById_selected h sel selected updated :
  deref h sel = Some selected ->
  replaceById h (FeedbackRequest.id selected) updated sel = updated.
Proof.
  intros H. unfold replaceById. now rewrite H, jsstring_eqb_refl.
Qed.

(** ** C4: appending is a functional update *)

(** C4.  [handleFeedbackSubmit] appends by allocating a new request
    object: every object of the heap, the selected request among them, is
    after the call what it was before; the new object is selected, its
    [responses] are the old ones followed by the submission, one more
    than before, and its other fields are those of the old object.
    Resuming after the agent call touches no object. *)
Theorem C4_append_leaves_input_unchanged (w : World) (submission : FeedbackSubmission.t)
    (sel : ref) (selected : FeedbackRequest.t) :
  selectedRequest (app w) = Some sel -> deref (heap w) sel = Some selected ->
  exists w1 call resume updated new,
    handleFeedbackSubmit w submission = Suspended w1 call resume
    /\ (forall r o, deref (heap w) r = Some o -> deref (heap w1) r = Some o)
    /\ deref (heap w1) sel = Some selected
    /\ selectedRequest (app w1) = Some updated
    /\ updated <> sel
    /\ deref (heap w1) updated = Some new
    /\ FeedbackRequest.responses new = FeedbackRequest.responses selected ++ [submission]
    /\ List.length (FeedbackRequest.responses new)
       = S (List.length (FeedbackRequest.responses selected))
    /\ FeedbackRequest.id new = FeedbackRequest.id selected
    /\ FeedbackRequest.candidateName new = FeedbackRequest.candidateName selected
    /\ FeedbackRequest.candidateRole new = FeedbackRequest.candidateRole selected
    /\ FeedbackRequest.reviewerEmails new = FeedbackRequest.reviewerEmails selected
    /\ FeedbackRequest.reviewerNames new = FeedbackRequest.reviewerNames selected
    /\ FeedbackRequest.formLinks new = FeedbackRequest.formLinks selected
    /\ FeedbackRequest.status new = FeedbackRequest.status selected
    /\ FeedbackRequest.feedback new = FeedbackRequest.feedback selected
    /\ FeedbackRequest.createdAt new = FeedbackRequest.createdAt selected
    /\ (forall outcome env w2, heap (resume outcome env w2) = heap w2).
Proof.
  intros Hsel Hderef.
  destruct (handleFeedbackSubmit_selected w submission sel selected Hsel Hderef)
    as (resume & Hrun & Hok & Hfail).
  eexists _, _, resume, (List.length (heap w)), (updatedRequest selected submission).
  split; [exact Hrun|]. cbn [heap app selectedRequest].
  split; [intros r o; apply deref_kept|].
  split; [now apply deref_kept|].
  split; [reflexivity|].
  split; [intros E; symmetry in E; revert E; now apply (deref_fresh _ _ selected)|].
  split; [apply deref_alloc|].
  split; [reflexivity|].
  split; [cbn; rewrite length_app; simpl; lia|].
  repeat (split; [reflexivity|]).
  intros [data | err] env w2; [rewrite Hok | rewrite Hfail]; reflexivity.
Qed.

Lemma C4_append_leaves_input_unchanged_witness :
  exists w1 call resume updated new,
    handleFeedbackSubmit (scenarioCreated emptyData)
      (buildSubmission (scenarioRequest emptyData) (js "john@x.com") allFours noComments
         (js "2024-10-28T09:00:00.000Z"))
    = Suspended w1 call resume
    /\ deref (heap w1) 0%nat = Some (scenarioRequest emptyData)
    /\ selectedRequest (app w1) = Some updated
    /\ updated <> 0%nat
    /\ deref (heap w1) updated = Some new
    /\ List.length (FeedbackRequest.responses new) = 1%nat.
Proof.
  destruct (C4_append_leaves_input_unchanged (scenarioCreated emptyData)
              (buildSubmission (scenarioRequest emptyData) (js "john@x.com") allFours noComments
                 (js "2024-10-28T09:00:00.000Z"))
              0%nat (scenarioRequest emptyData) eq_refl eq_refl)
    as (w1 & call & resume & updated & new & Hrun & _ & Hold & Hsel & Hne & Hnew & _ & Hlen & _).
  exists w1, call, resume, updated, new.
  split; [exact Hrun|]. split; [exact Hold|]. split; [exact Hsel|].
  split; [exact Hne|]. split; [exact Hnew | exact Hlen].
Defined.

(** ** C9: the append comes before the notification *)

(** C9.  With a request selected, [handleFeedbackSubmit] reaches its
    [await] with the submission already appended in a new request object,
    that object selected and standing in the list in place of the old
    one, and the thanks already set; when the awaited call then fails, the
    error is recorded and the busy flag cleared, and the objects, the
    list, the selection and the thanks stay as they were at the await. *)
Theorem C9_append_precedes_notification (w : World) (submission : FeedbackSubmission.t)
    (sel : ref) (selected : FeedbackRequest.t) :
  selectedRequest (app w) = Some sel -> deref (heap w) sel = Some selected ->
  exists w1 call resume updated new,
    handleFeedbackSubmit w submission = Suspended w1 call resume
    /\ awaited (handleFeedbackSubmit w submission) = Some call
    /\ agentId call = theAgent
    /\ selectedRequest (app w1) = Some updated
    /\ deref (heap w1) updated = Some new
    /\ FeedbackRequest.responses new = FeedbackRequest.responses selected ++ [submission]
    /\ (In sel (requests (app w)) -> In updated (requests (app w1)))
    /\ successMessage (app w1) = thanks
    /\ loading (app w1) = true
    /\ forall err env,
         let w3 := resume (Rejected err) env w1 in
         heap w3 = heap w1
         /\ requests (app w3) = requests (app w1)
         /\ selectedRequest (app w3) = Some updated
         /\ deref (heap w3) updated = Some new
         /\ successMessage (app w3) = thanks
         /\ error (app w3) = orElse (message err) (js "Failed to submit feedback")
         /\ loading (app w3) = false.
Proof.
  intros Hsel Hderef.
  destruct (handleFeedbackSubmit_selected w submission sel selected Hsel Hderef)
    as (resume & Hrun & _ & Hfail).
  eexists _, _, resume, (List.length (heap w)), (updatedRequest selected submission).
  split; [exact Hrun|]. rewrite Hrun. cbn [heap app selectedRequest awaited agentId].
  split; [reflexivity|]. split; [reflexivity|]. split; [reflexivity|].
  split; [apply deref_alloc|]. split; [reflexivity|].
  split.
  { intros Hin. cbn [requests]. apply in_map_iff. exists sel. split; [|exact Hin].
    apply replaceById_selected. now apply deref_kept. }
  split; [reflexivity|]. split; [reflexivity|].
  intros err env. cbv zeta. rewrite Hfail. cbn.
  repeat split. apply deref_alloc.
Qed.

Lemma C9_append_precedes_notification_witness :
  exists w1 call resume updated new,
    handleFeedbackSubmit (scenarioCreated emptyData)
      (buildSubmission (scenarioRequest emptyData) (js "john@x.com") allFours noComments
         (js "2024-10-28T09:00:00.000Z"))
    = Suspended w1 call resume
    /\ deref (heap (resume (Rejected {| message := js "Network error" |}) scenarioEnv w1)) updated
       = Some new
    /\ List.length (FeedbackRequest.responses new) = 1%nat
    /\ error (app (resume (Rejected {| message := js "Network error" |}) scenarioEnv w1))
       = js "Network error".
Proof.
  destruct (C9_append_precedes_notification (scenarioCreated emptyData)
              (buildSubmission (scenarioRequest emptyData) (js "john@x.com") allFours noComments
                 (js "2024-10-28T09:00:00.000Z"))
              0%nat (scenarioRequest emptyData) eq_refl eq_refl)
    as (w1 & call & resume & updated & new & Hrun & _ & _ & _ & _ & Hresp & _ & _ & _ & Hfail).
  destruct (Hfail {| message := js "Network error" |} scenarioEnv)
    as (_ & _ & _ & Hnew & _ & Herr & _).
  exists w1, call, resume, updated, new. split; [exact Hrun|]. split; [exact Hnew|].
  split; [now rewrite Hresp | exact Herr].
Defined.

(** ** C3: a reviewer who is not on the roster *)

Lemma indexOf_absent arr x : ~ In x arr -> indexOf arr x = (-1)%Z.
Proof.
  induction arr as [|y arr IH]; intros H; [reflexivity|]. simpl.
  destruct (jsstring_eqb y x) eqn:E.
  - apply jsstring_eqb_eq in E. exfalso. apply H. now left.
  - rewrite IH; [reflexivity|]. intros Hin. apply H. now right.
Qed.

(** C3, as amended.  The form does not check the roster: for a reviewer
    email that is not among the reviewer emails of the selected request,
    the submission takes the email itself as the reviewer's name and is
    appended like any other, with no error raised. *)
Theorem C3_unknown_reviewer_is_appended (w : World) (scores : Scores.t)
    (textResponses : TextResponses.t) (isoNow : jsstring)
    (sel : ref) (request : FeedbackRequest.t) :
  selectedRequest (app w) = Some sel -> deref (heap w) sel = Some request ->
  ~ In (feedbackReviewerEmail (app w)) (FeedbackRequest.reviewerEmails request) ->
  exists w1 call resume updated new submission,
    submitFeedbackForm w scores textResponses isoNow = Suspended w1 call resume
    /\ FeedbackSubmission.reviewerEmail submission = feedbackReviewerEmail (app w)
    /\ FeedbackSubmission.reviewerName submission = feedbackReviewerEmail (app w)
    /\ FeedbackSubmission.scores submission = scores
    /\ selectedRequest (app w1) = Some updated
    /\ deref (heap w1) updated = Some new
    /\ FeedbackRequest.responses new = FeedbackRequest.responses request ++ [submission]
    /\ FeedbackRequest.reviewerEmails new = FeedbackRequest.reviewerEmails request
    /\ error (app w1) = error (app w)
    /\ successMessage (app w1) = thanks.
Proof.
  intros Hsel Hderef Habsent. unfold submitFeedbackForm. rewrite Hsel, Hderef.
  set (submission := buildSubmission request (feedbackReviewerEmail (app w)) scores
                       textResponses isoNow).
  destruct (handleFeedbackSubmit_selected w submission sel request Hsel Hderef)
    as (resume & Hrun & _).
  eexists _, _, resume, (List.length (heap w)), (updatedRequest request submission), submission.
  split; [exact Hrun|]. cbn [heap app selectedRequest error successMessage].
  split; [reflexivity|]. split.
  { unfold submission, buildSubmission. cbn [FeedbackSubmission.reviewerName].
    now rewrite (indexOf_absent _ _ Habsent). }
  split; [reflexivity|]. split; [reflexivity|]. split; [apply deref_alloc|].
  repeat split.
Qed.

Lemma C3_unknown_reviewer_is_appended_witness :
  exists w1 call resume,
    submitFeedbackForm
      (handleSelectAssessmentForFeedback (scenarioCreated emptyData) 0%nat (js "eve@y.com"))
      allFours noComments (js "2024-10-28T09:00:00.000Z")
    = Suspended w1 call resume
    /\ error (app w1) = [].
Proof.
  destruct (C3_unknown_reviewer_is_appended
              (handleSelectAssessmentForFeedback (scenarioCreated emptyData) 0%nat (js "eve@y.com"))
              allFours noComments (js "2024-10-28T09:00:00.000Z")
              0%nat (scenarioRequest emptyData) eq_refl eq_refl)
    as (w1 & call & resume & _ & _ & _ & Hrun & _ & _ & _ & _ & _ & _ & _ & Herr & _).
  - intros [E | []]. discriminate E.
  - exists w1, call, resume. split; [exact Hrun | exact Herr].
Defined.

(** C3 fails as stated: eve@y.com is not on the roster of the scenario,
    yet her submission is appended and no error is raised. *)
Lemma C3_unknown_reviewer_not_rejected :
  FeedbackRequest.reviewerEmails (scenarioRequest emptyData) = [js "john@x.com"]
  /\ exists w1 call resume new,
       submitFeedbackForm
         (handleSelectAssessmentForFeedback (scenarioCreated emptyData) 0%nat (js "eve@y.com"))
         allFours noComments (js "2024-10-28T09:00:00.000Z")
       = Suspended w1 call resume
       /\ selectedRequest (app w1) = Some 1%nat
       /\ deref (heap w1) 1%nat = Some new
       /\ FeedbackRequest.responses (scenarioRequest emptyData) = []
       /\ map FeedbackSubmission.reviewerEmail (FeedbackRequest.responses new) = [js "eve@y.com"]
       /\ map FeedbackSubmission.reviewerName (FeedbackRequest.responses new) = [js "eve@y.com"]
       /\ error (app w1) = []
       /\ successMessage (app w1) = thanks.
Proof.
  split; [reflexivity|]. eexists _, _, _, _. split; [vm_compute; reflexivity|].
  repeat split.
Qed.

(** ** Further facts about the views and the scenario *)

Section Defaults.
Context {host : Host}.

(** A criterion without an entry in the breakdown is shown at 0/5, with
    an empty bar and no feedback. *)
Lemma criterionRow_missing criterionBreakdown c :
  lookup criterionBreakdown (key c) = None ->
  criterionRow criterionBreakdown c =
  {| rowLabel := label c; rowBadge := js "0/5";
     rowProgress := times (dividedBy 0 5) 100; rowFeedback := None |}.
Proof.
  intros H. unfold criterionRow, criterionData. now rewrite H.
Qed.

(** The report that [handleExportPDF] offers for download is that of the
    selected request, when it carries a payload. *)
Lemma handleExportPDF_selected w sel request fb :
  selectedRequest (app w) = Some sel -> deref (heap w) sel = Some request ->
  FeedbackRequest.feedback request = Some fb ->
  handleExportPDF w = Some (generatePDFContent request).
Proof.
  intros Hsel Hderef Hfb. unfold handleExportPDF. now rewrite Hsel, Hderef, Hfb.
Qed.

End Defaults.

(** John, who is on the roster, submits under his name. *)
Lemma scenario_submission_of_john :
  FeedbackSubmission.reviewerName
    (buildSubmission (scenarioRequest emptyData) (js "john@x.com") allFours noComments
       (js "2024-10-28T09:00:00.000Z"))
  = js "John".
Proof. reflexivity. Qed.

(* ================================================================== *)
(** * Further properties of the code *)

(** ** The handlers and their continuations *)

Lemma handleSubmit_awaits w candidateName candidateRole reviewerData w1 call resume :
  handleSubmit w candidateName candidateRole reviewerData = Suspended w1 call resume ->
  resume = resumeOf (AwaitSubmit (requests (app w)) candidateName candidateRole
                       (reviewerList reviewerData))
  /\ w1 = setLoading true (setSuccessMessage [] (setError [] w))
  /\ reviewerList reviewerData <> [].
Proof.
  unfold handleSubmit.
  destruct (negb (truthy (trim candidateName)) || negb (truthy (trim candidateRole))
            || negb (truthy (trim reviewerData))); [discriminate|].
  destruct (reviewerList reviewerData) as [|x xs] eqn:E; [discriminate|].
  cbn [List.length Nat.eqb]. intros H. injection H as <- _ <-.
  repeat split. discriminate.
Qed.

Lemma handleSubmit_finishes w candidateName candidateRole reviewerData w' :
  handleSubmit w candidateName candidateRole reviewerData = Finished w' ->
  exists msg, msg <> [] /\ w' = setError msg (setSuccessMessage [] (setError [] w)).
Proof.
  unfold handleSubmit.
  destruct (negb (truthy (trim candidateName)) || negb (truthy (trim candidateRole))
            || negb (truthy (trim reviewerData))).
  - intros H. injection H as <-. eexists. split; [|reflexivity]. discriminate.
  - destruct (List.length (reviewerList reviewerData) =? 0)%nat; [|discriminate].
    intros H. injection H as <-. eexists. split; [|reflexivity]. discriminate.
Qed.

Lemma handleFeedbackSubmit_awaits w submission w1 call resume :
  handleFeedbackSubmit w submission = Suspended w1 call resume ->
  resume = resumeOf AwaitFeedbackSubmit.
Proof.
  unfold handleFeedbackSubmit.
  destruct (selectedRequest (app w)) as [sel|]; [|discriminate].
  destruct (deref (heap w) sel); [|discriminate].
  intros H. injection H as _ _ <-. reflexivity.
Qed.

Lemma handleResendInvitations_awaits w request :
  exists call,
    handleResendInvitations w request = Suspended (setLoading true w) call (resumeOf AwaitResend)
    /\ prompt call = resendMessage request /\ agentId call = theAgent.
Proof. eexists. repeat split. Qed.

(** ** The router *)

Lemma findById_Some h requests assessmentId r :
  findById h requests assessmentId = Some r ->
  exists before after o,
    requests = before ++ r :: after
    /\ deref h r = Some o /\ FeedbackRequest.id o = assessmentId
    /\ forall r' o', In r' before -> deref h r' = Some o' -> FeedbackRequest.id o' <> assessmentId.
Proof.
  induction requests as [|r0 rs IH]; [discriminate|]. simpl.
  destruct (deref h r0) as [o0|] eqn:D.
  - destruct (jsstring_eqb (FeedbackRequest.id o0) assessmentId) eqn:E.
    + intros H. injection H as <-. apply jsstring_eqb_eq in E.
      exists [], rs, o0. repeat split; auto.
    + intros H. destruct (IH H) as (before & after & o & -> & Ho & Hid & Hfirst).
      exists (r0 :: before), after, o. repeat split; auto.
      intros r' o' [<- | Hin] Hd; [|eauto].
      rewrite D in Hd. injection Hd as <-. intros Eid.
      apply jsstring_eqb_eq in Eid. congruence.
  - intros H. destruct (IH H) as (before & after & o & -> & Ho & Hid & Hfirst).
    exists (r0 :: before), after, o. repeat split; auto.
    intros r' o' [<- | Hin] Hd; [congruence | eauto].
Qed.

Lemma findById_None h requests assessmentId r o :
  findById h requests assessmentId = None -> In r requests -> deref h r = Some o ->
  FeedbackRequest.id o <> assessmentId.
Proof.
  induction requests as [|r0 rs IH]; [contradiction|]. simpl. intros H [<- | Hin] D.
  - rewrite D in H. destruct (jsstring_eqb (FeedbackRequest.id o) assessmentId) eqn:E;
      [discriminate|]. intros Eid. apply jsstring_eqb_eq in Eid. congruence.
  - apply IH; auto. destruct (deref h r0) as [o0|]; [|exact H].
    destruct (jsstring_eqb (FeedbackRequest.id o0) assessmentId); [discriminate | exact H].
Qed.

(** What the effect leaves alone. *)
Lemma routeEffect_frame params w :
  heap (routeEffect params w) = heap w
  /\ requests (app (routeEffect params w)) = requests (app w)
  /\ loading (app (routeEffect params w)) = loading (app w)
  /\ error (app (routeEffect params w)) = error (app w)
  /\ successMessage (app (routeEffect params w)) = successMessage (app w).
Proof.
  unfold routeEffect.
  destruct (reviewerIdParam params), (emailParam params), (assessmentIdParam params);
    try (repeat split; fail).
  destruct (truthy _ && truthy _ && truthy _); [|repeat split].
  destruct (findById _ _ _); repeat split.
Qed.

Lemma routeEffect_selection params w r :
  selectedRequest (app (routeEffect params w)) = Some r ->
  selectedRequest (app w) = Some r \/ In r (requests (app w)).
Proof.
  unfold routeEffect.
  destruct (reviewerIdParam params), (emailParam params), (assessmentIdParam params);
    try (now left).
  destruct (truthy _ && truthy _ && truthy _); [|now left].
  destruct (findById _ _ _) as [r'|] eqn:F; [|now left].
  cbn. intros H. injection H as <-. right.
  destruct (findById_Some _ _ _ _ F) as (before & after & _ & -> & _).
  apply in_elt.
Qed.

(** ** Creating a request: all or nothing *)

Lemma formLink_result origin assessmentId r l :
  formLink origin assessmentId r = Ok l ->
  isLatin1 (email r) = true
  /\ FormLink.email l = email r /\ FormLink.reviewerName l = name r
  /\ FormLink.status l = js "sent".
Proof.
  unfold formLink, reviewerId, btoa.
  destruct (isLatin1 (email r ++ [dash] ++ assessmentId)) eqn:L; [|discriminate].
  intros H. injection H as <-. rewrite isLatin1_app in L.
  apply andb_true_iff in L. destruct L as [L _]. repeat split. exact L.
Qed.

Lemma formLink_throws origin assessmentId r e :
  formLink origin assessmentId r = Throw e ->
  isLatin1 (email r ++ [dash] ++ assessmentId) = false /\ e = InvalidCharacterError.
Proof.
  unfold formLink, reviewerId, btoa.
  destruct (isLatin1 (email r ++ [dash] ++ assessmentId)); [discriminate|].
  intros H. injection H as <-. split; reflexivity.
Qed.

Lemma formLinks_result origin assessmentId reviewers links :
  mapRes (formLink origin assessmentId) reviewers = Ok links ->
  map FormLink.email links = map email reviewers
  /\ map FormLink.reviewerName links = map name reviewers
  /\ Forall (fun l => FormLink.status l = js "sent") links
  /\ Forall (fun x => isLatin1 (email x) = true) reviewers.
Proof.
  revert links. induction reviewers as [|x xs IH]; intros links H.
  - injection H as <-. repeat split; constructor.
  - simpl in H. destruct (formLink origin assessmentId x) as [l|] eqn:El; [|discriminate].
    destruct (mapRes (formLink origin assessmentId) xs) as [ls|]; [|discriminate].
    injection H as <-. destruct (IH ls eq_refl) as (E1 & E2 & F1 & F2).
    destruct (formLink_result _ _ _ _ El) as (L & A & B & C).
    simpl. rewrite A, B, E1, E2. repeat split; constructor; assumption.
Qed.

Lemma formLinks_throw origin assessmentId reviewers e :
  mapRes (formLink origin assessmentId) reviewers = Throw e ->
  e = InvalidCharacterError
  /\ exists x, In x reviewers /\ isLatin1 (email x ++ [dash] ++ assessmentId) = false.
Proof.
  induction reviewers as [|x xs IH]; [discriminate|]. simpl.
  destruct (formLink origin assessmentId x) as [l|e'] eqn:El.
  - destruct (mapRes (formLink origin assessmentId) xs) as [ls|e'']; [discriminate|].
    intros H. injection H as <-. destruct (IH eq_refl) as [-> [y [Hy Ly]]].
    split; [reflexivity|]. exists y. split; [now right | exact Ly].
  - intros H. injection H as <-. destruct (formLink_throws _ _ _ _ El) as [L ->].
    split; [reflexivity|]. exists x. split; [now left | exact L].
Qed.

(** The request that [createRequest] builds from the links. *)
Lemma createRequest_Ok requests candidateName candidateRole reviewers data env w w'' :
  createRequest requests candidateName candidateRole reviewers data env w = Ok w'' ->
  exists new,
    heap w'' = heap w ++ [new]
    /\ app w'' = {| currentView := dashboard;
                    requests := requests ++ [List.length (heap w)];
                    selectedRequest := Some (List.length (heap w));
                    loading := loading (app w);
                    error := error (app w);
                    successMessage :=
                      js "Assessment created! Share the feedback form links with reviewers.";
                    feedbackReviewerEmail := feedbackReviewerEmail (app w);
                    feedbackReviewerId := feedbackReviewerId (app w) |}
    /\ FeedbackRequest.id new = decimal (now env)
    /\ FeedbackRequest.candidateName new = candidateName
    /\ FeedbackRequest.candidateRole new = candidateRole
    /\ FeedbackRequest.reviewerEmails new = map email reviewers
    /\ FeedbackRequest.reviewerNames new = map name reviewers
    /\ FeedbackRequest.responses new = []
    /\ FeedbackRequest.createdAt new = isoNow env
    /\ FeedbackRequest.status new = sent
    /\ FeedbackRequest.feedback new
       = Some match result data with Some r => r | None => self data end
    /\ map FormLink.email (FeedbackRequest.formLinks new) = map email reviewers
    /\ map FormLink.reviewerName (FeedbackRequest.formLinks new) = map name reviewers
    /\ Forall (fun l => FormLink.status l = js "sent") (FeedbackRequest.formLinks new)
    /\ Forall (fun x => isLatin1 (email x) = true) reviewers.
Proof.
  unfold createRequest.
  destruct (mapRes (formLink (origin env) (decimal (now env))) reviewers) as [links|] eqn:E;
    [|discriminate].
  unfold newObject, alloc. intros H. injection H as <-.
  destruct (formLinks_result _ _ _ _ E) as (E1 & E2 & F1 & F2).
  eexists. split; [reflexivity|]. split; [reflexivity|].
  cbn. repeat split; assumption.
Qed.

Lemma createRequest_Throw requests candidateName candidateRole reviewers data env w e :
  createRequest requests candidateName candidateRole reviewers data env w = Throw e ->
  e = InvalidCharacterError
  /\ exists x, In x reviewers /\ isLatin1 (email x) = false.
Proof.
  unfold createRequest.
  destruct (mapRes (formLink (origin env) (decimal (now env))) reviewers) as [links|e'] eqn:E.
  - unfold newObject, alloc. discriminate.
  - intros H. injection H as <-. destruct (formLinks_throw _ _ _ _ E) as [-> [x [Hx L]]].
    split; [reflexivity|]. exists x. split; [exact Hx|].
    rewrite !isLatin1_app, decimal_isLatin1 in L. simpl in L.
    rewrite andb_true_r in L. exact L.
Qed.

(** ** What every page of a session satisfies *)

Lemma memRef_In r rs : memRef r rs = true <-> In r rs.
Proof.
  unfold memRef. rewrite existsb_exists. split.
  - intros [x [Hx E]]. apply Nat.eqb_eq in E. now subst.
  - intros H. exists r. split; [exact H | apply Nat.eqb_refl].
Qed.

Lemma RequestOK_updated o submission : RequestOK o -> RequestOK (updatedRequest o submission).
Proof. intros H. exact H. Qed.

Lemma validRef_deref (h : Heap) r : (r < List.length h)%nat -> exists o, deref h r = Some o.
Proof.
  intros H. unfold deref. destruct (nth_error h r) eqn:E; [eauto|].
  apply nth_error_None in E. lia.
Qed.

Lemma removeAt_single {A : Type} (a : A) i x : nth_error [a] i = Some x -> removeAt i [a] = [] /\ x = a.
Proof.
  destruct i as [|i]; simpl.
  - intros H. injection H as <-. auto.
  - destruct i; discriminate.
Qed.

Lemma pending_single (l : list Awaiting) i a :
  (List.length l <= 1)%nat -> nth_error l i = Some a -> l = [a] /\ removeAt i l = [].
Proof.
  destruct l as [|b [|c l]]; simpl; intros Hlen H.
  - destruct i; discriminate.
  - destruct (removeAt_single b i a H) as [E ->]. auto.
  - lia.
Qed.

Lemma PageOK_first params : PageOK (firstPage params).
Proof.
  unfold PageOK, firstPage. cbn [world pending].
  destruct (routeEffect_frame params initialWorld) as (Hh & Hr & Hl & _).
  rewrite Hh, Hr, Hl. cbn.
  repeat split; try constructor; try discriminate; try lia.
  - intros r H. apply routeEffect_selection in H. destruct H as [H | H]; [discriminate H | exact H].
  - intros H. now contradiction H.
Qed.

(** Moving between views, or selecting a listed request, keeps a page
    well formed. *)
Lemma PageOK_view p v : PageOK p -> PageOK {| world := setCurrentView v (world p); pending := pending p |}.
Proof. intros H. exact H. Qed.

Lemma PageOK_select p r :
  PageOK p -> In r (requests (app (world p))) ->
  PageOK {| world := setSelectedRequest (Some r) (world p); pending := pending p |}.
Proof.
  intros (H1 & H2 & H3 & H4 & H5 & H6) Hin. unfold PageOK. cbn.
  repeat split; auto; try apply H4.
  intros r' E. injection E as <-. exact Hin.
Qed.

Lemma AwaitingOK_requests w w' a :
  requests (app w') = requests (app w) -> AwaitingOK w a -> AwaitingOK w' a.
Proof. intros E. destruct a; simpl; [rewrite E|..]; auto. Qed.

Lemma PageOK_route params p : PageOK p -> PageOK {| world := routeEffect params (world p); pending := pending p |}.
Proof.
  intros (H1 & H2 & H3 & H4 & H5 & H6). unfold PageOK. cbn [world pending].
  destruct (routeEffect_frame params (world p)) as (Hh & Hr & Hl & _).
  rewrite Hh, Hr, Hl. repeat split; auto; try apply H4.
  - intros r H. apply routeEffect_selection in H. destruct H; auto.
  - eapply Forall_impl; [|exact H6]. intros a. now apply AwaitingOK_requests.
Qed.

Lemma PageOK_messages p w' (l : list Awaiting) :
  PageOK p ->
  heap w' = heap (world p) -> requests (app w') = requests (app (world p)) ->
  selectedRequest (app w') = selectedRequest (app (world p)) ->
  (loading (app w') = true <-> l <> []) -> (List.length l <= 1)%nat ->
  Forall (AwaitingOK w') l ->
  PageOK {| world := w'; pending := l |}.
Proof.
  intros (H1 & H2 & H3 & _) Hh Hr Hs Hl Hlen Ha. unfold PageOK. cbn [world pending].
  rewrite Hh, Hr, Hs. repeat split; auto; apply Hl.
Qed.

Lemma idle_page p : PageOK p -> loading (app (world p)) = false -> pending p = [].
Proof.
  intros (_ & _ & _ & H4 & _) Hl. destruct (pending p) as [|a l]; [reflexivity|].
  assert (loading (app (world p)) = true) by (apply H4; discriminate). congruence.
Qed.

Lemma busy_iff_one (a : Awaiting) : true = true <-> [a] <> [].
Proof. split; [discriminate | reflexivity]. Qed.

Lemma idle_iff_none : false = true <-> @nil Awaiting <> [].
Proof. split; [discriminate | intros H; now contradiction H]. Qed.

(** The page stays well formed through every event. *)
Lemma PageOK_step params p e p' : PageOK p -> step params p e = Some p' -> PageOK p'.
Proof.
  intros Hok Hstep.
  destruct e as [ | | | | cn cr rd | request | | assessment mail | scores textResponses isoNow
                | call outcome env]; cbn [step] in Hstep.
  - (* New Assessment *)
    destruct (isFeedbackView _); [discriminate|]. injection Hstep as <-. exact Hok.
  - (* Give Feedback *)
    destruct (isFeedbackView _); [discriminate|]. injection Hstep as <-. exact Hok.
  - (* Dashboard *)
    destruct (isFeedbackView _); [discriminate|]. injection Hstep as <-. exact Hok.
  - (* Back *)
    destruct (isFeedbackView _); [|discriminate]. injection Hstep as <-. exact Hok.
  - (* the assessment form *)
    destruct (isInputView _ && negb (loading (app (world p)))) eqn:G; [|discriminate].
    apply andb_true_iff in G. destruct G as [_ G]. apply negb_true_iff in G.
    pose proof (idle_page p Hok G) as Hidle.
    destruct (handleSubmit (world p) cn cr rd)
      as [w'|w' call resume] eqn:Hrun; injection Hstep as <-.
    + destruct (handleSubmit_finishes _ _ _ _ _ Hrun) as [msg [_ ->]].
      apply (PageOK_messages p); try reflexivity; apply Hok.
    + destruct (handleSubmit_awaits _ _ _ _ _ _ _ Hrun) as (_ & -> & Hne).
      rewrite Hidle. apply (PageOK_messages p); try reflexivity; auto.
      * apply busy_iff_one.
      * constructor; [|constructor]. split; [reflexivity|]. split; [exact Hne|].
        apply Forall_forall. intros x Hx. now apply (reviewerList_emails rd).
  - (* a request of the dashboard list *)
    destruct (isDashboardView _ && memRef request (requests (app (world p)))) eqn:G;
      [|discriminate].
    apply andb_true_iff in G. destruct G as [_ G]. apply memRef_In in G.
    injection Hstep as <-. now apply PageOK_select.
  - (* Resend Invitations *)
    destruct (isDashboardView _ && negb (loading (app (world p)))) eqn:G; [|discriminate].
    apply andb_true_iff in G. destruct G as [_ G]. apply negb_true_iff in G.
    pose proof (idle_page p Hok G) as Hidle.
    destruct (requests (app (world p))) as [|r0 rs] eqn:Hrs; [discriminate|].
    destruct (selectedRequest (app (world p))) as [sel|]; [|discriminate].
    destruct (deref (heap (world p)) sel) as [request|]; [|discriminate].
    cbn [handleResendInvitations] in Hstep. injection Hstep as <-.
    rewrite Hidle. apply (PageOK_messages p); try reflexivity; auto.
    + apply busy_iff_one.
    + repeat constructor.
  - (* the feedback access screen *)
    destruct (isFeedbackView _ && memRef assessment (requests (app (world p)))
              && includes mail (js "@")) eqn:G; [|discriminate].
    apply andb_true_iff in G. destruct G as [G _].
    apply andb_true_iff in G. destruct G as [_ G]. apply memRef_In in G.
    destruct (selectedRequest (app (world p))); [discriminate|].
    injection Hstep as <-. exact (PageOK_select p assessment Hok G).
  - (* the feedback form *)
    destruct (isFeedbackView _ && negb (loading (app (world p)))) eqn:G; [|discriminate].
    apply andb_true_iff in G. destruct G as [_ G]. apply negb_true_iff in G.
    pose proof (idle_page p Hok G) as Hidle.
    destruct (selectedRequest (app (world p))) as [sel|] eqn:Hsel; [|discriminate].
    destruct Hok as (H1 & H2 & H3 & H4 & H5 & H6).
    pose proof (H3 sel Hsel) as Hin.
    rewrite Forall_forall in H2. pose proof (H2 sel Hin) as Hvalid.
    destruct (validRef_deref _ _ Hvalid) as [selected Hderef].
    unfold submitFeedbackForm in Hstep. rewrite Hsel, Hderef in Hstep.
    set (submission := buildSubmission selected (feedbackReviewerEmail (app (world p)))
                         scores textResponses isoNow) in *.
    destruct (handleFeedbackSubmit_selected _ submission _ _ Hsel Hderef)
      as (resume & Hrun & _).
    rewrite Hrun in Hstep. injection Hstep as <-. rewrite Hidle. cbn [app].
    match goal with
    | |- PageOK {| world := routeEffect params ?w1; pending := ?l |} =>
        apply (PageOK_route params {| world := w1; pending := l |})
    end.
    unfold PageOK. cbn [world pending heap app requests selectedRequest loading].
    split; [|split; [|split; [|split; [|split]]]].
    + apply Forall_app. split; [exact H1|]. constructor; [|constructor].
      apply RequestOK_updated. rewrite Forall_forall in H1. apply H1.
      unfold deref in Hderef. now apply nth_error_In in Hderef.
    + apply Forall_forall. intros r Hr. apply in_map_iff in Hr.
      destruct Hr as [r0 [<- Hr0]]. rewrite length_app. simpl.
      unfold replaceById. destruct (deref _ r0) as [o|]; [|specialize (H2 r0 Hr0); lia].
      destruct (jsstring_eqb _ _); [lia | specialize (H2 r0 Hr0); lia].
    + intros r E. injection E as <-. apply in_map_iff. exists sel. split; [|exact Hin].
      apply replaceById_selected. now apply deref_kept.
    + apply busy_iff_one.
    + simpl. lia.
    + repeat constructor.
  - (* the agent replies *)
    destruct (nth_error (pending p) call) as [a|] eqn:Hnth; [|discriminate].
    injection Hstep as <-.
    destruct Hok as (H1 & H2 & H3 & H4 & H5 & H6).
    destruct (pending_single _ _ _ H5 Hnth) as [Hp ->].
    rewrite Hp in H6. apply Forall_inv in H6.
    assert (PageOK p) as Hok by (repeat split; try apply H4; auto; rewrite Hp; now constructor).
    destruct a as [captured candidateName candidateRole reviewers| |];
      cbn [resumeOf callsSetRequests].
    + destruct H6 as (-> & Hne & Hat).
      destruct outcome as [data|err].
      * destruct (createRequest _ _ _ _ _ _ _) as [w''|err] eqn:Hc.
        -- destruct (createRequest_Ok _ _ _ _ _ _ _ _ Hc)
             as (new & Hh & Ha & _ & _ & _ & He & Hn & _ & _ & Hst & Hf & Hle & Hln & Hls & _).
           match goal with
           | |- PageOK {| world := routeEffect params ?w1; pending := ?l |} =>
               apply (PageOK_route params {| world := w1; pending := l |})
           end.
           unfold PageOK. cbn [world pending heap app requests selectedRequest loading setLoading].
           rewrite Hh, Ha. cbn [requests selectedRequest].
           split; [|split; [|split; [|split; [|split]]]].
           ++ apply Forall_app. split; [exact H1|]. constructor; [|constructor].
              unfold RequestOK. rewrite Hst, Hf, He, Hn, Hle, Hln.
              repeat split; try reflexivity; try discriminate; try exact Hls.
              ** destruct reviewers; [now contradiction Hne | discriminate].
              ** apply Forall_map. exact Hat.
           ++ apply Forall_app. split.
              ** eapply Forall_impl; [|exact H2]. intros r Hr. cbv beta in Hr.
                 rewrite length_app. simpl. lia.
              ** constructor; [|constructor]. rewrite length_app. simpl. lia.
           ++ intros r E. injection E as <-. apply in_or_app. right. now left.
           ++ apply idle_iff_none.
           ++ simpl. lia.
           ++ constructor.
        -- apply (PageOK_messages p); try reflexivity; auto;
             solve [apply idle_iff_none | simpl; lia | constructor].
      * apply (PageOK_messages p); try reflexivity; auto;
          solve [apply idle_iff_none | simpl; lia | constructor].
    + destruct outcome; apply (PageOK_messages p); try reflexivity; auto;
        solve [apply idle_iff_none | simpl; lia | constructor].
    + destruct outcome; apply (PageOK_messages p); try reflexivity; auto;
        solve [apply idle_iff_none | simpl; lia | constructor].
Qed.

Lemma Reachable_PageOK params p : Reachable params p -> PageOK p.
Proof.
  induction 1 as [|p e p' _ IH Hstep]; [apply PageOK_first | exact (PageOK_step _ _ _ _ IH Hstep)].
Qed.

(** ** The selection and the evaluator through a session *)

Lemma routeEffect_email params w :
  sessionEmail params (feedbackReviewerEmail (app w)) ->
  sessionEmail params (feedbackReviewerEmail (app (routeEffect params w))).
Proof.
  intros H. unfold routeEffect, sessionEmail, boundEmail in *.
  destruct (reviewerIdParam params), (emailParam params), (assessmentIdParam params);
    try exact H.
  destruct (truthy _ && truthy _ && truthy _); [|exact H].
  destruct (findById _ _ _); right; reflexivity.
Qed.

Lemma routeEffect_keeps_selection params w :
  selectedRequest (app w) <> None -> selectedRequest (app (routeEffect params w)) <> None.
Proof.
  intros H. unfold routeEffect.
  destruct (reviewerIdParam params), (emailParam params), (assessmentIdParam params);
    try exact H.
  destruct (truthy _ && truthy _ && truthy _); [|exact H].
  destruct (findById _ _ _); [discriminate | exact H].
Qed.

Lemma SessionOK_route params p :
  SessionOK params p ->
  SessionOK params {| world := routeEffect params (world p); pending := pending p |}.
Proof.
  intros (H1 & H2 & H3). unfold SessionOK. cbn [world].
  destruct (routeEffect_frame params (world p)) as (Hh & Hr & _).
  rewrite Hh, Hr. split; [|split; [now apply routeEffect_email | exact H3]].
  intros Hne. destruct (selectedRequest (app (world p))) as [sel|] eqn:Hsel.
  - apply routeEffect_keeps_selection. rewrite Hsel. discriminate.
  - now contradiction (H1 Hne).
Qed.

Lemma SessionOK_first params : SessionOK params (firstPage params).
Proof.
  apply (SessionOK_route params {| world := initialWorld; pending := [] |}).
  unfold SessionOK. cbn. split; [intros H; now contradiction H|].
  split; [now left | constructor].
Qed.

Lemma SessionOK_step params p e p' :
  PageOK p -> SessionOK params p -> step params p e = Some p' -> SessionOK params p'.
Proof.
  intros Hok Hs Hstep.
  destruct e as [ | | | | cn cr rd | request | | assessment mail | scores textResponses isoNow
                | call outcome env]; cbn [step] in Hstep.
  - destruct (isFeedbackView _); [discriminate|]. injection Hstep as <-. exact Hs.
  - destruct (isFeedbackView _); [discriminate|]. injection Hstep as <-. exact Hs.
  - destruct (isFeedbackView _); [discriminate|]. injection Hstep as <-. exact Hs.
  - destruct (isFeedbackView _); [|discriminate]. injection Hstep as <-. exact Hs.
  - destruct (isInputView _ && negb (loading (app (world p)))); [|discriminate].
    destruct (handleSubmit (world p) cn cr rd) as [w'|w' call resume] eqn:Hrun;
      injection Hstep as <-.
    + destruct (handleSubmit_finishes _ _ _ _ _ Hrun) as [msg [_ ->]]. exact Hs.
    + destruct (handleSubmit_awaits _ _ _ _ _ _ _ Hrun) as (_ & -> & _). exact Hs.
  - destruct (isDashboardView _ && memRef request (requests (app (world p))));
      [|discriminate].
    injection Hstep as <-. destruct Hs as (H1 & H2 & H3).
    split; [|split; assumption]. cbn. discriminate.
  - destruct (isDashboardView _ && negb (loading (app (world p)))); [|discriminate].
    destruct (requests (app (world p))) as [|r0 rs] eqn:Hrs; [discriminate|].
    destruct (selectedRequest (app (world p))) as [sel|] eqn:Hsel; [|discriminate].
    destruct (deref (heap (world p)) sel) as [request|]; [|discriminate].
    cbn [handleResendInvitations] in Hstep. injection Hstep as <-.
    destruct Hs as (H1 & H2 & H3). unfold SessionOK. cbn. rewrite Hrs, Hsel.
    split; [discriminate | split; assumption].
  - (* the access screen lists a request only when none was ever created *)
    destruct (isFeedbackView _ && memRef assessment (requests (app (world p)))
              && includes mail (js "@")) eqn:G; [|discriminate].
    apply andb_true_iff in G. destruct G as [G _].
    apply andb_true_iff in G. destruct G as [_ G]. apply memRef_In in G.
    destruct (selectedRequest (app (world p))) eqn:Hsel; [discriminate|].
    exfalso. destruct Hs as (H1 & _). apply H1; [|exact Hsel].
    intros E. rewrite E in G. contradiction.
  - destruct (isFeedbackView _ && negb (loading (app (world p)))); [|discriminate].
    destruct (selectedRequest (app (world p))) as [sel|] eqn:Hsel; [|discriminate].
    destruct Hok as (H1 & H2 & H3 & _). destruct Hs as (S1 & S2 & S3).
    pose proof (H3 sel Hsel) as Hin.
    rewrite Forall_forall in H2. pose proof (H2 sel Hin) as Hvalid.
    destruct (validRef_deref _ _ Hvalid) as [selected Hderef].
    unfold submitFeedbackForm in Hstep. rewrite Hsel, Hderef in Hstep.
    set (submission := buildSubmission selected (feedbackReviewerEmail (app (world p)))
                         scores textResponses isoNow) in *.
    destruct (handleFeedbackSubmit_selected _ submission _ _ Hsel Hderef)
      as (resume & Hrun & _).
    rewrite Hrun in Hstep. injection Hstep as <-.
    match goal with
    | |- SessionOK params {| world := routeEffect params ?w1; pending := ?l |} =>
        apply (SessionOK_route params {| world := w1; pending := l |})
    end.
    unfold SessionOK. cbn [world heap app requests selectedRequest feedbackReviewerEmail].
    split; [discriminate|]. split; [now left|].
    apply Forall_app. split; [exact S3|]. constructor; [|constructor].
    cbn [updatedRequest FeedbackRequest.responses]. apply Forall_app. split.
    + rewrite Forall_forall in S3. apply S3.
      unfold deref in Hderef. now apply nth_error_In in Hderef.
    + constructor; [|constructor]. split; [exact S2|].
      cbn [submission buildSubmission FeedbackSubmission.reviewerEmail
             FeedbackSubmission.reviewerName].
      intros E. rewrite E. rewrite indexOf_absent; [reflexivity|].
      rewrite Forall_forall in H1. unfold deref in Hderef. apply nth_error_In in Hderef.
      destruct (H1 _ Hderef) as (_ & _ & _ & _ & _ & Hat & _).
      intros Hin0. rewrite Forall_forall in Hat. specialize (Hat _ Hin0). discriminate Hat.
  - destruct (nth_error (pending p) call) as [a|] eqn:Hnth; [|discriminate].
    injection Hstep as <-. destruct Hs as (S1 & S2 & S3).
    destruct a as [captured candidateName candidateRole reviewers| |];
      cbn [resumeOf callsSetRequests].
    + destruct outcome as [data|err]; [|split; [|split]; assumption].
      destruct (createRequest _ _ _ _ _ _ _) as [w''|err] eqn:Hc;
        [|split; [|split]; assumption].
      destruct (createRequest_Ok _ _ _ _ _ _ _ _ Hc)
        as (new & Hh & Ha & _ & _ & _ & _ & _ & Hresp & _).
      match goal with
      | |- SessionOK params {| world := routeEffect params ?w1; pending := ?l |} =>
          apply (SessionOK_route params {| world := w1; pending := l |})
      end.
      unfold SessionOK. cbn [world heap app setLoading]. rewrite Hh, Ha.
      cbn [requests selectedRequest feedbackReviewerEmail].
      split; [discriminate|]. split; [exact S2|].
      apply Forall_app. split; [exact S3|]. constructor; [|constructor].
      rewrite Hresp. constructor.
    + destruct outcome; split; [|split| |split]; assumption.
    + destruct outcome; split; [|split| |split]; assumption.
Qed.

Lemma Reachable_SessionOK params p : Reachable params p -> SessionOK params p.
Proof.
  induction 1 as [|p e p' Hp IH Hstep]; [apply SessionOK_first|].
  exact (SessionOK_step _ _ _ _ (Reachable_PageOK _ _ Hp) IH Hstep).
Qed.

(** ** The scenario as a session *)

Lemma scenarioPage_reachable : Reachable noParams scenarioPage.
Proof.
  apply (reach_step noParams
           {| world := setLoading true (setSuccessMessage [] (setError [] initialWorld));
              pending := [AwaitSubmit [] (js "Sarah Johnson") (js "Eng Manager")
                            (reviewerList (js "John|john@x.com"))] |}
           (AgentReplies 0 (Resolved emptyData) scenarioEnv)); [|vm_compute; reflexivity].
  apply (reach_step noParams (firstPage noParams)
           (SubmitAssessment (js "Sarah Johnson") (js "Eng Manager") (js "John|john@x.com")));
    [apply reach_first | vm_compute; reflexivity].
Qed.

Lemma scenarioAwaiting_reachable : Reachable noParams scenarioAwaiting.
Proof.
  apply (reach_step noParams
           {| world := setCurrentView feedback (scenarioCreated emptyData); pending := [] |}
           (SubmitFeedback allFours noComments (js "2024-10-28T09:00:00.000Z")));
    [|vm_compute; reflexivity].
  apply (reach_step noParams scenarioPage ClickGiveFeedback);
    [apply scenarioPage_reachable | vm_compute; reflexivity].
Qed.

(** ** Every request object of a session *)

(** Whatever the user and the agent do, every request object of the page
    has status [sent] (no code sets another), carries a payload, and has
    a roster that is not empty, whose emails hold an '@', with one name
    and one form link per email, each link under the email and the name
    of its position and with status "sent". *)
Theorem session_requests_are_well_formed params p r o :
  Reachable params p -> deref (heap (world p)) r = Some o ->
  FeedbackRequest.status o = sent
  /\ FeedbackRequest.feedback o <> None
  /\ FeedbackRequest.reviewerEmails o <> []
  /\ List.length (FeedbackRequest.reviewerNames o)
     = List.length (FeedbackRequest.reviewerEmails o)
  /\ List.length (FeedbackRequest.formLinks o)
     = List.length (FeedbackRequest.reviewerEmails o)
  /\ map FormLink.email (FeedbackRequest.formLinks o) = FeedbackRequest.reviewerEmails o
  /\ map FormLink.reviewerName (FeedbackRequest.formLinks o)
     = FeedbackRequest.reviewerNames o
  /\ Forall (fun e => includes e (js "@") = true) (FeedbackRequest.reviewerEmails o)
  /\ Forall (fun l => FormLink.status l = js "sent") (FeedbackRequest.formLinks o).
Proof.
  intros Hreach Hderef.
  destruct (Reachable_PageOK _ _ Hreach) as (H1 & _).
  rewrite Forall_forall in H1. unfold deref in Hderef. apply nth_error_In in Hderef.
  destruct (H1 _ Hderef) as (Hs & Hf & Hne & He & Hn & Hat & Hl).
  repeat split; auto.
  - rewrite <- Hn, <- He. now rewrite !length_map.
  - rewrite <- He. now rewrite length_map.
Qed.

Lemma session_requests_are_well_formed_witness :
  exists o,
    deref (heap (world scenarioAwaiting)) 1%nat = Some o
    /\ FeedbackRequest.status o = sent
    /\ List.length (FeedbackRequest.formLinks o) = List.length (FeedbackRequest.reviewerEmails o).
Proof.
  assert (exists o, deref (heap (world scenarioAwaiting)) 1%nat = Some o) as [o Ho]
    by (eexists; vm_compute; reflexivity).
  destruct (session_requests_are_well_formed noParams scenarioAwaiting 1%nat o
              scenarioAwaiting_reachable Ho) as (Hs & _ & _ & _ & Hl & _).
  exists o. split; [exact Ho|]. split; [exact Hs | exact Hl].
Defined.

(** ** The selection of a session *)

Section Selection.
Context {host : Host}.

(** Every listed reference is to an object, and as soon as the list is
    not empty a request is selected: it is listed, exists and carries a
    payload, so that the export always yields a file for it. *)
Theorem session_selection_is_listed params p env :
  Reachable params p -> requests (app (world p)) <> [] ->
  (forall r, In r (requests (app (world p))) -> exists o, deref (heap (world p)) r = Some o)
  /\ exists sel o file,
       selectedRequest (app (world p)) = Some sel
       /\ In sel (requests (app (world p)))
       /\ deref (heap (world p)) sel = Some o
       /\ exportedFile env (world p) = Some file
       /\ fileText file = generatePDFContent o
       /\ handleExportPDF (world p) = Some (generatePDFContent o).
Proof.
  intros Hreach Hne.
  destruct (Reachable_PageOK _ _ Hreach) as (H1 & H2 & H3 & _).
  destruct (Reachable_SessionOK _ _ Hreach) as (S1 & _).
  rewrite Forall_forall in H2. split.
  - intros r Hr. apply validRef_deref. now apply H2.
  - destruct (selectedRequest (app (world p))) as [sel|] eqn:Hsel;
      [|now contradiction (S1 Hne)].
    pose proof (H3 sel eq_refl) as Hin.
    destruct (validRef_deref _ _ (H2 sel Hin)) as [o Ho].
    rewrite Forall_forall in H1. pose proof Ho as Ho'. unfold deref in Ho'.
    apply nth_error_In in Ho'. destruct (H1 _ Ho') as (_ & Hf & _).
    destruct (FeedbackRequest.feedback o) as [fb|] eqn:Hfb; [|now contradiction Hf].
    unfold exportedFile, handleExportPDF. rewrite Hsel, Ho, Hfb.
    eexists sel, o, _. repeat split; auto.
Qed.

End Selection.

Lemma session_selection_is_listed_witness :
  exists file, exportedFile (host := scenarioHost) scenarioEnv (world scenarioAwaiting) = Some file.
Proof.
  assert (requests (app (world scenarioAwaiting)) <> []) as Hne
    by (vm_compute; discriminate).
  destruct (session_selection_is_listed (host := scenarioHost) noParams scenarioAwaiting
              scenarioEnv scenarioAwaiting_reachable Hne)
    as (_ & sel & o & file & _ & _ & _ & Hfile & _).
  exists file. exact Hfile.
Defined.

(** ** The feedback access screen *)

(** The access screen never offers an assessment: it is shown only while
    nothing is selected, and nothing is selected only while no request
    exists.  Its button, with its test for an '@', is never enabled. *)
Theorem session_access_screen_is_empty params p :
  Reachable params p ->
  (forall assessments, mainContent (world p) = FeedbackAccessScreen assessments ->
                       assessments = [])
  /\ forall assessment email, step params p (ChooseAssessment assessment email) = None.
Proof.
  intros Hreach. destruct (Reachable_SessionOK _ _ Hreach) as (S1 & _). split.
  - unfold mainContent. intros l H.
    destruct (currentView (app (world p))); try discriminate.
    destruct (selectedRequest (app (world p))) eqn:Hsel; [discriminate|].
    injection H as <-. destruct (requests (app (world p))); [reflexivity|].
    exfalso. apply S1; [discriminate | reflexivity].
  - intros r e. cbn [step].
    destruct (isFeedbackView _ && memRef r (requests (app (world p))) && includes e (js "@"))
      eqn:G; [|reflexivity].
    destruct (selectedRequest (app (world p))) eqn:Hsel; [reflexivity|].
    apply andb_true_iff in G. destruct G as [G _].
    apply andb_true_iff in G. destruct G as [_ G]. apply memRef_In in G.
    exfalso. apply S1; [|reflexivity]. intros E. rewrite E in G. contradiction.
Qed.

Lemma session_access_screen_is_empty_witness :
  step noParams scenarioPage (ChooseAssessment 0%nat (js "john@x.com")) = None.
Proof.
  apply (session_access_screen_is_empty noParams scenarioPage scenarioPage_reachable).
Defined.

(** ** Who a submission is from *)

(** Every submission stored during a session is under the email of the
    query parameters of the page, or under no email, and then under no
    name either; on a page opened without the three parameters every
    submission is under no email and no name. *)
Theorem session_submissions_carry_the_query_email params p r o sub :
  Reachable params p -> deref (heap (world p)) r = Some o ->
  In sub (FeedbackRequest.responses o) ->
  (FeedbackSubmission.reviewerEmail sub = []
   \/ boundEmail params = Some (FeedbackSubmission.reviewerEmail sub))
  /\ (FeedbackSubmission.reviewerEmail sub = [] -> FeedbackSubmission.reviewerName sub = [])
  /\ (boundEmail params = None ->
      FeedbackSubmission.reviewerEmail sub = [] /\ FeedbackSubmission.reviewerName sub = []).
Proof.
  intros Hreach Hderef Hsub.
  destruct (Reachable_SessionOK _ _ Hreach) as (_ & _ & S3).
  rewrite Forall_forall in S3. unfold deref in Hderef. apply nth_error_In in Hderef.
  pose proof (S3 _ Hderef) as Ho. rewrite Forall_forall in Ho.
  destruct (Ho _ Hsub) as [He Hn]. split; [exact He|]. split; [exact Hn|].
  intros Hnone. destruct He as [He | He]; [auto | congruence].
Qed.

Lemma session_submissions_carry_the_query_email_witness :
  exists o sub,
    deref (heap (world scenarioAwaiting)) 1%nat = Some o
    /\ In sub (FeedbackRequest.responses o)
    /\ FeedbackSubmission.reviewerEmail sub = []
    /\ FeedbackSubmission.reviewerName sub = [].
Proof.
  assert (exists o sub, deref (heap (world scenarioAwaiting)) 1%nat = Some o
                        /\ In sub (FeedbackRequest.responses o)) as (o & sub & Ho & Hsub)
    by (eexists _, _; vm_compute; split; [reflexivity | left; reflexivity]).
  destruct (session_submissions_carry_the_query_email noParams scenarioAwaiting 1%nat o sub
              scenarioAwaiting_reachable Ho Hsub) as (_ & _ & Hanon).
  destruct (Hanon eq_refl) as [He Hn].
  exists o, sub. repeat split; assumption.
Defined.

(** ** The busy flag *)

(** The busy flag is set exactly while one handler awaits the agent, and
    never more than one does: while it is set, the assessment form, the
    feedback form and "Resend Invitations" fire nothing, and the reply of
    the agent, whatever it is, clears it. *)
Theorem session_busy_flag_guards_the_agent params p :
  Reachable params p ->
  (loading (app (world p)) = true <-> exists a, pending p = [a])
  /\ (loading (app (world p)) = false <-> pending p = [])
  /\ (loading (app (world p)) = true ->
      (forall candidateName candidateRole reviewerData,
         step params p (SubmitAssessment candidateName candidateRole reviewerData) = None)
      /\ (forall scores textResponses isoNow,
            step params p (SubmitFeedback scores textResponses isoNow) = None)
      /\ step params p ClickResend = None)
  /\ (forall call outcome env p',
        step params p (AgentReplies call outcome env) = Some p' ->
        loading (app (world p')) = false /\ pending p' = []).
Proof.
  intros Hreach. pose proof (Reachable_PageOK _ _ Hreach) as Hok.
  destruct Hok as (H1 & H2 & H3 & H4 & H5 & H6).
  assert (loading (app (world p)) = true <-> exists a, pending p = [a]) as Hbusy.
  { rewrite H4. destruct (pending p) as [|a [|b l]]; simpl in H5.
    - split; [intros H; now contradiction H | intros [a E]; discriminate].
    - split; [intros _; now exists a | discriminate].
    - lia. }
  split; [exact Hbusy|]. split; [|split].
  - split.
    + intros Hl. destruct (pending p) as [|a l]; [reflexivity|].
      assert (loading (app (world p)) = true) by (apply H4; discriminate). congruence.
    + intros E. destruct (loading (app (world p))); [|reflexivity].
      exfalso. now apply (proj1 H4).
  - intros Hl. cbn [step]. rewrite Hl. cbn [negb]. rewrite !andb_false_r. auto.
  - intros call outcome env p' Hstep.
    pose proof (PageOK_step _ _ _ _ (Reachable_PageOK _ _ Hreach) Hstep) as Hok'.
    cbn [step] in Hstep.
    destruct (nth_error (pending p) call) as [a|] eqn:Hnth; [|discriminate].
    destruct (pending_single _ _ _ H5 Hnth) as [_ Hrm].
    injection Hstep as <-. cbn [pending world] in *. rewrite Hrm in *.
    split; [|reflexivity].
    destruct Hok' as (_ & _ & _ & H4' & _). cbn [pending world] in H4'.
    match goal with |- ?l = false => destruct l; [|reflexivity] end.
    exfalso. now apply (proj1 H4').
Qed.

Lemma session_busy_flag_guards_the_agent_witness :
  loading (app (world scenarioAwaiting)) = true
  /\ step noParams scenarioAwaiting ClickResend = None.
Proof.
  destruct (session_busy_flag_guards_the_agent noParams scenarioAwaiting
              scenarioAwaiting_reachable) as (Hbusy & _ & Hguard & _).
  assert (loading (app (world scenarioAwaiting)) = true) as Hl
    by (apply Hbusy; eexists; vm_compute; reflexivity).
  split; [exact Hl | apply (Hguard Hl)].
Defined.

(** ** The list of requests only grows *)

(** Through every event of a session the objects of the heap stay what
    they are, the list of requests does not get shorter, and each listed
    request is still listed afterwards, itself or as the object that a
    feedback submission put in its place, which has its id: what the
    handler of the assessment form captured before its await is still the
    list when it resumes. *)
Theorem session_list_never_shrinks params p e p' :
  Reachable params p -> step params p e = Some p' ->
  (forall r o, deref (heap (world p)) r = Some o -> deref (heap (world p')) r = Some o)
  /\ (List.length (requests (app (world p))) <= List.length (requests (app (world p'))))%nat
  /\ forall r o,
       In r (requests (app (world p))) -> deref (heap (world p)) r = Some o ->
       exists r' o',
         In r' (requests (app (world p'))) /\ deref (heap (world p')) r' = Some o'
         /\ FeedbackRequest.id o' = FeedbackRequest.id o
         /\ (r' = r
             \/ exists sel selected submission,
                  selectedRequest (app (world p)) = Some sel
                  /\ deref (heap (world p)) sel = Some selected
                  /\ o' = updatedRequest selected submission).
Proof.
  intros Hreach Hstep. pose proof (Reachable_PageOK _ _ Hreach) as Hok.
  assert (forall w', heap w' = heap (world p) ->
                     requests (app w') = requests (app (world p)) ->
                     (forall r o, deref (heap (world p)) r = Some o -> deref (heap w') r = Some o)
                     /\ (List.length (requests (app (world p)))
                         <= List.length (requests (app w')))%nat
                     /\ forall r o,
                          In r (requests (app (world p))) ->
                          deref (heap (world p)) r = Some o ->
                          exists r' o',
                            In r' (requests (app w')) /\ deref (heap w') r' = Some o'
                            /\ FeedbackRequest.id o' = FeedbackRequest.id o
                            /\ (r' = r
                                \/ exists sel selected submission,
                                     selectedRequest (app (world p)) = Some sel
                                     /\ deref (heap (world p)) sel = Some selected
                                     /\ o' = updatedRequest selected submission)) as Hsame.
  { intros w' Hh Hr. rewrite Hh, Hr. split; [auto|]. split; [lia|].
    intros r o Hin Hd. exists r, o. auto. }
  destruct e as [ | | | | cn cr rd | request | | assessment mail | scores textResponses isoNow
                | call outcome env]; cbn [step] in Hstep.
  - destruct (isFeedbackView _); [discriminate|]. injection Hstep as <-. now apply Hsame.
  - destruct (isFeedbackView _); [discriminate|]. injection Hstep as <-. now apply Hsame.
  - destruct (isFeedbackView _); [discriminate|]. injection Hstep as <-. now apply Hsame.
  - destruct (isFeedbackView _); [|discriminate]. injection Hstep as <-. now apply Hsame.
  - destruct (isInputView _ && negb (loading (app (world p)))); [|discriminate].
    destruct (handleSubmit (world p) cn cr rd) as [w'|w' call resume] eqn:Hrun;
      injection Hstep as <-.
    + destruct (handleSubmit_finishes _ _ _ _ _ Hrun) as [msg [_ ->]]. now apply Hsame.
    + destruct (handleSubmit_awaits _ _ _ _ _ _ _ Hrun) as (_ & -> & _). now apply Hsame.
  - destruct (isDashboardView _ && memRef request (requests (app (world p))));
      [|discriminate].
    injection Hstep as <-. now apply Hsame.
  - destruct (isDashboardView _ && negb (loading (app (world p)))); [|discriminate].
    destruct (requests (app (world p))) as [|r0 rs] eqn:Hrs; [discriminate|].
    destruct (selectedRequest (app (world p))) as [sel|] eqn:Hsel; [|discriminate].
    destruct (deref (heap (world p)) sel) as [request|]; [|discriminate].
    cbn [handleResendInvitations] in Hstep. injection Hstep as <-.
    apply Hsame; [reflexivity | cbn; now rewrite Hrs].
  - destruct (isFeedbackView _ && memRef assessment (requests (app (world p)))
              && includes mail (js "@")); [|discriminate].
    destruct (selectedRequest (app (world p))); [discriminate|].
    injection Hstep as <-. now apply Hsame.
  - destruct (isFeedbackView _ && negb (loading (app (world p)))); [|discriminate].
    destruct (selectedRequest (app (world p))) as [sel|] eqn:Hsel; [|discriminate].
    destruct Hok as (H1 & H2 & H3 & _).
    pose proof (H3 sel Hsel) as Hin.
    rewrite Forall_forall in H2. pose proof (H2 sel Hin) as Hvalid.
    destruct (validRef_deref _ _ Hvalid) as [selected Hderef].
    unfold submitFeedbackForm in Hstep. rewrite Hsel, Hderef in Hstep.
    set (submission := buildSubmission selected (feedbackReviewerEmail (app (world p)))
                         scores textResponses isoNow) in *.
    destruct (handleFeedbackSubmit_selected _ submission _ _ Hsel Hderef)
      as (resume & Hrun & _).
    rewrite Hrun in Hstep. injection Hstep as <-. cbn [world].
    match goal with
    | |- context [routeEffect params ?w1] =>
        destruct (routeEffect_frame params w1) as (Hh & Hr & _); rewrite Hh, Hr
    end.
    cbn [heap app requests]. split; [intros r o; apply deref_kept|].
    split; [rewrite length_map; lia|].
    intros r o Hr0 Ho.
    assert (replaceById (heap (world p) ++ [updatedRequest selected submission])
              (FeedbackRequest.id selected) (List.length (heap (world p))) r
            = if jsstring_eqb (FeedbackRequest.id o) (FeedbackRequest.id selected)
              then List.length (heap (world p)) else r) as Hrep
      by (unfold replaceById; now rewrite (deref_kept _ _ _ _ Ho)).
    destruct (jsstring_eqb (FeedbackRequest.id o) (FeedbackRequest.id selected)) eqn:E.
    + exists (List.length (heap (world p))), (updatedRequest selected submission).
      split; [apply in_map_iff; exists r; split; [exact Hrep | exact Hr0]|].
      split; [apply deref_alloc|]. apply jsstring_eqb_eq in E.
      split; [symmetry; exact E|]. right. exists sel, selected, submission. auto.
    + exists r, o.
      split; [apply in_map_iff; exists r; split; [exact Hrep | exact Hr0]|].
      split; [now apply deref_kept|]. split; [reflexivity | now left].
  - destruct (nth_error (pending p) call) as [a|] eqn:Hnth; [|discriminate].
    injection Hstep as <-. cbn [world].
    destruct Hok as (H1 & H2 & H3 & H4 & H5 & H6).
    destruct (pending_single _ _ _ H5 Hnth) as [Hp _].
    rewrite Hp in H6. apply Forall_inv in H6.
    destruct a as [captured candidateName candidateRole reviewers| |];
      cbn [resumeOf callsSetRequests].
    + destruct H6 as (-> & _).
      destruct outcome as [data|err]; [|now apply Hsame].
      destruct (createRequest _ _ _ _ _ _ _) as [w''|err] eqn:Hc; [|now apply Hsame].
      destruct (createRequest_Ok _ _ _ _ _ _ _ _ Hc) as (new & Hh & Ha & _).
      match goal with
      | |- context [routeEffect params ?w1] =>
          destruct (routeEffect_frame params w1) as (Hh' & Hr' & _); rewrite Hh', Hr'
      end.
      cbn [heap app setLoading requests]. rewrite Hh, Ha. cbn [requests].
      split; [intros r o; apply deref_kept|]. split; [rewrite length_app; lia|].
      intros r o Hr0 Ho. exists r, o.
      split; [apply in_or_app; now left|]. split; [now apply deref_kept | auto].
    + destruct outcome; now apply Hsame.
    + destruct outcome; now apply Hsame.
Qed.

Lemma session_list_never_shrinks_witness :
  deref (heap (world scenarioAwaiting)) 0%nat = Some (scenarioRequest emptyData).
Proof.
  apply (proj1 (session_list_never_shrinks noParams
                  {| world := setCurrentView feedback (scenarioCreated emptyData);
                     pending := [] |}
                  (SubmitFeedback allFours noComments (js "2024-10-28T09:00:00.000Z"))
                  scenarioAwaiting
                  (reach_step noParams scenarioPage ClickGiveFeedback _
                     scenarioPage_reachable ltac:(vm_compute; reflexivity))
                  ltac:(vm_compute; reflexivity))).
  vm_compute. reflexivity.
Defined.

(** ** What the router does with the query parameters *)

Lemma truthy_true s : truthy s = true <-> s <> [].
Proof. destruct s; simpl; split; congruence. Qed.

(** With one of the three parameters absent or empty the effect changes
    nothing. *)
Theorem router_needs_all_three_parameters params w :
  missing (reviewerIdParam params) \/ missing (emailParam params)
  \/ missing (assessmentIdParam params) ->
  routeEffect params w = w.
Proof.
  unfold routeEffect, missing.
  destruct (reviewerIdParam params) as [t|]; [|reflexivity].
  destruct (emailParam params) as [e|]; [|reflexivity].
  destruct (assessmentIdParam params) as [a|]; [|reflexivity].
  intros [[H|H] | [[H|H] | [H|H]]]; try discriminate H; injection H as ->;
    simpl; rewrite ?andb_false_r; reflexivity.
Qed.

Lemma router_needs_all_three_parameters_witness :
  routeEffect {| reviewerIdParam := Some (js "am9obg=="); emailParam := Some [];
                 assessmentIdParam := Some (js "1730000000000") |}
              (scenarioCreated emptyData)
  = scenarioCreated emptyData.
Proof.
  apply router_needs_all_three_parameters. right. left. right. reflexivity.
Defined.

(** With the three parameters present and no listed request under the
    assessment id, as on every page that was just loaded, the effect
    fills the two reviewer cells and leaves the view and the selection as
    they are. *)
Theorem router_ignores_an_unknown_assessment token mail assessmentId w :
  token <> [] -> mail <> [] -> assessmentId <> [] ->
  (forall r o, In r (requests (app w)) -> deref (heap w) r = Some o ->
               FeedbackRequest.id o <> assessmentId) ->
  let w' := routeEffect {| reviewerIdParam := Some token; emailParam := Some mail;
                           assessmentIdParam := Some assessmentId |} w in
  w' = setFeedbackReviewerEmail mail (setFeedbackReviewerId token w)
  /\ currentView (app w') = currentView (app w)
  /\ selectedRequest (app w') = selectedRequest (app w)
  /\ mainContent w' = match mainContent w with
                      | FeedbackFormScreen request _ => FeedbackFormScreen request mail
                      | screen => screen
                      end.
Proof.
  intros Ht Hm Ha Hnone. cbv zeta. unfold routeEffect. cbn [reviewerIdParam emailParam assessmentIdParam].
  apply truthy_true in Ht, Hm, Ha. rewrite Ht, Hm, Ha. cbn [andb].
  destruct (findById (heap w) (requests (app w)) assessmentId) as [r|] eqn:F.
  - destruct (findById_Some _ _ _ _ F) as (before & after & o & E & Ho & Hid & _).
    exfalso. apply (Hnone r o); [rewrite E; apply in_elt | exact Ho | exact Hid].
  - repeat split. unfold mainContent. cbn.
    destruct (currentView (app w)); try reflexivity.
    destruct (selectedRequest (app w)); reflexivity.
Qed.

Lemma router_ignores_an_unknown_assessment_witness :
  currentView (app (routeEffect
                      {| reviewerIdParam := Some (js "am9obkB4LmNvbS0xNzMwMDAwMDAwMDAw");
                         emailParam := Some (js "john@x.com");
                         assessmentIdParam := Some (js "1730000000000") |}
                      initialWorld)) = input.
Proof.
  assert (forall r o, In r (requests (app initialWorld)) -> deref (heap initialWorld) r = Some o ->
                      FeedbackRequest.id o <> js "1730000000000") as Hnone
    by (intros r o Hin; destruct Hin).
  exact (proj1 (proj2 (router_ignores_an_unknown_assessment
                         (js "am9obkB4LmNvbS0xNzMwMDAwMDAwMDAw") (js "john@x.com")
                         (js "1730000000000") initialWorld
                         ltac:(discriminate) ltac:(discriminate) ltac:(discriminate) Hnone))).
Defined.

(** With the three parameters present, the effect opens the feedback form
    on the first listed request whose id is the assessment id, for the
    email of the query, whatever the token and whether or not that email
    is on the roster: neither is checked. *)
Theorem router_binds_the_first_match_unchecked token mail assessmentId w before r after o :
  token <> [] -> mail <> [] -> assessmentId <> [] ->
  requests (app w) = before ++ r :: after ->
  deref (heap w) r = Some o -> FeedbackRequest.id o = assessmentId ->
  (forall r' o', In r' before -> deref (heap w) r' = Some o' ->
                 FeedbackRequest.id o' <> assessmentId) ->
  let w' := routeEffect {| reviewerIdParam := Some token; emailParam := Some mail;
                           assessmentIdParam := Some assessmentId |} w in
  w' = setCurrentView feedback
         (setSelectedRequest (Some r)
            (setFeedbackReviewerEmail mail (setFeedbackReviewerId token w)))
  /\ mainContent w' = FeedbackFormScreen r mail.
Proof.
  intros Ht Hm Ha Hreq Ho Hid Hfirst. cbv zeta. unfold routeEffect.
  cbn [reviewerIdParam emailParam assessmentIdParam].
  apply truthy_true in Ht, Hm, Ha. rewrite Ht, Hm, Ha. cbn [andb].
  assert (findById (heap w) (requests (app w)) assessmentId = Some r) as F.
  { rewrite Hreq. clear Hreq. induction before as [|b before IH]; simpl.
    - rewrite Ho, Hid, jsstring_eqb_refl. reflexivity.
    - destruct (deref (heap w) b) as [ob|] eqn:Hb.
      + destruct (jsstring_eqb (FeedbackRequest.id ob) assessmentId) eqn:E.
        * apply jsstring_eqb_eq in E. exfalso. apply (Hfirst b ob); auto. now left.
        * apply IH. intros r' o' Hin. apply Hfirst. now right.
      + apply IH. intros r' o' Hin. apply Hfirst. now right. }
  rewrite F. split; reflexivity.
Qed.

Lemma router_binds_the_first_match_unchecked_witness :
  mainContent (routeEffect {| reviewerIdParam := Some (js "anything");
                              emailParam := Some (js "eve@y.com");
                              assessmentIdParam := Some (js "1730000000000") |}
                           (scenarioCreated emptyData))
  = FeedbackFormScreen 0%nat (js "eve@y.com").
Proof.
  assert (forall r' o', In r' [] -> deref (heap (scenarioCreated emptyData)) r' = Some o' ->
                        FeedbackRequest.id o' <> js "1730000000000") as Hfirst
    by (intros r' o' Hin; destruct Hin).
  exact (proj2 (router_binds_the_first_match_unchecked (js "anything") (js "eve@y.com")
                  (js "1730000000000") (scenarioCreated emptyData) [] 0%nat []
                  (scenarioRequest emptyData)
                  ltac:(discriminate) ltac:(discriminate) ltac:(discriminate)
                  eq_refl eq_refl eq_refl Hfirst)).
Defined.

(** ** Creating a request is all or nothing *)

Lemma orElse_not_nil a b : b <> [] -> orElse a b <> [].
Proof. intros Hb. destruct a; simpl; [exact Hb | discriminate]. Qed.

(** When [handleSubmit] resumes from its await, either the agent call
    resolved and every reviewer email is Latin-1 text, and exactly one
    request is allocated, appended to the captured list, selected and
    shown on the dashboard; or the call was rejected or some email holds
    a character beyond Latin-1, and then nothing is allocated and the
    list, the selection and the view stay those of the page, with an
    error that is not empty.  The busy flag is cleared either way. *)
Theorem creation_is_all_or_nothing w candidateName candidateRole reviewerData w1 call resume
    outcome env w2 :
  handleSubmit w candidateName candidateRole reviewerData = Suspended w1 call resume ->
  let w3 := resume outcome env w2 in
  let reviewers := reviewerList reviewerData in
  loading (app w3) = false
  /\ (((exists data, outcome = Resolved data)
       /\ Forall (fun x => isLatin1 (email x) = true) reviewers
       /\ exists new,
            heap w3 = heap w2 ++ [new]
            /\ requests (app w3) = requests (app w) ++ [List.length (heap w2)]
            /\ selectedRequest (app w3) = Some (List.length (heap w2))
            /\ currentView (app w3) = dashboard
            /\ error (app w3) = error (app w2)
            /\ FeedbackRequest.reviewerEmails new = map email reviewers
            /\ FeedbackRequest.responses new = [])
      \/ (((exists err, outcome = Rejected err)
           \/ exists x, In x reviewers /\ isLatin1 (email x) = false)
          /\ heap w3 = heap w2
          /\ requests (app w3) = requests (app w2)
          /\ selectedRequest (app w3) = selectedRequest (app w2)
          /\ currentView (app w3) = currentView (app w2)
          /\ successMessage (app w3) = successMessage (app w2)
          /\ error (app w3) <> [])).
Proof.
  intros Hrun. destruct (handleSubmit_awaits _ _ _ _ _ _ _ Hrun) as (-> & _ & _).
  cbv zeta. cbn [resumeOf]. split.
  - destruct outcome; [destruct (createRequest _ _ _ _ _ _ _)|]; reflexivity.
  - destruct outcome as [data|err].
    + destruct (createRequest _ _ _ _ _ _ _) as [w''|e] eqn:Hc.
      * left. destruct (createRequest_Ok _ _ _ _ _ _ _ _ Hc)
          as (new & Hh & Ha & _ & _ & _ & He & _ & Hr & _ & _ & _ & _ & _ & _ & Hl).
        split; [now exists data|]. split; [exact Hl|]. exists new.
        cbn [heap app setLoading]. rewrite Hh, Ha. cbn. repeat split; assumption.
      * right. destruct (createRequest_Throw _ _ _ _ _ _ _ _ Hc) as [-> Hx].
        split; [now right|]. cbn. repeat split. discriminate.
    + right. split; [left; now exists err|]. cbn. repeat split.
      apply orElse_not_nil. discriminate.
Qed.

Lemma creation_is_all_or_nothing_witness :
  exists w1 call resume,
    handleSubmit initialWorld (js "Sarah Johnson") (js "Eng Manager") (js "John|john@x.com")
    = Suspended w1 call resume
    /\ loading (app (resume (Rejected {| message := [] |}) scenarioEnv w1)) = false.
Proof.
  assert (exists w1 call resume,
            handleSubmit initialWorld (js "Sarah Johnson") (js "Eng Manager")
              (js "John|john@x.com") = Suspended w1 call resume) as (w1 & call & resume & Hrun)
    by (eexists _, _, _; reflexivity).
  exists w1, call, resume. split; [exact Hrun|].
  exact (proj1 (creation_is_all_or_nothing _ _ _ _ _ _ _ (Rejected {| message := [] |})
                  scenarioEnv w1 Hrun)).
Defined.

(** ** A failed agent call *)

(** When the call a handler awaits is rejected, the handler records the
    message of the error, or its own message when the error has none,
    and clears the busy flag, and changes nothing else: no object, not
    the list, the selection, the view, the success message or the
    reviewer cells. *)
Theorem failed_call_changes_only_error_and_busy params p call err env p' :
  step params p (AgentReplies call (Rejected err) env) = Some p' ->
  exists a,
    nth_error (pending p) call = Some a
    /\ error (app (world p'))
       = orElse (message err)
           match a with
           | AwaitSubmit _ _ _ _ => js "Failed to process request"
           | AwaitFeedbackSubmit => js "Failed to submit feedback"
           | AwaitResend => js "Failed to resend invitations"
           end
    /\ error (app (world p')) <> []
    /\ loading (app (world p')) = false
    /\ heap (world p') = heap (world p)
    /\ requests (app (world p')) = requests (app (world p))
    /\ selectedRequest (app (world p')) = selectedRequest (app (world p))
    /\ currentView (app (world p')) = currentView (app (world p))
    /\ successMessage (app (world p')) = successMessage (app (world p))
    /\ feedbackReviewerEmail (app (world p')) = feedbackReviewerEmail (app (world p))
    /\ feedbackReviewerId (app (world p')) = feedbackReviewerId (app (world p)).
Proof.
  cbn [step]. destruct (nth_error (pending p) call) as [a|]; [|discriminate].
  intros H. injection H as <-. exists a. split; [reflexivity|].
  destruct a; cbn; repeat split; apply orElse_not_nil; discriminate.
Qed.

Lemma failed_call_changes_only_error_and_busy_witness :
  exists p',
    step noParams scenarioAwaiting (AgentReplies 0 (Rejected {| message := [] |}) scenarioEnv)
    = Some p'
    /\ error (app (world p')) = js "Failed to submit feedback".
Proof.
  assert (exists p', step noParams scenarioAwaiting
                       (AgentReplies 0 (Rejected {| message := [] |}) scenarioEnv) = Some p')
    as [p' Hstep] by (eexists; vm_compute; reflexivity).
  destruct (failed_call_changes_only_error_and_busy _ _ _ _ _ _ Hstep) as (a & Ha & He & _).
  exists p'. split; [exact Hstep|]. rewrite He.
  vm_compute in Ha. injection Ha as <-. reflexivity.
Defined.

(** ** Trimmed texts *)

Lemma trimStart_split s : exists blank, s = blank ++ trimStart s /\ hasInk blank = false.
Proof.
  induction s as [|c s [blank [E Hb]]]; [now exists []|]. simpl.
  destruct (isWhiteSpace c) eqn:W.
  - exists (c :: blank). split; [simpl; now rewrite <- E|].
    unfold hasInk. cbn [existsb]. rewrite W. exact Hb.
  - now exists [].
Qed.

Lemma trimStart_head s c rest : trimStart s = c :: rest -> isWhiteSpace c = false.
Proof.
  induction s as [|d s IH]; [discriminate|]. simpl.
  destruct (isWhiteSpace d) eqn:W; [exact IH|]. intros H. injection H as <- _. exact W.
Qed.

Lemma trimStart_fixed c rest : isWhiteSpace c = false -> trimStart (c :: rest) = c :: rest.
Proof. intros W. simpl. now rewrite W. Qed.

Lemma trimEnd_fixed rest d : isWhiteSpace d = false -> trimEnd (rest ++ [d]) = rest ++ [d].
Proof.
  intros W. unfold trimEnd. rewrite rev_app_distr.
  change (rev [d] ++ rev rest) with (d :: rev rest).
  rewrite trimStart_fixed by exact W. simpl. now rewrite rev_involutive.
Qed.

(** A trimmed text is empty, or starts and ends with ink. *)
Lemma trim_shape s :
  trim s = []
  \/ (exists c rest, trim s = c :: rest /\ isWhiteSpace c = false)
     /\ (exists rest d, trim s = rest ++ [d] /\ isWhiteSpace d = false).
Proof.
  unfold trim, trimEnd.
  destruct (trimStart s) as [|c u] eqn:Eu; [now left|].
  pose proof (trimStart_head _ _ _ Eu) as Wc.
  destruct (trimStart_split (rev (c :: u))) as [blank [E Hb]].
  destruct (trimStart (rev (c :: u))) as [|d v] eqn:Ev.
  - exfalso. rewrite app_nil_r in E. rewrite <- E, hasInk_rev in Hb.
    unfold hasInk in Hb. cbn [existsb] in Hb. now rewrite Wc in Hb.
  - right. pose proof (trimStart_head _ _ _ Ev) as Wd.
    apply (f_equal (@rev N)) in E. rewrite rev_involutive, rev_app_distr in E.
    split.
    + destruct (rev (d :: v)) as [|c' r'] eqn:Er.
      * apply (f_equal (@rev N)) in Er. rewrite rev_involutive in Er. discriminate.
      * simpl in E. injection E as -> _. now exists c', r'.
    + simpl. now exists (rev v), d.
Qed.

Lemma trim_idempotent s : trim (trim s) = trim s.
Proof.
  destruct (trim_shape s) as [E | [[c [rest [E Wc]]] [rest' [d [E' Wd]]]]].
  - rewrite E. reflexivity.
  - unfold trim at 1. rewrite E at 1. rewrite trimStart_fixed by exact Wc.
    rewrite <- E, E'. now apply trimEnd_fixed.
Qed.

(** ** The lines of the reviewer text *)

Lemma parseLine_fields line r e :
  parseLine line = r -> parsedEmail r = Some e ->
  exists first second rest,
    split 124 line = first :: second :: rest
    /\ parsedName r = trim first /\ e = trim second.
Proof.
  unfold parseLine. intros <-.
  destruct (split 124 line) as [|first [|second rest]]; simpl; try discriminate.
  intros H. injection H as <-. exists first, second, rest. rewrite orElse_nil_r. auto.
Qed.

(** Every reviewer kept comes from a line of the text with a '|' in it:
    the name is the trimmed text before the first '|', the email the
    trimmed text between the first '|' and the second or the end of the
    line, and it holds an '@'; what follows a second '|' is ignored.
    Neither the name nor the email starts or ends with white space. *)
Theorem kept_reviewers_come_from_bar_lines reviewerData x :
  In x (reviewerList reviewerData) ->
  exists line first second rest,
    In line (split 10 reviewerData)
    /\ split 124 line = first :: second :: rest
    /\ name x = trim first /\ email x = trim second
    /\ includes (email x) (js "@") = true
    /\ trim (name x) = name x /\ trim (email x) = email x.
Proof.
  intros Hx. pose proof (reviewerList_emails _ _ Hx) as Hat.
  unfold reviewerList in Hx. apply in_flat_map in Hx. destruct Hx as [r [Hr Hx]].
  apply filter_In in Hr. destruct Hr as [Hr _].
  unfold parseReviewers in Hr. apply in_map_iff in Hr. destruct Hr as [line [Hline Hin]].
  unfold narrow in Hx. destruct (parsedEmail r) as [e|] eqn:He; [|contradiction].
  destruct Hx as [<- | []].
  destruct (parseLine_fields _ _ _ Hline He) as (first & second & rest & Hs & Hn & ->).
  exists line, first, second, rest. cbn [name email] in *.
  rewrite Hn. repeat split; auto; apply trim_idempotent.
Qed.

Lemma kept_reviewers_come_from_bar_lines_witness :
  exists line first second rest,
    In line (split 10 (js "  John Doe | john@x.com |ignored"))
    /\ split 124 line = first :: second :: rest
    /\ js "John Doe" = trim first /\ js "john@x.com" = trim second.
Proof.
  destruct (kept_reviewers_come_from_bar_lines (js "  John Doe | john@x.com |ignored")
              {| name := js "John Doe"; email := js "john@x.com" |})
    as (line & first & second & rest & H1 & H2 & H3 & H4 & _).
  - vm_compute. left. reflexivity.
  - exists line, first, second, rest. auto.
Defined.

Lemma no_bar_no_reviewer reviewerData :
  ~ In 124 reviewerData -> reviewerList reviewerData = [].
Proof.
  intros Hbar. apply reviewerList_nil. intros r Hr.
  unfold parseReviewers in Hr. apply in_map_iff in Hr. destruct Hr as [line [<- Hline]].
  unfold hasEmail, parseLine. rewrite split_without; [reflexivity|].
  intros Hin. apply Hbar. exact (split_chars _ _ _ _ Hline Hin).
Qed.

(** A reviewer text without any '|', such as a list of bare email
    addresses, one per line, gives no reviewer: the form is refused with
    the message about reviewers and the agent is not called. *)
Theorem reviewer_text_without_bar_is_refused w candidateName candidateRole reviewerData :
  trim candidateName <> [] -> trim candidateRole <> [] -> trim reviewerData <> [] ->
  ~ In 124 reviewerData ->
  handleSubmit w candidateName candidateRole reviewerData
  = Finished (setError (js "Please enter at least one valid reviewer with email")
                (setSuccessMessage [] (setError [] w)))
  /\ awaited (handleSubmit w candidateName candidateRole reviewerData) = None.
Proof.
  intros Hn Hr Hd Hbar. unfold handleSubmit.
  apply truthy_true in Hn, Hr, Hd. rewrite Hn, Hr, Hd. cbn [negb orb].
  rewrite (no_bar_no_reviewer _ Hbar). split; reflexivity.
Qed.

Lemma reviewer_text_without_bar_is_refused_witness :
  handleSubmit initialWorld (js "Sarah Johnson") (js "Eng Manager")
    (js "john@x.com" ++ nl ++ js "jane@x.com")
  = Finished (setError (js "Please enter at least one valid reviewer with email")
                (setSuccessMessage [] (setError [] initialWorld))).
Proof.
  apply (reviewer_text_without_bar_is_refused initialWorld (js "Sarah Johnson")
           (js "Eng Manager") (js "john@x.com" ++ nl ++ js "jane@x.com"));
    try (vm_compute; discriminate).
  vm_compute. intuition discriminate.
Defined.

(** ** Request ids *)

Lemma js_injective s t : js s = js t -> s = t.
Proof.
  unfold js. intros H.
  rewrite <- (string_of_list_ascii_of_string s), <- (string_of_list_ascii_of_string t).
  f_equal. revert H. generalize (list_ascii_of_string s) (list_ascii_of_string t).
  induction l as [|a l IH]; intros [|b l'] H; try discriminate; [reflexivity|].
  simpl in H. injection H as Hab Hl. f_equal; [|now apply IH].
  rewrite <- (ascii_N_embedding a), <- (ascii_N_embedding b). now rewrite Hab.
Qed.

Lemma to_int_not_nil z :
  Z.to_int z <> Decimal.Pos Decimal.Nil /\ Z.to_int z <> Decimal.Neg Decimal.Nil.
Proof.
  destruct z as [|p|p]; simpl; split; try discriminate;
    intros H; injection H as H; now apply (DecimalPos.Unsigned.to_uint_nonnil p).
Qed.

Lemma decimal_injective a b : decimal a = decimal b -> a = b.
Proof.
  unfold decimal. intros H. apply js_injective in H.
  apply DecimalZ.to_int_inj.
  destruct (to_int_not_nil a) as [A1 A2]. destruct (to_int_not_nil b) as [B1 B2].
  pose proof (NilZero.isi _ A1 A2) as Ia. pose proof (NilZero.isi _ B1 B2) as Ib.
  rewrite H in Ia. rewrite Ia in Ib. now injection Ib.
Qed.

(** Two assessments that are created have the same id exactly when the
    clock read the same millisecond at both creations: the id is the
    decimal text of [Date.now()], and nothing else enters it. *)
Theorem assessment_ids_follow_the_clock
    requests1 name1 role1 reviewers1 data1 env1 w1 w1'
    requests2 name2 role2 reviewers2 data2 env2 w2 w2' :
  createRequest requests1 name1 role1 reviewers1 data1 env1 w1 = Ok w1' ->
  createRequest requests2 name2 role2 reviewers2 data2 env2 w2 = Ok w2' ->
  exists o1 o2,
    deref (heap w1') (List.length (heap w1)) = Some o1
    /\ deref (heap w2') (List.length (heap w2)) = Some o2
    /\ (FeedbackRequest.id o1 = FeedbackRequest.id o2 <-> now env1 = now env2).
Proof.
  intros H1 H2.
  destruct (createRequest_Ok _ _ _ _ _ _ _ _ H1) as (o1 & Hh1 & _ & Hid1 & _).
  destruct (createRequest_Ok _ _ _ _ _ _ _ _ H2) as (o2 & Hh2 & _ & Hid2 & _).
  exists o1, o2. rewrite Hh1, Hh2, Hid1, Hid2.
  split; [apply deref_alloc|]. split; [apply deref_alloc|].
  split; [apply decimal_injective | now intros ->].
Qed.

Lemma assessment_ids_follow_the_clock_witness :
  exists o1 o2,
    deref (heap scenarioTwice) 0%nat = Some o1
    /\ deref (heap scenarioTwice) 1%nat = Some o2
    /\ FeedbackRequest.id o1 = FeedbackRequest.id o2.
Proof.
  assert (createRequest [] (js "Sarah Johnson") (js "Eng Manager")
            [{| name := js "John"; email := js "john@x.com" |}] emptyData scenarioEnv
            initialWorld = Ok (scenarioCreated emptyData)) as H1 by (vm_compute; reflexivity).
  assert (createRequest [0%nat] (js "Ravi Patel") (js "Designer")
            [{| name := js "Ann"; email := js "ann@x.com" |}] emptyData scenarioEnv
            (scenarioCreated emptyData) = Ok scenarioTwice) as H2 by (vm_compute; reflexivity).
  destruct (assessment_ids_follow_the_clock _ _ _ _ _ _ _ _ _ _ _ _ _ _ _ _ H1 H2)
    as (o1 & o2 & D1 & D2 & Hiff).
  exists o1, o2. split; [|split; [exact D2 | exact (proj2 Hiff eq_refl)]].
  assert (deref (heap scenarioTwice) 0%nat = deref (heap (scenarioCreated emptyData)) 0%nat) as E
    by (vm_compute; reflexivity).
  rewrite E. exact D1.
Defined.

(** ** Feedback replaces by id *)

Lemma replaceById_kept h o selectedId updated r x :
  deref h r = Some x ->
  replaceById (h ++ [o]) selectedId updated r
  = if jsstring_eqb (FeedbackRequest.id x) selectedId then updated else r.
Proof. intros H. unfold replaceById. now rewrite (deref_kept _ _ _ _ H). Qed.

(** [handleFeedbackSubmit] rewrites the list of requests position by
    position: the list keeps its length, each place whose request has the
    id of the selected one now holds the new object, and every other
    place holds what it held.  So no request that has the selected id,
    the selected one or another one, is listed afterwards, and every
    request of another id still is. *)
Theorem feedback_replaces_requests_by_id w submission sel selected w1 call resume :
  selectedRequest (app w) = Some sel -> deref (heap w) sel = Some selected ->
  handleFeedbackSubmit w submission = Suspended w1 call resume ->
  List.length (requests (app w1)) = List.length (requests (app w))
  /\ (forall i r o,
        nth_error (requests (app w)) i = Some r -> deref (heap w) r = Some o ->
        nth_error (requests (app w1)) i
        = Some (if jsstring_eqb (FeedbackRequest.id o) (FeedbackRequest.id selected)
                then List.length (heap w) else r))
  /\ (forall r o,
        deref (heap w) r = Some o ->
        FeedbackRequest.id o = FeedbackRequest.id selected ->
        Forall (fun r' => (r' < List.length (heap w))%nat) (requests (app w)) ->
        ~ In r (requests (app w1)))
  /\ (forall r o,
        In r (requests (app w)) -> deref (heap w) r = Some o ->
        FeedbackRequest.id o <> FeedbackRequest.id selected ->
        In r (requests (app w1))).
Proof.
  intros Hsel Hderef Hrun.
  destruct (handleFeedbackSubmit_selected w submission sel selected Hsel Hderef)
    as (resume' & Hrun' & _).
  rewrite Hrun' in Hrun. injection Hrun as <- _ _. cbn [app requests].
  split; [apply length_map|]. split; [|split].
  - intros i r o Hi Ho. rewrite nth_error_map, Hi. cbn [option_map].
    now rewrite (replaceById_kept _ _ _ _ _ _ Ho).
  - intros r o Ho Hid Hvalid Hin. apply in_map_iff in Hin. destruct Hin as (r' & Hr' & Hin').
    rewrite Forall_forall in Hvalid.
    destruct (validRef_deref _ _ (Hvalid _ Hin')) as [o' Ho'].
    rewrite (replaceById_kept _ _ _ _ _ _ Ho') in Hr'.
    destruct (jsstring_eqb (FeedbackRequest.id o') (FeedbackRequest.id selected)) eqn:E.
    + now apply (deref_fresh _ _ _ Ho).
    + subst r'. rewrite Ho in Ho'. injection Ho' as <-.
      rewrite Hid, jsstring_eqb_refl in E. discriminate.
  - intros r o Hin Ho Hid. apply in_map_iff. exists r. split; [|exact Hin].
    rewrite (replaceById_kept _ _ _ _ _ _ Ho).
    destruct (jsstring_eqb (FeedbackRequest.id o) (FeedbackRequest.id selected)) eqn:E;
      [|reflexivity].
    apply jsstring_eqb_eq in E. contradiction.
Qed.

Lemma feedback_replaces_requests_by_id_witness :
  exists w1 call resume,
    handleFeedbackSubmit scenarioTwice
      (buildSubmission (scenarioRequest emptyData) (js "john@x.com") allFours noComments
         (js "2024-10-28T09:00:00.000Z"))
    = Suspended w1 call resume
    /\ requests (app scenarioTwice) = [0; 1]%nat
    /\ nth_error (requests (app w1)) 0%nat = Some 2%nat
    /\ nth_error (requests (app w1)) 1%nat = Some 2%nat.
Proof.
  assert (selectedRequest (app scenarioTwice) = Some 1%nat) as Hsel by (vm_compute; reflexivity).
  assert (exists o, deref (heap scenarioTwice) 1%nat = Some o) as [o Ho]
    by (eexists; vm_compute; reflexivity).
  assert (exists o', deref (heap scenarioTwice) 0%nat = Some o'
                     /\ FeedbackRequest.id o' = js "1730000000000") as (o' & Ho' & Hid')
    by (eexists; split; vm_compute; reflexivity).
  assert (FeedbackRequest.id o = js "1730000000000") as Hid
    by (vm_compute in Ho; injection Ho as <-; reflexivity).
  destruct (handleFeedbackSubmit_selected scenarioTwice
              (buildSubmission (scenarioRequest emptyData) (js "john@x.com") allFours noComments
                 (js "2024-10-28T09:00:00.000Z")) 1%nat o Hsel Ho) as (resume & Hrun & _).
  eexists _, _, resume. split; [exact Hrun|]. split; [vm_compute; reflexivity|].
  destruct (feedback_replaces_requests_by_id _ _ _ _ _ _ _ Hsel Ho Hrun) as (_ & Hat & _).
  split.
  - rewrite (Hat 0%nat 0%nat o' ltac:(vm_compute; reflexivity) Ho'), Hid', Hid.
    vm_compute. reflexivity.
  - rewrite (Hat 1%nat 1%nat o ltac:(vm_compute; reflexivity) Ho), Hid.
    vm_compute. reflexivity.
Defined.

(** ** The name of the evaluator *)

Lemma indexOf_bound arr x : (-1 <= indexOf arr x)%Z.
Proof.
  induction arr as [|y arr IH]; cbn [indexOf]; [lia|].
  destruct (jsstring_eqb y x); [lia|].
  destruct (indexOf arr x <? 0)%Z eqn:E; [lia|]. apply Z.ltb_ge in E. lia.
Qed.

Lemma indexOf_first before x after :
  ~ In x before -> indexOf (before ++ x :: after) x = Z.of_nat (List.length before).
Proof.
  induction before as [|y before IH]; intros Hnot.
  - cbn [List.app indexOf List.length]. now rewrite jsstring_eqb_refl.
  - cbn [List.app indexOf List.length].
    destruct (jsstring_eqb y x) eqn:E.
    + apply jsstring_eqb_eq in E. subst y. exfalso. apply Hnot. now left.
    + rewrite IH by (intros H; apply Hnot; now right).
      destruct (Z.of_nat (List.length before) <? 0)%Z eqn:L; [apply Z.ltb_lt in L; lia | lia].
Qed.

(** The form signs a submission with the name at the place where the
    evaluator's email first stands in the request: with an email listed
    twice the first listing gives the name, and a listing without a name
    is signed with the email itself. *)
Theorem evaluator_is_named_by_the_first_listing request mail scores textResponses isoNow
    before after names n names' :
  FeedbackRequest.reviewerEmails request = before ++ mail :: after ->
  ~ In mail before ->
  FeedbackRequest.reviewerNames request = names ++ n :: names' ->
  List.length names = List.length before ->
  let submission := buildSubmission request mail scores textResponses isoNow in
  FeedbackSubmission.reviewerName submission = orElse n mail
  /\ (n <> [] -> FeedbackSubmission.reviewerName submission = n)
  /\ (n = [] -> FeedbackSubmission.reviewerName submission = mail)
  /\ FeedbackSubmission.reviewerEmail submission = mail.
Proof.
  intros He Hnot Hn Hlen submission.
  assert (FeedbackSubmission.reviewerName submission = orElse n mail) as Hname.
  { unfold submission, buildSubmission. cbn [FeedbackSubmission.reviewerName].
    rewrite He, Hn, (indexOf_first _ _ _ Hnot). unfold at_index.
    destruct (Z.of_nat (List.length before) <? 0)%Z eqn:L; [apply Z.ltb_lt in L; lia|].
    rewrite Nat2Z.id, <- Hlen, nth_error_app2 by lia. now rewrite Nat.sub_diag. }
  split; [exact Hname|]. split; [|split; [|reflexivity]].
  - intros Hne. rewrite Hname. unfold orElse. destruct n; [contradiction | reflexivity].
  - intros ->. exact Hname.
Qed.

Lemma evaluator_is_named_by_the_first_listing_witness :
  FeedbackSubmission.reviewerName
    (buildSubmission (scenarioRequest emptyData) (js "john@x.com") allFours noComments
       (js "2024-10-28T09:00:00.000Z")) = js "John".
Proof.
  exact (proj1 (proj2 (evaluator_is_named_by_the_first_listing (scenarioRequest emptyData)
                  (js "john@x.com") allFours noComments (js "2024-10-28T09:00:00.000Z")
                  [] [] [] (js "John") [] eq_refl (fun H => H) eq_refl eq_refl))
           ltac:(discriminate)).
Defined.

(** ** The criteria on the screen and in the report *)

Lemma lookup_skip {A : Type} (before : list (jsstring * A)) k d after key :
  key <> k -> lookup (before ++ (k, d) :: after) key = lookup (before ++ after) key.
Proof.
  intros Hne. induction before as [|[k' d'] before IH]; cbn [List.app lookup].
  - destruct (jsstring_eqb k key) eqn:E; [|reflexivity].
    apply jsstring_eqb_eq in E. congruence.
  - now rewrite IH.
Qed.

Section Criteria.
Context {host : Host}.

(** The summary view reads the criterion breakdown of the payload under
    five fixed keys only, in its own order: it shows five rows whatever
    the payload holds, and an entry under another key changes none of
    them.  The report prints every entry of the breakdown, under
    whatever key, as [key: score/5 - feedback]. *)
Theorem screen_reads_five_criteria_report_prints_all request fb s :
  FeedbackRequest.feedback request = Some fb ->
  Feedback.feedback_summary fb = Some s ->
  let breakdown := orEmpty (Summary.criterion_breakdown s) in
  map rowLabel (criterionRows (SummaryView fb)) = map label criteriaList
  /\ criterionRows (SummaryView fb) = map (criterionRow breakdown) criteriaList
  /\ (forall before k d after,
        breakdown = before ++ (k, d) :: after ->
        (forall c, In c criteriaList -> key c <> k) ->
        criterionRows (SummaryView fb) = map (criterionRow (before ++ after)) criteriaList)
  /\ (forall k d,
        In (k, d) breakdown ->
        occursIn (k ++ js ": " ++ numberToString (CriterionScore.score d) ++ js "/5 - "
                  ++ CriterionScore.feedback d)
                 (generatePDFContent request)).
Proof.
  intros Hfb Hs breakdown.
  assert (criterionRows (SummaryView fb) = map (criterionRow breakdown) criteriaList) as Hrows
    by (unfold SummaryView; now rewrite Hs).
  split; [rewrite Hrows; reflexivity|]. split; [exact Hrows|]. split.
  - intros before k d after Hb Hk. rewrite Hrows. apply map_ext_in. intros c Hc.
    unfold criterionRow, criterionData. rewrite Hb.
    now rewrite (lookup_skip before k d after (key c) (Hk c Hc)).
  - intros k d Hin.
    apply occursIn_trans with (y := breakdownLines s).
    + unfold breakdownLines. apply join_In.
      apply (in_map (fun entry : jsstring * CriterionScore.t =>
                       let (key, data) := entry in
                       key ++ js ": " ++ numberToString (CriterionScore.score data)
                       ++ js "/5 - " ++ CriterionScore.feedback data) _ (k, d) Hin).
    + apply (report_line request 29%nat); [|lia]. unfold reportLines. now rewrite Hfb, Hs.
Qed.

End Criteria.

Lemma screen_reads_five_criteria_report_prints_all_witness :
  occursIn (js "leadership_vision: 4/5 - Sets direction")
    (generatePDFContent (host := scenarioHost) (scenarioRequest scenarioData)).
Proof.
  exact (proj2 (proj2 (proj2
           (screen_reads_five_criteria_report_prints_all (host := scenarioHost)
              (scenarioRequest scenarioData)
              {| Feedback.feedback_summary := Some scenarioSummary |} scenarioSummary
              eq_refl eq_refl)))
           (js "leadership_vision")
           {| CriterionScore.score := 4%Q; CriterionScore.feedback := js "Sets direction" |}
           (or_introl eq_refl)).
Defined.

(** ** The report and the submitted feedback *)

Section ExportedReport.
Context {host : Host}.

Lemma generatePDFContent_updated request submission :
  generatePDFContent (updatedRequest request submission) = generatePDFContent request.
Proof. reflexivity. Qed.


End ExportedReport.


(** ** Resending the invitations *)

(** [handleResendInvitations] always calls the agent, with a prompt that
    names the candidate and every reviewer email of the request.  It
    writes to no object and moves neither the list, the selection nor
    the view, and it does not clear an error shown before: when the call
    resolves only the success message and the busy flag change. *)
Theorem resend_names_the_reviewers_and_changes_no_request w request :
  exists w1 call resume,
    handleResendInvitations w request = Suspended w1 call resume
    /\ agentId call = theAgent
    /\ occursIn (FeedbackRequest.candidateName request) (prompt call)
    /\ (forall e, In e (FeedbackRequest.reviewerEmails request) -> occursIn e (prompt call))
    /\ w1 = setLoading true w
    /\ forall outcome env w2,
         let w3 := resume outcome env w2 in
         heap w3 = heap w2
         /\ requests (app w3) = requests (app w2)
         /\ selectedRequest (app w3) = selectedRequest (app w2)
         /\ currentView (app w3) = currentView (app w2)
         /\ loading (app w3) = false
         /\ (forall data, outcome = Resolved data ->
               successMessage (app w3) = js "Invitations resent successfully!"
               /\ error (app w3) = error (app w2)).
Proof.
  eexists _, _, _. split; [reflexivity|]. cbn [agentId prompt]. split; [reflexivity|].
  split; [|split; [|split; [reflexivity|]]].
  - unfold resendMessage.
    apply occursIn_trans with (y := js "      - Candidate: " ++ FeedbackRequest.candidateName request).
    + apply occursIn_app_l, occursIn_refl.
    + apply join_In. right. now left.
  - intros e He. unfold resendMessage.
    apply occursIn_trans
      with (y := js "      - Reviewers: " ++ join (js ", ") (FeedbackRequest.reviewerEmails request)).
    + apply occursIn_app_l. now apply join_In.
    + apply join_In. right. right. now left.
  - intros [data|err] env w2; cbn; repeat split; intros; try discriminate; reflexivity.
Qed.

(** ** A submission under the query of a link *)

Lemma findById_replaced h updated assessmentId rs :
  FeedbackRequest.id updated = assessmentId ->
  Forall (fun r => (r < List.length h)%nat) rs ->
  Exists (fun r => exists o, deref h r = Some o /\ FeedbackRequest.id o = assessmentId) rs ->
  findById (h ++ [updated])
    (map (replaceById (h ++ [updated]) assessmentId (List.length h)) rs) assessmentId
  = Some (List.length h).
Proof.
  intros Hid Hvalid Hex. induction rs as [|r rs IH]; [inversion Hex|].
  apply Forall_cons_iff in Hvalid. destruct Hvalid as [Hr Hrs].
  destruct (validRef_deref _ _ Hr) as [o Ho].
  cbn [map findById]. rewrite (replaceById_kept _ _ _ _ _ _ Ho).
  destruct (jsstring_eqb (FeedbackRequest.id o) assessmentId) eqn:E.
  - rewrite deref_alloc, Hid. now rewrite jsstring_eqb_refl.
  - rewrite (deref_kept _ _ _ _ Ho), E. apply IH; [exact Hrs|].
    apply Exists_cons in Hex. destruct Hex as [(o' & Ho' & Hid')|Hex]; [|exact Hex].
    rewrite Ho in Ho'. injection Ho' as <-. rewrite Hid', jsstring_eqb_refl in E.
    discriminate.
Qed.

(** On a page whose query names the selected assessment, a submission of
    the form does not end on the input view with empty reviewer cells, as
    [handleFeedbackSubmit] leaves them: the new list of requests runs the
    router again, which finds the updated request under the id of the
    query, and the page shows the form again, bound to the updated
    request and to the email and the token of the query, under the
    thanks of the submission. *)
Theorem feedback_form_reopens_under_a_matching_query params p scores textResponses isoNow p'
    token mail sel selected :
  Reachable params p ->
  reviewerIdParam params = Some token -> token <> [] ->
  emailParam params = Some mail -> mail <> [] ->
  selectedRequest (app (world p)) = Some sel ->
  deref (heap (world p)) sel = Some selected ->
  FeedbackRequest.id selected <> [] ->
  assessmentIdParam params = Some (FeedbackRequest.id selected) ->
  step params p (SubmitFeedback scores textResponses isoNow) = Some p' ->
  mainContent (world p')
  = FeedbackFormScreen (List.length (heap (world p))) mail
  /\ deref (heap (world p')) (List.length (heap (world p)))
     = Some (updatedRequest selected
               (buildSubmission selected (feedbackReviewerEmail (app (world p)))
                  scores textResponses isoNow))
  /\ feedbackReviewerId (app (world p')) = token
  /\ successMessage (app (world p')) = thanks
  /\ loading (app (world p')) = true.
Proof.
  intros Hreach Htok Htok' Hmail Hmail' Hsel Hderef Hid' Hid Hstep.
  destruct (Reachable_PageOK _ _ Hreach) as (_ & Hvalid & Hlisted & _).
  cbn [step] in Hstep.
  destruct (isFeedbackView (currentView (app (world p))) && negb (loading (app (world p))));
    [|discriminate].
  rewrite Hsel in Hstep. unfold submitFeedbackForm in Hstep. rewrite Hsel, Hderef in Hstep.
  destruct (handleFeedbackSubmit_selected (world p)
              (buildSubmission selected (feedbackReviewerEmail (app (world p))) scores
                 textResponses isoNow) sel selected Hsel Hderef) as (resume & Hrun & _).
  rewrite Hrun in Hstep. injection Hstep as <-. cbn [world].
  unfold routeEffect. rewrite Htok, Hmail, Hid.
  apply truthy_true in Htok', Hmail', Hid'. rewrite Htok', Hmail', Hid'.
  cbn [andb heap app requests].
  rewrite findById_replaced.
  - cbn. rewrite deref_alloc. repeat split.
  - reflexivity.
  - exact Hvalid.
  - apply Exists_exists. exists sel. split; [now apply Hlisted|]. now exists selected.
Qed.

Lemma feedback_form_reopens_under_a_matching_query_witness :
  exists p',
    step linkParams linkedPage (SubmitFeedback allFours noComments (js "2024-10-28T09:00:00.000Z"))
    = Some p'
    /\ mainContent (world linkedPage) = FeedbackFormScreen 0%nat (js "john@x.com")
    /\ mainContent (world p') = FeedbackFormScreen 1%nat (js "john@x.com").
Proof.
  assert (exists p', step linkParams linkedPage
                       (SubmitFeedback allFours noComments (js "2024-10-28T09:00:00.000Z"))
                     = Some p') as [p' Hstep] by (eexists; vm_compute; reflexivity).
  exists p'. split; [exact Hstep|]. split; [vm_compute; reflexivity|].
  assert (Reachable linkParams linkedPage) as Hreach.
  { apply (reach_step linkParams
             match step linkParams (firstPage linkParams)
                     (SubmitAssessment (js "Sarah Johnson") (js "Eng Manager")
                        (js "John|john@x.com")) with
             | Some p => p
             | None => firstPage linkParams
             end
             (AgentReplies 0 (Resolved emptyData) scenarioEnv)); [|vm_compute; reflexivity].
    apply (reach_step linkParams (firstPage linkParams)
             (SubmitAssessment (js "Sarah Johnson") (js "Eng Manager") (js "John|john@x.com")));
      [apply reach_first | vm_compute; reflexivity]. }
  assert (deref (heap (world linkedPage)) 0%nat = Some (scenarioRequest emptyData)) as Hderef
    by (vm_compute; reflexivity).
  assert (List.length (heap (world linkedPage)) = 1%nat) as Hlen by (vm_compute; reflexivity).
  rewrite <- Hlen.
  exact (proj1 (feedback_form_reopens_under_a_matching_query linkParams linkedPage allFours
                  noComments (js "2024-10-28T09:00:00.000Z") p'
                  (js "am9obkB4LmNvbS0xNzMwMDAwMDAwMDAw") (js "john@x.com") 0%nat
                  (scenarioRequest emptyData) Hreach eq_refl ltac:(discriminate) eq_refl
                  ltac:(discriminate) ltac:(vm_compute; reflexivity) Hderef
                  ltac:(discriminate) eq_refl Hstep)).
Defined.
